(** * nc_py_api.files: a shallow embedding of the WebDAV file-system API

    The development follows [src/nc_py_api/files.py]:
    - Python values ([PyVal]) as they come out of [xmltodict] / [json.loads]
      and as they are put into a search request list;
    - exceptions as an error type, [Res] for code that only raises, and a
      state-and-error monad [M] for code that talks to the server;
    - the search request compiler [_build_search_req];
    - the record parser [_parse_record] / [_parse_records];
    - the multistatus decoder [_lf_parse_webdav_records];
    - the facade operations [listdir], [by_path], [by_id], [find], [listfav],
      [setfav], [mkdir], [makedirs], [delete], [move], [copy];
    and, from [src/nc_py_api/ex_app/integration_fastapi.py], the
    authentication middleware.

    Python strings are modelled by [string], read as a sequence of code points
    below 256.  Python integers are unbounded and modelled by [Z]. *)

From Stdlib Require Import ZArith Ascii DecimalString.
From stdpp Require Import gmap strings list.

Local Open Scope Z_scope.
Set Warnings "-register-all".

(** ** Strings *)

Module Str.

Definition eqb (a b : string) : bool := String.eqb a b.

Definition is_char (c d : ascii) : bool := Ascii.eqb c d.

(** Python truthiness of a string: non-empty. *)
Definition truthy (s : string) : bool :=
  match s with EmptyString => false | String _ _ => true end.

(** [s.startswith(p)] *)
Fixpoint startswith (p s : string) : bool :=
  match p, s with
  | EmptyString, _ => true
  | String a p', String b s' => is_char a b && startswith p' s'
  | String _ _, EmptyString => false
  end.

(** [s.find(sub) != -1] *)
Fixpoint contains (sub s : string) : bool :=
  startswith sub s
  || match s with
     | EmptyString => false
     | String _ s' => contains sub s'
     end.

(** [s.lstrip(c)] for a one-character argument. *)
Fixpoint lstrip (c : ascii) (s : string) : string :=
  match s with
  | EmptyString => EmptyString
  | String a s' => if is_char a c then lstrip c s' else s
  end.

(** [s.rstrip(c)] for a one-character argument. *)
Fixpoint rstrip (c : ascii) (s : string) : string :=
  match s with
  | EmptyString => EmptyString
  | String a s' =>
      match rstrip c s' with
      | EmptyString => if is_char a c then EmptyString else String a EmptyString
      | r => String a r
      end
  end.

(** [s.endswith(c)] for a one-character argument. *)
Fixpoint endswith (c : ascii) (s : string) : bool :=
  match s with
  | EmptyString => false
  | String a EmptyString => is_char a c
  | String _ s' => endswith c s'
  end.

Fixpoint has_char (c : ascii) (s : string) : bool :=
  match s with
  | EmptyString => false
  | String a s' => is_char a c || has_char c s'
  end.

(** [s.rsplit(c, maxsplit=1)[-1]]: what follows the last [c], the whole
    string when there is none. *)
Fixpoint rsplit_last (c : ascii) (s : string) : string :=
  match s with
  | EmptyString => EmptyString
  | String a s' =>
      if has_char c s' then rsplit_last c s'
      else if is_char a c then s' else s
  end.

(** [s.split(c)] *)
Fixpoint split (c : ascii) (s : string) : list string :=
  match s with
  | EmptyString => [EmptyString]
  | String a s' =>
      if is_char a c then EmptyString :: split c s'
      else match split c s' with
           | [] => [String a EmptyString]
           | w :: ws => String a w :: ws
           end
  end.

(** [s.replace(old, new)]: every non-overlapping occurrence, left to right.
    [skip] counts the characters of a match still to be dropped. *)
Fixpoint replace_from (old new : string) (skip : nat) (s : string) : string :=
  match s with
  | EmptyString => EmptyString
  | String a s' =>
      match skip with
      | S k => replace_from old new k s'
      | O =>
          if startswith old s
          then new +:+ replace_from old new (Nat.pred (String.length old)) s'
          else String a (replace_from old new O s')
      end
  end.

Fixpoint concat_map (f : ascii -> string) (s : string) : string :=
  match s with
  | EmptyString => EmptyString
  | String a s' => f a +:+ concat_map f s'
  end.

(** An empty [old] matches before every character and at the end; the code
    calls [replace] with a non-empty [old] only. *)
Definition replace (old new s : string) : string :=
  match old with
  | EmptyString => new +:+ concat_map (fun a => String a new) s
  | _ => replace_from old new O s
  end.

(** [str(z)] for an integer. *)
Definition of_Z (z : Z) : string := NilZero.string_of_int (Z.to_int z).

Fixpoint join (sep : string) (l : list string) : string :=
  match l with
  | [] => EmptyString
  | [x] => x
  | x :: l' => x +:+ sep +:+ join sep l'
  end.

Definition backslash : ascii := ascii_of_N 92.
Definition dquote : ascii := ascii_of_N 34.
Definition squote : ascii := ascii_of_N 39.

Definition hex_digit (n : N) : ascii :=
  if (n <? 10)%N then ascii_of_N (48 + n) else ascii_of_N (87 + n).

(** One character of [repr(s)], [q] being the chosen quote. *)
Definition repr_char (q : ascii) (a : ascii) : string :=
  let n := N_of_ascii a in
  if is_char a q || is_char a backslash then String backslash (String a EmptyString)
  else if (n =? 9)%N then String backslash "t"
  else if (n =? 10)%N then String backslash "n"
  else if (n =? 13)%N then String backslash "r"
  else if (n <? 32)%N || ((127 <=? n)%N && (n <=? 160)%N) || (n =? 173)%N
  then String backslash (String "x"%char
         (String (hex_digit (n / 16)) (String (hex_digit (n mod 16)) EmptyString)))
  else String a EmptyString.

(** [repr(s)]: single quotes, unless the string has a single quote and no
    double quote. *)
Definition repr (s : string) : string :=
  let q := if has_char squote s && negb (has_char dquote s)
           then dquote else squote in
  String q (concat_map (repr_char q) s) +:+ String q EmptyString.

End Str.

(** ** Python values *)

Inductive PyVal : Type :=
| PNone
| PBool (b : bool)
| PInt (z : Z)
| PStr (s : string)
| PList (l : list PyVal)
| PDict (d : list (string * PyVal)).

Definition is_None (v : PyVal) : bool :=
  match v with PNone => true | _ => false end.

(** [repr(v)] *)
Fixpoint py_repr (v : PyVal) : string :=
  match v with
  | PNone => "None"
  | PBool b => if b then "True" else "False"
  | PInt z => Str.of_Z z
  | PStr s => Str.repr s
  | PList l => "[" +:+ Str.join ", " (map py_repr l) +:+ "]"
  | PDict d =>
      "{" +:+ Str.join ", " (map (fun kv => Str.repr (fst kv) +:+ ": " +:+ py_repr (snd kv)) d)
          +:+ "}"
  end.

(** [str(v)], which is also what an f-string writes for [{v}]. *)
Definition py_str (v : PyVal) : string :=
  match v with
  | PStr s => s
  | _ => py_repr v
  end.

(** A dict keeps its insertion order; a key is looked up by equality. *)
Fixpoint dict_get (k : string) (d : list (string * PyVal)) : option PyVal :=
  match d with
  | [] => None
  | (k', v) :: d' => if Str.eqb k' k then Some v else dict_get k d'
  end.

Definition dict_has (k : string) (d : list (string * PyVal)) : bool :=
  match dict_get k d with Some _ => true | None => false end.

(** ** Exceptions and the result type *)

(** The built-in and library exceptions the module can meet. *)
Inductive Builtin : Type :=
| KeyError
| TypeError
| ValueError
| IndexError
| AttributeError
| OverflowError
| ExpatError.

(** [NextcloudException(status_code, reason, info)]; [status_code] is [None]
    where the source leaves it to the constructor's default.  [OutOfFuel] is
    no Python exception: it is what a recursion of the model answers when its
    fuel is used up, which [build_search_terminates] excludes. *)
Inductive Exn : Type :=
| NextcloudException (status_code : option Z) (reason info : string)
| Py (e : Builtin)
| OutOfFuel.

Coercion Py : Builtin >-> Exn.

Inductive Result (E A : Type) : Type :=
| Ok (a : A)
| Raise (e : E).
Arguments Ok {E A} a.
Arguments Raise {E A} & e.

(** Code that may raise anything, and code that raises built-ins only. *)
Abbreviation Res := (Result Exn).
Abbreviation BRes := (Result Builtin).

Global Instance Result_ret {E : Type} : MRet (Result E) := fun A a => Ok a.
Global Instance Result_bind {E : Type} : MBind (Result E) := fun A B f m =>
  match m with
  | Ok a => f a
  | Raise e => Raise e
  end.

(** A built-in exception seen where any exception may pass. *)
Definition lib {A : Type} (r : BRes A) : Res A :=
  match r with
  | Ok a => Ok a
  | Raise e => Raise (Py e)
  end.

Definition is_NextcloudException (e : Exn) : bool :=
  match e with NextcloudException _ _ _ => true | _ => false end.

(** ** XML elements ([xml.etree.ElementTree.Element]) *)

Inductive Element : Type :=
  mkElement { tag : string;
              attrib : list (string * string);
              text : option string;
              children : list Element }.

(** [ElementTree.Element(tag, attrib)] *)
Definition new_element (t : string) (a : list (string * string)) : Element :=
  mkElement t a None [].

(** [parent.append(child)]: what [SubElement(parent, ...)] has done to
    [parent] once the child is complete. *)
Definition append_child (parent child : Element) : Element :=
  mkElement (tag parent) (attrib parent) (text parent) (children parent ++ [child]).

Definition set_text (e : Element) (s : string) : Element :=
  mkElement (tag e) (attrib e) (Some s) (children e).

(** ** The search request compiler *)

Definition PROPFIND_PROPERTIES : list string :=
  [ "d:resourcetype"; "d:getlastmodified"; "d:getcontentlength"; "d:getetag";
    "oc:size"; "oc:id"; "oc:fileid"; "oc:downloadURL"; "oc:dDC";
    "oc:permissions"; "oc:checksums"; "oc:share-types"; "oc:favorite";
    "nc:is-encrypted"; "nc:lock"; "nc:lock-owner-displayname"; "nc:lock-owner";
    "nc:lock-owner-type"; "nc:lock-owner-editor"; "nc:lock-time";
    "nc:lock-timeout" ].

Definition SEARCH_PROPERTIES_MAP : gmap string string :=
  list_to_map
    [ ("name:", "d:displayname");
      ("mime", "d:getcontenttype");
      ("last_modified", "d:getlastmodified");
      ("size", "oc:size");
      ("favorite", "oc:favorite");
      ("fileid", "oc:fileid") ].

(** [SEARCH_PROPERTIES_MAP[key]]: a list or a dict is unhashable, any other
    key that is not in the table is a [KeyError]. *)
Definition search_property (key : PyVal) : BRes string :=
  match key with
  | PStr k =>
      match SEARCH_PROPERTIES_MAP !! k with
      | Some p => Ok p
      | None => Raise KeyError
      end
  | PList _ | PDict _ => Raise TypeError
  | PNone | PBool _ | PInt _ => Raise KeyError
  end.

(** [req.pop(0)] *)
Definition pop0 (req : list PyVal) : BRes (PyVal * list PyVal) :=
  match req with
  | [] => Raise IndexError
  | x :: req' => Ok (x, req')
  end.

(** [v in ("or", "and")] *)
Definition is_or_and (v : PyVal) : bool :=
  match v with
  | PStr s => Str.eqb s "or" || Str.eqb s "and"
  | _ => false
  end.

(** The work list [req] and the element under construction are mutated in
    place by the source; here both are passed in and returned.  When an
    exception is raised the partly built element is lost, as it is in [find].

    [_process_or_and] and [_add_value] call each other; [_process_or_and]
    takes the recursive call as [add_value].  The recursion is on [fuel];
    Python's own recursion limit is not modelled. *)
Definition _process_or_and
    (add_value : Element -> PyVal -> list PyVal -> Res (Element * list PyVal))
    (xml_element : Element) (or_and : PyVal) (req : list PyVal)
  : Res (Element * list PyVal) :=
  let _where_part_root := new_element ("d:" +:+ py_str or_and) [] in
  '(r1, req1) ← add_value _where_part_root PNone req;
  '(r2, req2) ← add_value r1 PNone req1;
  mret (append_child xml_element r2, req2).

Fixpoint _add_value (fuel : nat) (xml_element : Element) (val : PyVal)
    (req : list PyVal) : Res (Element * list PyVal) :=
  match fuel with
  | O => Raise OutOfFuel
  | S fuel' =>
      '(first_val, req0) ← match val with
                           | PNone => lib (pop0 req)
                           | _ => Ok (val, req)
                           end;
      if is_or_and first_val
      then _process_or_and (_add_value fuel') xml_element first_val req0
      else
        let _root := new_element ("d:" +:+ py_str first_val) [] in
        '(field, req1) ← lib (pop0 req0);
        property ← lib (search_property field);
        let prop := append_child (new_element "d:prop" []) (new_element property []) in
        '(value, req2) ← lib (pop0 req1);
        let literal := set_text (new_element "d:literal" []) (py_str value) in
        mret (append_child xml_element (append_child (append_child _root prop) literal),
              req2)
  end.

(** The [while len(req)] loop.  Every round pops at least one value, so
    [length req] rounds are enough. *)
Fixpoint build_search_loop (fuel : nat) (xml_element_where : Element)
    (req : list PyVal) : Res (Element * list PyVal) :=
  match req with
  | [] => Ok (xml_element_where, [])
  | where_part :: req0 =>
      match fuel with
      | O => Raise OutOfFuel
      | S fuel' =>
          '(w, req1) ←
            (if is_or_and where_part
             then _process_or_and (_add_value (S (length req0)))
                    xml_element_where where_part req0
             else _add_value (S (length req0)) xml_element_where where_part req0);
          build_search_loop fuel' w req1
      end
  end.

Definition _build_search_req (xml_element_where : Element) (req : list PyVal)
  : Res (Element * list PyVal) :=
  build_search_loop (length req) xml_element_where req.


(** ** Operations on values *)

(** [int(v)].  [int_of_str] is Python's [int] on a string, [None] standing
    for [ValueError]. *)
Definition py_int (int_of_str : string -> option Z) (v : PyVal) : BRes Z :=
  match v with
  | PInt z => Ok z
  | PBool b => Ok (if b then 1 else 0)
  | PStr s =>
      match int_of_str s with
      | Some z => Ok z
      | None => Raise ValueError
      end
  | PNone | PList _ | PDict _ => Raise TypeError
  end.

(** [v.get(k, default)]: only a dict has [get]. *)
Definition py_get (v : PyVal) (k : string) (default : PyVal) : BRes PyVal :=
  match v with
  | PDict d => Ok (match dict_get k d with Some x => x | None => default end)
  | _ => Raise AttributeError
  end.

(** [v[k]] for a string key [k]. *)
Definition py_getitem (v : PyVal) (k : string) : BRes PyVal :=
  match v with
  | PDict d =>
      match dict_get k d with
      | Some x => Ok x
      | None => Raise KeyError
      end
  | _ => Raise TypeError
  end.

(** [for x in v] *)
Definition py_iter (v : PyVal) : BRes (list PyVal) :=
  match v with
  | PList l => Ok l
  | PDict d => Ok (map (fun kv => PStr (fst kv)) d)
  | PStr s => Ok (map (fun a => PStr (String a EmptyString)) (String.list_ascii_of_string s))
  | PNone | PBool _ | PInt _ => Raise TypeError
  end.

(** ** The platform: library functions, the session and the server

    What the module imports and what [self._session] gives is collected here;
    everything below is stated for every platform. *)

Module httpx.
Record Response : Type := mkResponse { status_code : Z; text : string }.
End httpx.

Record Request : Type :=
  mkRequest { method : string;
              url : string;
              data : option Element;
              headers : list (string * string) }.

Class Platform (datetime Server : Type) : Type := {
  (** [datetime(1970, 1, 1)], [datetime] being [datetime.datetime] *)
  epoch : datetime;
  (** [email.utils.parsedate_to_datetime] *)
  parsedate_to_datetime : string -> BRes datetime;
  (** [int] on a string *)
  int_of_str : string -> option Z;
  (** [urllib.parse.unquote] *)
  unquote : PyVal -> BRes string;
  (** [loads(dumps(xmltodict.parse(text)))]: the document as a dict *)
  xmltodict_parse : string -> BRes (list (string * PyVal));
  (** the status codes [check_error] rejects, and their reason phrases *)
  http_is_error : Z -> bool;
  http_phrase : Z -> string;
  (** [self._session.user] and [self._session.cfg.dav_url_suffix] *)
  session_user : string;
  dav_url_suffix : string;
  (** [self._session.dav]: one round trip to the server, whose state is a
      [Server] *)
  dav : Request -> Server -> httpx.Response * Server
}.

Section Files.
Context {datetime Server : Type} {P : Platform datetime Server}.

(** ** FsNode *)

(** [info["last_modified"]] holds a datetime, or whatever non-string value
    the setter was given. *)
Inductive LastModified : Type :=
| LMDate (d : datetime)
| LMRaw (v : PyVal).

Record FsNodeInfo : Type :=
  mkInfo { nc_id : PyVal;
           fileid : Z;
           etag : PyVal;
           size : Z;
           content_length : Z;
           info_last_modified : LastModified;
           permissions : PyVal;
           favorite : bool }.

Record FsNode : Type :=
  mkFsNode { user : string; path : string; name : string; info : FsNodeInfo }.

(** [FsNode(user=..., path=..., name=...)], no further keyword argument. *)
Definition FsNode_init (user path name : string) : FsNode :=
  mkFsNode user path name
    (mkInfo (PStr "") 0 (PStr "") 0 0 (LMDate epoch) (PStr "") false).

Definition with_info (f : FsNodeInfo -> FsNodeInfo) (n : FsNode) : FsNode :=
  mkFsNode (user n) (path n) (name n) (f (info n)).

Definition set_nc_id (v : PyVal) (i : FsNodeInfo) : FsNodeInfo :=
  mkInfo v (fileid i) (etag i) (size i) (content_length i) (info_last_modified i)
         (permissions i) (favorite i).
Definition set_fileid (z : Z) (i : FsNodeInfo) : FsNodeInfo :=
  mkInfo (nc_id i) z (etag i) (size i) (content_length i) (info_last_modified i)
         (permissions i) (favorite i).
Definition set_etag (v : PyVal) (i : FsNodeInfo) : FsNodeInfo :=
  mkInfo (nc_id i) (fileid i) v (size i) (content_length i) (info_last_modified i)
         (permissions i) (favorite i).
Definition set_size (z : Z) (i : FsNodeInfo) : FsNodeInfo :=
  mkInfo (nc_id i) (fileid i) (etag i) z (content_length i) (info_last_modified i)
         (permissions i) (favorite i).
Definition set_content_length (z : Z) (i : FsNodeInfo) : FsNodeInfo :=
  mkInfo (nc_id i) (fileid i) (etag i) (size i) z (info_last_modified i)
         (permissions i) (favorite i).
Definition set_info_last_modified (l : LastModified) (i : FsNodeInfo) : FsNodeInfo :=
  mkInfo (nc_id i) (fileid i) (etag i) (size i) (content_length i) l
         (permissions i) (favorite i).
Definition set_permissions (v : PyVal) (i : FsNodeInfo) : FsNodeInfo :=
  mkInfo (nc_id i) (fileid i) (etag i) (size i) (content_length i) (info_last_modified i)
         v (favorite i).
Definition set_favorite (b : bool) (i : FsNodeInfo) : FsNodeInfo :=
  mkInfo (nc_id i) (fileid i) (etag i) (size i) (content_length i) (info_last_modified i)
         (permissions i) b.

(** The [last_modified] property: getter and setter. *)
Definition last_modified (n : FsNode) : LastModified := info_last_modified (info n).

Definition set_last_modified (n : FsNode) (value : PyVal) : BRes FsNode :=
  match value with
  | PStr s =>
      d ← parsedate_to_datetime s;
      mret (with_info (set_info_last_modified (LMDate d)) n)
  | _ => mret (with_info (set_info_last_modified (LMRaw value)) n)
  end.

Definition is_dir (n : FsNode) : bool := Str.endswith "/" (path n).

Definition full_path (n : FsNode) : string :=
  if Str.truthy (user n) then user n +:+ "/" +:+ Str.lstrip "/" (path n) else path n.

(** ** The record parser *)

(** [if key in prop_keys: ...prop[key]...] *)
Definition if_key (key : string) (prop : list (string * PyVal))
    (f : PyVal -> FsNode -> BRes FsNode) (n : FsNode) : BRes FsNode :=
  match dict_get key prop with
  | Some v => f v n
  | None => Ok n
  end.

(** The [try: fs_node.last_modified = ... except ValueError: pass] block. *)
Definition try_set_last_modified (v : PyVal) (n : FsNode) : BRes FsNode :=
  match set_last_modified n v with
  | Raise ValueError => Ok n
  | r => r
  end.

(** One round of the loop over [prop_stats]. *)
Definition parse_prop_stat (fs_node : FsNode) (prop_stat : PyVal) : BRes FsNode :=
  status ← py_get prop_stat "d:status" (PStr "");
  if negb (Str.contains "200 OK" (py_str status)) then mret fs_node
  else
    prop ← py_getitem prop_stat "d:prop";
    match prop with
    | PDict prop =>
        n ← if_key "oc:id" prop (fun v n => mret (with_info (set_nc_id v) n)) fs_node;
        n ← if_key "oc:fileid" prop
              (fun v n => z ← py_int int_of_str v; mret (with_info (set_fileid z) n)) n;
        n ← if_key "oc:size" prop
              (fun v n => z ← py_int int_of_str v; mret (with_info (set_size z) n)) n;
        n ← if_key "d:getcontentlength" prop
              (fun v n => z ← py_int int_of_str v;
                          mret (with_info (set_content_length z) n)) n;
        n ← if_key "d:getetag" prop (fun v n => mret (with_info (set_etag v) n)) n;
        n ← if_key "d:getlastmodified" prop try_set_last_modified n;
        n ← if_key "oc:permissions" prop
              (fun v n => mret (with_info (set_permissions v) n)) n;
        if_key "oc:favorite" prop
          (fun v n => z ← py_int int_of_str v;
                      mret (with_info (set_favorite (negb (z =? 0))) n)) n
    | _ => Raise AttributeError
    end.

Fixpoint parse_prop_stats (fs_node : FsNode) (prop_stats : list PyVal) : BRes FsNode :=
  match prop_stats with
  | [] => Ok fs_node
  | prop_stat :: rest =>
      n ← parse_prop_stat fs_node prop_stat;
      parse_prop_stats n rest
  end.

Definition _parse_record (prop_stats : list PyVal) (user obg_rel_path obj_name : string)
  : BRes FsNode :=
  parse_prop_stats (FsNode_init user obg_rel_path obj_name) prop_stats.

(** ** Talking to the server: state and exceptions

    A [World] is the server together with the requests sent so far, oldest
    first.  The list of requests is not in the source; it is kept to state
    which requests an operation issues. *)

Record World : Type := mkWorld { server : Server; sent : list Request }.

Definition M (A : Type) : Type := World -> Res A * World.

Global Instance M_ret : MRet M := fun A a w => (Ok a, w).
Global Instance M_bind : MBind M := fun A B f m w =>
  match m w with
  | (Ok a, w') => f a w'
  | (Raise e, w') => (Raise e, w')
  end.

Definition raise {A : Type} (e : Exn) : M A := fun w => (Raise e, w).

Definition lift {A : Type} (r : Res A) : M A := fun w => (r, w).

(** Pure code that raises built-ins only, run inside an operation. *)
Definition pure {A : Type} (r : BRes A) : M A := lift (lib r).

(** [try: m except Exception as e: h(e)] *)
Definition try_except {A : Type} (m : M A) (h : Exn -> M A) : M A := fun w =>
  match m w with
  | (Ok a, w') => (Ok a, w')
  | (Raise e, w') => h e w'
  end.

(** [self._session.dav(method, url, data=..., headers=...)].  The body is
    kept as the element [_element_tree_as_str] would write out; what the
    transport itself may raise is outside the model. *)
Definition session_dav (method url : string) (data : option Element)
    (headers : list (string * string)) : M httpx.Response := fun w =>
  let r := mkRequest method url data headers in
  let '(response, s) := dav r (server w) in
  (Ok response, mkWorld s (sent w ++ [r])).

(** Modelled from the spec: [check_error] of [nc_py_api/exceptions.py], which
    is not among the sources.  A status code that indicates failure raises
    the remote error carrying that status code and the diagnostic label;
    any other status code returns. *)
Definition check_error (status_code : Z) (info : string) : Res unit :=
  if http_is_error status_code
  then Raise (NextcloudException (Some status_code) (http_phrase status_code) info)
  else Ok tt.

Definition _dav_get_obj_path (user path : string) : string :=
  let obj_dav_path := "/files" in
  let obj_dav_path :=
    if Str.truthy user then obj_dav_path +:+ "/" +:+ user else obj_dav_path in
  if Str.truthy path then obj_dav_path +:+ "/" +:+ Str.lstrip "/" path
  else obj_dav_path.

Definition dav_namespaces : list (string * string) :=
  [ ("xmlns:d", "DAV:"); ("xmlns:oc", "http://owncloud.org/ns");
    ("xmlns:nc", "http://nextcloud.org/ns") ].

(** [for i in properties: ElementTree.SubElement(prop, i)] *)
Definition add_properties (prop : Element) (properties : list string) : Element :=
  foldl (fun e i => append_child e (new_element i [])) prop properties.

(** ** Records to nodes *)

(** One round of the loop of [_parse_records]; [by_path] is [self.by_path].
    An [FsNode] defines neither [__bool__] nor [__len__], so [if _fs_node]
    asks whether the lookup returned a node at all. *)
Definition parse_records_step (by_path : string -> M (option FsNode))
    (user : string) (favorite : bool) (result : list FsNode) (record : PyVal)
  : M (list FsNode) :=
  href ← pure (py_get record "d:href" (PStr ""));
  obj_full_path ← pure (unquote href);
  let obj_name := Str.rsplit_last "/" (Str.rstrip "/" obj_full_path) in
  if negb (Str.truthy obj_name) then mret result
  else
    let dav_full_path := dav_url_suffix +:+ _dav_get_obj_path user "" in
    let obg_rel_path := Str.lstrip "/" (Str.replace dav_full_path "" obj_full_path) in
    propstat ← pure (py_getitem record "d:propstat");
    fs_node ← pure (_parse_record
                      (match propstat with PList l => l | _ => [propstat] end)
                      user obg_rel_path obj_name);
    if favorite && (fileid (info fs_node) =? 0)
    then
      _fs_node ← by_path (path fs_node);
      match _fs_node with
      | Some n => mret (result ++ [with_info (set_favorite true) n])
      | None => mret result
      end
    else if negb (fileid (info fs_node) =? 0) then mret (result ++ [fs_node])
    else mret result.

Fixpoint parse_records_loop (by_path : string -> M (option FsNode))
    (user : string) (favorite : bool) (result : list FsNode) (records : list PyVal)
  : M (list FsNode) :=
  match records with
  | [] => mret result
  | record :: rest =>
      result' ← parse_records_step by_path user favorite result record;
      parse_records_loop by_path user favorite result' rest
  end.

Definition _parse_records (by_path : string -> M (option FsNode))
    (fs_records : PyVal) (user : string) (favorite : bool) : M (list FsNode) :=
  records ← pure (py_iter fs_records);
  parse_records_loop by_path user favorite [] records.

(** ** The multistatus decoder *)

Definition newline : string := String (ascii_of_N 10) EmptyString.

Definition _lf_parse_webdav_records (by_path : string -> M (option FsNode))
    (webdav_res : httpx.Response) (user info : string) (favorite : bool)
  : M (list FsNode) :=
  lift (check_error (httpx.status_code webdav_res) info);;
  if negb (httpx.status_code webdav_res =? 207)
  then raise (NextcloudException (Some (httpx.status_code webdav_res))
                "Response is not a multistatus." info)
  else if negb (Str.truthy (httpx.text webdav_res))
  then raise (NextcloudException (Some (httpx.status_code webdav_res))
                "Response is empty." info)
  else
    response_data ← pure (xmltodict_parse (httpx.text webdav_res));
    match dict_get "d:error" response_data with
    | Some err =>
        exception ← pure (py_getitem err "s:exception");
        message ← pure (py_getitem err "s:message");
        raise (NextcloudException None
                 (Str.replace newline "" (py_str exception +:+ ": " +:+ py_str message))
                 info)
    | None =>
        multistatus ← pure (py_getitem (PDict response_data) "d:multistatus");
        response ← pure (py_get multistatus "d:response" (PList []));
        _parse_records by_path
          (match response with PDict _ => PList [response] | _ => response end)
          user favorite
    end.

(** ** The facade *)

(** [_listdir], [find] and [by_path] decode with [favorite=False], where
    [self.by_path] is never called; this stands for it there. *)
Definition by_path_unused (path : string) : M (option FsNode) := mret None.

(** [v.full_path.rstrip("/") == full_path] *)
Definition is_self (full_path0 : string) (v : FsNode) : bool :=
  Str.eqb (Str.rstrip "/" (full_path v)) full_path0.

(** The index at which the loop over [enumerate(result)] breaks. *)
Fixpoint find_self (full_path0 : string) (index : nat) (result : list FsNode)
  : option nat :=
  match result with
  | [] => None
  | v :: rest =>
      if is_self full_path0 v then Some index
      else find_self full_path0 (S index) rest
  end.

(** [f"{user}/{path}".rstrip("/") if user else path.rstrip("/")]: the full
    path [_listdir] compares the nodes with. *)
Definition queried_full_path (user path : string) : string :=
  if Str.truthy user then Str.rstrip "/" (user +:+ "/" +:+ path)
  else Str.rstrip "/" path.

(** The [if exclude_self] block. *)
Definition remove_self (user path : string) (result : list FsNode) : list FsNode :=
  let full_path0 := queried_full_path user path in
  match find_self full_path0 O result with
  | Some index => delete index result
  | None => result
  end.

(** [request_info] of [_listdir] *)
Definition list_info (user path : string) (properties : list string) : string :=
  "list: " +:+ user +:+ ", " +:+ path +:+ ", " +:+ py_str (PList (map PStr properties)).

Definition _listdir (user path : string) (properties : list string)
    (exclude_self : bool) : M (list FsNode) :=
  let root := new_element "d:propfind" dav_namespaces in
  let prop := add_properties (new_element "d:prop" []) properties in
  let root := append_child root prop in
  webdav_response ← session_dav "PROPFIND" (_dav_get_obj_path user path) (Some root) [];
  let request_info := list_info user path properties in
  result ← _lf_parse_webdav_records by_path_unused webdav_response user request_info false;
  if exclude_self then mret (remove_self user path result) else mret result.

Definition listdir (path : string) (exclude_self root : bool) : M (list FsNode) :=
  _listdir (if root then "" else session_user) path PROPFIND_PROPERTIES exclude_self.

Definition by_path (path : string) : M (option FsNode) :=
  result ← listdir path false false;
  mret (head result).

Definition find (req : list PyVal) (path : string) (depth : Z) : M (list FsNode) :=
  let root := new_element "d:searchrequest" dav_namespaces in
  let xml_select_prop := add_properties (new_element "d:prop" []) PROPFIND_PROPERTIES in
  let xml_select := append_child (new_element "d:select" []) xml_select_prop in
  let href :=
    if Str.startswith "/" path then "/files/" +:+ session_user +:+ path
    else "/files/" +:+ session_user +:+ "/" +:+ path in
  let xml_href := set_text (new_element "d:href" []) href in
  let xml_from_scope_depth :=
    set_text (new_element "d:depth" [])
             (if depth =? -1 then "infinity" else Str.of_Z depth) in
  let xml_from_scope :=
    append_child (append_child (new_element "d:scope" []) xml_href) xml_from_scope_depth in
  let xml_from := append_child (new_element "d:from" []) xml_from_scope in
  '(xml_where, req') ← lift (_build_search_req (new_element "d:where" []) req);
  let xml_search :=
    append_child (append_child (append_child (new_element "d:basicsearch" []) xml_select)
                               xml_from) xml_where in
  let root := append_child root xml_search in
  webdav_response ← session_dav "SEARCH" "" (Some root) [("Content-Type", "text/xml")];
  let request_info :=
    "find: " +:+ session_user +:+ ", " +:+ py_str (PList req') +:+ ", " +:+ path
             +:+ ", " +:+ Str.of_Z depth in
  _lf_parse_webdav_records by_path_unused webdav_response session_user request_info false.

Definition listfav : M (list FsNode) :=
  let root := new_element "oc:filter-files" dav_namespaces in
  let xml_filter_rules :=
    append_child (new_element "oc:filter-rules" [])
                 (set_text (new_element "oc:favorite" []) "1") in
  let root := append_child root xml_filter_rules in
  webdav_response ← session_dav "REPORT" (_dav_get_obj_path session_user "") (Some root) [];
  let request_info := "listfav: " +:+ session_user in
  lift (check_error (httpx.status_code webdav_response) request_info);;
  _lf_parse_webdav_records by_path webdav_response session_user request_info true.

(** The diagnostic label [mkdir] gives [check_error]. *)
Definition mkdir_info (path : string) : string :=
  "mkdir: user=" +:+ session_user +:+ ", path=" +:+ path.

Definition mkdir (path : string) : M unit :=
  response ← session_dav "MKCOL" (_dav_get_obj_path session_user path) None [];
  lift (check_error (httpx.status_code response) (mkdir_info path)).

(** [Path(path).parts] on POSIX: the root, if any, then the components that
    are neither empty nor a single dot. *)
Definition path_parts (path : string) : list string :=
  let root :=
    if Str.startswith "//" path && negb (Str.startswith "///" path) then ["//"]
    else if Str.startswith "/" path then ["/"]
    else [] in
  root ++ List.filter (fun s => negb (Str.eqb s "") && negb (Str.eqb s "."))
            (Str.split "/" path).

(** [os.path.join(a, b)] on POSIX *)
Definition path_join (a b : string) : string :=
  if Str.startswith "/" b then b
  else if negb (Str.truthy a) || Str.endswith "/" a then a +:+ b
  else a +:+ "/" +:+ b.

(** [e.status_code != k], the status code being [None] when the constructor
    was given none. *)
Definition status_differs (status_code : option Z) (k : Z) : bool :=
  match status_code with
  | Some z => negb (z =? k)
  | None => true
  end.

(** The handler of [makedirs]: [if e.status_code != 405: raise e from None];
    an exception that is no [NextcloudException] is not caught at all. *)
Definition makedirs_handler (e : Exn) : M unit :=
  match e with
  | NextcloudException status_code _ _ =>
      if status_differs status_code 405 then raise e else mret tt
  | _ => raise e
  end.

Fixpoint makedirs_loop (exist_ok : bool) (_path : string) (parts : list string)
  : M unit :=
  match parts with
  | [] => mret tt
  | i :: rest =>
      let _path := path_join _path i in
      (if negb exist_ok then mkdir _path
       else try_except (mkdir _path) makedirs_handler);;
      makedirs_loop exist_ok _path rest
  end.

Definition makedirs (path : string) (exist_ok : bool) : M unit :=
  makedirs_loop exist_ok "" (path_parts path).

End Files.

(** ** Search expressions

    The request list read as a tree: what the compiler consumes for one
    clause.  [flatten] gives the tokens in the order the compiler pops them,
    [expr_xml] the element the clause becomes. *)

Inductive SearchExpr : Type :=
| Cmp (op : PyVal) (field : string) (value : PyVal)
| Grp (or_and : string) (a b : SearchExpr).

Fixpoint flatten (e : SearchExpr) : list PyVal :=
  match e with
  | Cmp op field value => [op; PStr field; value]
  | Grp c a b => PStr c :: flatten a ++ flatten b
  end.

Fixpoint expr_xml (e : SearchExpr) : Element :=
  match e with
  | Cmp op field value =>
      mkElement ("d:" +:+ py_str op) [] None
        [ mkElement "d:prop" [] None
            [ new_element (default EmptyString (SEARCH_PROPERTIES_MAP !! field)) [] ];
          mkElement "d:literal" [] (Some (py_str value)) [] ]
  | Grp c a b => mkElement ("d:" +:+ c) [] None [expr_xml a; expr_xml b]
  end.

Fixpoint wf_expr (e : SearchExpr) : Prop :=
  match e with
  | Cmp op field _ => is_or_and op = false ∧ is_Some (SEARCH_PROPERTIES_MAP !! field)
  | Grp c a b => (c = "and" ∨ c = "or") ∧ wf_expr a ∧ wf_expr b
  end.

(** ** Vocabulary of the statements *)

Section Vocabulary.
Context {datetime Server : Type} {P : Platform datetime Server}.

Local Abbreviation FsNode := (@FsNode datetime).
Local Abbreviation FsNodeInfo := (@FsNodeInfo datetime).
Local Abbreviation LastModified := (@LastModified datetime).
Local Abbreviation World := (@World Server).
Local Abbreviation M := (@M Server).

(** A propstat block is a dict; it is successful when its status line
    contains [200 OK]. *)
Definition is_dict (v : PyVal) : bool :=
  match v with PDict _ => true | _ => false end.

Definition successful (prop_stat : PyVal) : bool :=
  match prop_stat with
  | PDict d =>
      Str.contains "200 OK"
        (py_str (match dict_get "d:status" d with Some x => x | None => PStr "" end))
  | _ => false
  end.


(** Follows the spec's words: the top-level error payload of a body, its
    [exception] and its [message]. *)
Definition error_payload (body : string) : option (PyVal * PyVal) :=
  match xmltodict_parse body with
  | Ok response_data =>
      match dict_get "d:error" response_data with
      | Some (PDict err) =>
          match dict_get "s:exception" err, dict_get "s:message" err with
          | Some exception, Some message => Some (exception, message)
          | _, _ => None
          end
      | _ => None
      end
  | Raise _ => None
  end.

(** Follows the spec's words: the status code indicates failure, or is not
    207, or the body text is empty, or the parsed body contains a top-level
    error payload. *)
Definition remote_error_expected (webdav_res : httpx.Response) : bool :=
  http_is_error (httpx.status_code webdav_res)
  || negb (httpx.status_code webdav_res =? 207)
  || negb (Str.truthy (httpx.text webdav_res))
  || match error_payload (httpx.text webdav_res) with
     | Some _ => true
     | None => false
     end.

(** The entries the decoder goes through, for a body it takes: the body
    parses, has no [d:error], and its [d:multistatus] holds no [d:response],
    one entry, or a list of entries. *)
Definition response_entries (body : string) : option (list PyVal) :=
  match xmltodict_parse body with
  | Ok response_data =>
      match dict_get "d:error" response_data, dict_get "d:multistatus" response_data with
      | None, Some (PDict multistatus) =>
          match dict_get "d:response" multistatus with
          | None => Some []
          | Some (PDict entry) => Some [PDict entry]
          | Some (PList entries) => Some entries
          | Some _ => None
          end
      | _, _ => None
      end
  | Raise _ => None
  end.

(** Follows the claim's words: the full path of the queried directory, the
    one [FsNode.full_path] gives a node of that user and path, trailing
    slashes ignored. *)
Definition directory_full_path (user path : string) : string :=
  Str.rstrip "/" (full_path (FsNode_init user path "")).

(** The outcome is a raised [NextcloudException]. *)
Definition raises_NextcloudException {A : Type} (r : Res A) : bool :=
  match r with
  | Raise e => is_NextcloudException e
  | Ok _ => false
  end.

(** The request [_listdir] sends. *)
Definition propfind_request (user path : string) (properties : list string) : Request :=
  mkRequest "PROPFIND" (_dav_get_obj_path user path)
    (Some (append_child (new_element "d:propfind" dav_namespaces)
             (add_properties (new_element "d:prop" []) properties)))
    [].

(** The request [mkdir] sends. *)
Definition mkcol_request (path : string) : Request :=
  mkRequest "MKCOL" (_dav_get_obj_path session_user path) None [].

(** The paths [makedirs] walks through: [_path] after each round. *)
Fixpoint segment_paths (_path : string) (parts : list string) : list string :=
  match parts with
  | [] => []
  | i :: rest => path_join _path i :: segment_paths (path_join _path i) rest
  end.



(** What [makedirs] lets pass: a status code [check_error] accepts, and with
    [exist_ok] also 405. *)
Definition tolerated (exist_ok : bool) (status_code : Z) : bool :=
  negb (http_is_error status_code) || (exist_ok && (status_code =? 405)).

(** A node that is no placeholder. *)
Definition nonzero_fileid (n : FsNode) : Prop := fileid (info n) ≠ 0.

(** What a plain decode may come to from the world [w]: the world is [w]
    still, a returned value is [good], a raised exception is no remote
    error. *)
Definition plain_outcome {A : Type} (good : A → Prop) (w : World) (out : Res A * World) : Prop :=
  out.2 = w
  ∧ match out.1 with
    | Ok a => good a
    | Raise e => is_NextcloudException e = false
    end.

(** What an operation that returns nodes may come to: no placeholder among
    the nodes returned. *)
Definition no_placeholder (out : Res (list FsNode) * World) : Prop :=
  match out.1 with
  | Ok result => Forall nonzero_fileid result
  | Raise _ => True
  end.

(** [g], applied to the metadata, keeps the property [Q] of a node. *)
Definition keeps (Q : FsNode → Prop) (g : FsNodeInfo → FsNodeInfo) : Prop :=
  ∀ n, Q n → Q (with_info g n).

End Vocabulary.

(** ** A small platform

    A platform to run the operations on: one account, a server that creates
    collections and answers three fixed listings.  Its library functions
    agree with Python's on the inputs used below: [unquote] on strings
    without escapes, [int] on plain decimal numerals, [parsedate_to_datetime]
    on one date, on a date whose year is too large for the C integer that
    [datetime] takes (rejected with [OverflowError]) and on strings that are no
    date (rejected with [ValueError]), [xmltodict.parse] on the bodies the
    server sends. *)

Module Demo.

Fixpoint digits (acc : Z) (s : string) : option Z :=
  match s with
  | EmptyString => Some acc
  | String a s' =>
      let n := Z.of_N (N_of_ascii a) in
      if (48 <=? n) && (n <=? 57) then digits (10 * acc + (n - 48)) s' else None
  end.

Definition int_of_str (s : string) : option Z :=
  match s with
  | EmptyString => None
  | String "-" (String a s') => z ← digits 0 (String a s'); Some (- z)
  | String "-" EmptyString => None
  | _ => digits 0 s
  end.

Definition unquote (v : PyVal) : BRes string :=
  match v with
  | PStr s => Ok s
  | PList _ | PDict _ => Raise AttributeError
  | PNone | PBool _ | PInt _ => Raise TypeError
  end.

(** Seconds since 1970-01-01 00:00:00. *)
Definition parsedate_to_datetime (s : string) : BRes Z :=
  if Str.eqb s "Thu, 01 Jan 1970 00:01:00 GMT" then Ok 60
  else if Str.eqb s "1 Jan 999999999999999999999 00:00:00 GMT" then Raise OverflowError
  else Raise ValueError.

Definition http_is_error (status_code : Z) : bool :=
  (400 <=? status_code) && (status_code <=? 599).

Definition http_phrase (status_code : Z) : string :=
  if status_code =? 404 then "Not Found"
  else if status_code =? 405 then "Method Not Allowed"
  else EmptyString.

(** The bodies the server sends, and what [xmltodict.parse] makes of them. *)

Definition ok_propstat (fileid : string) : PyVal :=
  PDict [ ("d:prop", PDict [("oc:fileid", PStr fileid)]);
          ("d:status", PStr "HTTP/1.1 200 OK") ].

Definition empty_propstat : PyVal :=
  PDict [ ("d:prop", PNone); ("d:status", PStr "HTTP/1.1 418 I'm a teapot") ].

Definition multistatus (response : PyVal) : list (string * PyVal) :=
  [ ("d:multistatus",
     PDict [ ("@xmlns:d", PStr "DAV:"); ("@xmlns:oc", PStr "http://owncloud.org/ns");
             ("d:response", response) ]) ].

Definition docs_body : string :=
  "<d:multistatus xmlns:d='DAV:' xmlns:oc='http://owncloud.org/ns'><d:response><d:href>/remote.php/dav/files/admin/docs/</d:href><d:propstat><d:prop><oc:fileid>10</oc:fileid></d:prop><d:status>HTTP/1.1 200 OK</d:status></d:propstat></d:response><d:response><d:href>/remote.php/dav/files/admin/docs/a.txt</d:href><d:propstat><d:prop><oc:fileid>11</oc:fileid></d:prop><d:status>HTTP/1.1 200 OK</d:status></d:propstat></d:response></d:multistatus>".

Definition docs_data : list (string * PyVal) :=
  multistatus
    (PList [ PDict [ ("d:href", PStr "/remote.php/dav/files/admin/docs/");
                     ("d:propstat", ok_propstat "10") ];
             PDict [ ("d:href", PStr "/remote.php/dav/files/admin/docs/a.txt");
                     ("d:propstat", ok_propstat "11") ] ]).

Definition fav_body : string :=
  "<d:multistatus xmlns:d='DAV:' xmlns:oc='http://owncloud.org/ns'><d:response><d:href>/remote.php/dav/files/admin/fav.txt</d:href><d:propstat><d:prop><oc:fileid>7</oc:fileid></d:prop><d:status>HTTP/1.1 200 OK</d:status></d:propstat></d:response></d:multistatus>".

Definition fav_data : list (string * PyVal) :=
  multistatus
    (PDict [ ("d:href", PStr "/remote.php/dav/files/admin/fav.txt");
             ("d:propstat", ok_propstat "7") ]).

Definition report_body : string :=
  "<d:multistatus xmlns:d='DAV:' xmlns:oc='http://owncloud.org/ns'><d:response><d:href>/remote.php/dav/files/admin/fav.txt</d:href><d:propstat><d:prop/><d:status>HTTP/1.1 418 I'm a teapot</d:status></d:propstat></d:response></d:multistatus>".

Definition report_data : list (string * PyVal) :=
  multistatus
    (PDict [ ("d:href", PStr "/remote.php/dav/files/admin/fav.txt");
             ("d:propstat", empty_propstat) ]).

Definition gone_report_body : string :=
  "<d:multistatus xmlns:d='DAV:' xmlns:oc='http://owncloud.org/ns'><d:response><d:href>/remote.php/dav/files/admin/gone.txt</d:href><d:propstat><d:prop/><d:status>HTTP/1.1 418 I'm a teapot</d:status></d:propstat></d:response></d:multistatus>".

Definition gone_report_data : list (string * PyVal) :=
  multistatus
    (PDict [ ("d:href", PStr "/remote.php/dav/files/admin/gone.txt");
             ("d:propstat", empty_propstat) ]).

Definition error_body : string :=
  "<d:error xmlns:d='DAV:' xmlns:s='http://sabredav.org/ns'><s:exception>Sabre\DAV\Exception\BadRequest</s:exception><s:message>Bad request</s:message></d:error>".

Definition error_data : list (string * PyVal) :=
  [ ("d:error",
     PDict [ ("@xmlns:d", PStr "DAV:"); ("@xmlns:s", PStr "http://sabredav.org/ns");
             ("s:exception", PStr "Sabre\DAV\Exception\BadRequest");
             ("s:message", PStr "Bad request") ]) ].

Definition xmltodict_parse (body : string) : BRes (list (string * PyVal)) :=
  if Str.eqb body docs_body then Ok docs_data
  else if Str.eqb body fav_body then Ok fav_data
  else if Str.eqb body report_body then Ok report_data
  else if Str.eqb body gone_report_body then Ok gone_report_data
  else if Str.eqb body error_body then Ok error_data
  else Raise ExpatError.

(** The server: the collections created so far. *)
Definition dav (r : Request) (s : list string) : httpx.Response * list string :=
  if Str.eqb (method r) "MKCOL" then
    if existsb (Str.eqb (url r)) s then (httpx.mkResponse 405 EmptyString, s)
    else (httpx.mkResponse 201 EmptyString, s ++ [url r])
  else if Str.eqb (method r) "PROPFIND" then
    if Str.eqb (url r) "/files/admin/docs" then (httpx.mkResponse 207 docs_body, s)
    else if Str.eqb (url r) "/files/admin/fav.txt" then (httpx.mkResponse 207 fav_body, s)
    else (httpx.mkResponse 404 EmptyString, s)
  else if Str.eqb (method r) "REPORT" then (httpx.mkResponse 207 report_body, s)
  else (httpx.mkResponse 400 EmptyString, s).

Definition platform : Platform Z (list string) :=
  Build_Platform Z (list string) 0 parsedate_to_datetime int_of_str unquote
    xmltodict_parse http_is_error http_phrase "admin" "/remote.php/dav" dav.

(** The world with the collections [s], after the requests [reqs]. *)
Definition world (s : list string) (reqs : list Request) : @World (list string) :=
  mkWorld s reqs.

Definition world0 : @World (list string) := world [] [].

End Demo.

(** The nodes and records of the runs on the small platform. *)

Module DemoRuns.

Local Existing Instance Demo.platform.

Definition docs_node : FsNode :=
  mkFsNode "admin" "docs/" "docs"
    (mkInfo (PStr "") 10 (PStr "") 0 0 (LMDate 0) (PStr "") false).

Definition a_txt_node : FsNode :=
  mkFsNode "admin" "docs/a.txt" "a.txt"
    (mkInfo (PStr "") 11 (PStr "") 0 0 (LMDate 0) (PStr "") false).

Definition fav_node : FsNode :=
  mkFsNode "admin" "fav.txt" "fav.txt"
    (mkInfo (PStr "") 7 (PStr "") 0 0 (LMDate 0) (PStr "") true).



End DemoRuns.

(** ** Clauses at the top of a request list *)

(** A clause the [while] loop of [_build_search_req] can start with: the
    loop hands its first token to [_add_value] as [val], and a [None] there
    makes [_add_value] pop the next token instead. *)
Definition top_level (e : SearchExpr) : Prop :=
  wf_expr e ∧ match e with
              | Cmp op _ _ => is_None op = false
              | Grp _ _ _ => True
              end.

(** [p] is [l] cut short: something of [l] is missing at its end. *)
Definition cut_short (p l : list PyVal) : Prop := ∃ q, q ≠ [] ∧ l = p ++ q.

(** ** More of the facade *)

(** [bool(v)] *)
Definition py_truthy (v : PyVal) : bool :=
  match v with
  | PNone => false
  | PBool b => b
  | PInt z => negb (z =? 0)
  | PStr s => Str.truthy s
  | PList l => match l with [] => false | _ :: _ => true end
  | PDict d => match d with [] => false | _ :: _ => true end
  end.

(** An outcome that is a return, not an exception. *)
Definition returns {A : Type} (r : Res A) : bool :=
  match r with
  | Ok _ => true
  | Raise _ => false
  end.

Section Files_more.
Context {datetime Server : Type} {P : Platform datetime Server}.

Local Abbreviation FsNode := (@FsNode datetime).
Local Abbreviation World := (@World Server).
Local Abbreviation M := (@M Server).

(** [self._session.cfg.dav_endpoint] *)
Variable dav_endpoint : string.

Definition by_id (fileid : Z) : M (option FsNode) :=
  result ← find [PStr "eq"; PStr "fileid"; PInt fileid] "" (-1);
  mret (head result).

Definition delete_info (path : string) : string :=
  "delete: user=" +:+ session_user +:+ ", path=" +:+ path.

Definition delete (path : string) (not_fail : bool) : M unit :=
  response ← session_dav "DELETE" (_dav_get_obj_path session_user path) None [];
  if (httpx.status_code response =? 404) && not_fail then mret tt
  else lift (check_error (httpx.status_code response) (delete_info path)).

Definition move (path_src path_dest : string) (overwrite : bool) : M unit :=
  let dest := dav_endpoint +:+ _dav_get_obj_path session_user path_dest in
  let headers := [("Destination", dest); ("Overwrite", if overwrite then "T" else "F")] in
  response ← session_dav "MOVE" (_dav_get_obj_path session_user path_src) None headers;
  lift (check_error (httpx.status_code response)
          ("move: user=" +:+ session_user +:+ ", src=" +:+ path_src +:+ ", dest=" +:+ dest
             +:+ ", " +:+ py_str (PBool overwrite))).

Definition copy (path_src path_dest : string) (overwrite : bool) : M unit :=
  let dest := dav_endpoint +:+ _dav_get_obj_path session_user path_dest in
  let headers := [("Destination", dest); ("Overwrite", if overwrite then "T" else "F")] in
  response ← session_dav "COPY" (_dav_get_obj_path session_user path_src) None headers;
  lift (check_error (httpx.status_code response)
          ("copy: user=" +:+ session_user +:+ ", src=" +:+ path_src +:+ ", dest=" +:+ dest
             +:+ ", " +:+ py_str (PBool overwrite))).

(** [value] is an int or a bool; the property is written as
    [str(int(bool(value)))]. *)
Definition setfav (path : string) (value : PyVal) : M unit :=
  let root :=
    new_element "d:propertyupdate"
      [("xmlns:d", "DAV:"); ("xmlns:oc", "http://owncloud.org/ns")] in
  let xml_favorite :=
    set_text (new_element "oc:favorite" []) (if py_truthy value then "1" else "0") in
  let xml_set_prop := append_child (new_element "d:prop" []) xml_favorite in
  let xml_set := append_child (new_element "d:set" []) xml_set_prop in
  let root := append_child root xml_set in
  webdav_response ← session_dav "PROPPATCH" (_dav_get_obj_path session_user path)
                      (Some root) [];
  lift (check_error (httpx.status_code webdav_response)
          ("setfav: path=" +:+ path +:+ ", value=" +:+ py_str value)).

(** *** Vocabulary *)

(** The request [find] sends for the compiled [xml_where]. *)
Definition search_request (path : string) (depth : Z) (xml_where : Element) : Request :=
  mkRequest "SEARCH" ""
    (Some (mkElement "d:searchrequest" dav_namespaces None
             [ mkElement "d:basicsearch" [] None
                 [ mkElement "d:select" [] None
                     [add_properties (new_element "d:prop" []) PROPFIND_PROPERTIES];
                   mkElement "d:from" [] None
                     [ mkElement "d:scope" [] None
                         [ mkElement "d:href" []
                             (Some (if Str.startswith "/" path
                                    then "/files/" +:+ session_user +:+ path
                                    else "/files/" +:+ session_user +:+ "/" +:+ path)) [];
                           mkElement "d:depth" []
                             (Some (if depth =? -1 then "infinity" else Str.of_Z depth))
                             [] ] ];
                   xml_where ] ]))
    [("Content-Type", "text/xml")].

(** The label [find] gives its errors once the request list is compiled:
    the list is empty by then. *)
Definition find_info (path : string) (depth : Z) : string :=
  "find: " +:+ session_user +:+ ", [], " +:+ path +:+ ", " +:+ Str.of_Z depth.

(** The request [listfav] sends first. *)
Definition report_request : Request :=
  mkRequest "REPORT" (_dav_get_obj_path session_user "")
    (Some (mkElement "oc:filter-files" dav_namespaces None
             [ mkElement "oc:filter-rules" [] None
                 [mkElement "oc:favorite" [] (Some "1") []] ]))
    [].

(** The request of a supplementary lookup. *)
Definition is_lookup (r : Request) : Prop :=
  ∃ path, r = propfind_request session_user path PROPFIND_PROPERTIES.

(** The request [delete] sends. *)
Definition delete_request (path : string) : Request :=
  mkRequest "DELETE" (_dav_get_obj_path session_user path) None [].

(** The request [setfav] sends to set or clear the flag. *)
Definition proppatch_request (path : string) (flag : bool) : Request :=
  mkRequest "PROPPATCH" (_dav_get_obj_path session_user path)
    (Some (mkElement "d:propertyupdate"
             [("xmlns:d", "DAV:"); ("xmlns:oc", "http://owncloud.org/ns")] None
             [ mkElement "d:set" [] None
                 [ mkElement "d:prop" [] None
                     [ mkElement "oc:favorite" [] (Some (if flag then "1" else "0")) [] ] ] ]))
    [].

(** The request [move] or [copy] sends. *)
Definition relocate_request (method path_src path_dest : string) (overwrite : bool)
  : Request :=
  mkRequest method (_dav_get_obj_path session_user path_src) None
    [ ("Destination", dav_endpoint +:+ _dav_get_obj_path session_user path_dest);
      ("Overwrite", if overwrite then "T" else "F") ].

(** A node as a listing for [user0] makes it: of that user, with a name that
    is not empty and has no slash, and a path that starts with none. *)
Definition listed_node (user0 : string) (n : FsNode) : Prop :=
  user n = user0
  ∧ name n ≠ ""
  ∧ Str.has_char "/" (name n) = false
  ∧ Str.startswith "/" (path n) = false.

(** An operation that returns nodes returns nodes that are [Q] only. *)
Definition returns_only (Q : FsNode → Prop) (out : Res (list FsNode) * World) : Prop :=
  match out.1 with
  | Ok result => Forall Q result
  | Raise _ => True
  end.

(** Two runs of an operation that returns nothing are alike: the same
    requests sent, the same server left, and both return or both raise. *)
Definition alike (a b : Res unit * World) : Prop :=
  a.2 = b.2 ∧ returns a.1 = returns b.1.

(** The property keys [_parse_record] reads. *)
Definition PARSED_PROPERTIES : list string :=
  [ "oc:id"; "oc:fileid"; "oc:size"; "d:getcontentlength"; "d:getetag";
    "d:getlastmodified"; "oc:permissions"; "oc:favorite" ].

End Files_more.

(** ** The authentication middleware ([ex_app/integration_fastapi.py]) *)

Module AppAPIAuthMiddleware.

(** What the middleware reads of an ASGI scope: [scope["type"]], and the
    path of [HTTPConnection(scope).url]. *)
Record Scope : Type := mkScope { scope_type : string; url_path : string }.

(** What [anc_app(conn)] comes to: the application object, the
    [HTTPException] it raises when the signature check fails, or any other
    exception of the functions it calls. *)
Inductive Auth : Type :=
| Authenticated
| HTTPException (status_code : Z) (detail : string)
| OtherException (e : Builtin).

(** What the middleware does for one event, in order. *)
Inductive Step : Type :=
| CallAuth                                      (* [anc_app(conn)] *)
| CallApp                                       (* [await self.app(scope, receive, send)] *)
| Respond (status_code : Z) (content : string)  (* the response of [_on_error] *)
| Propagate (e : Builtin).                      (* an exception leaves [__call__] *)

(** [__init__]: the value of [self._disable_for]. *)
Definition __init__ (disable_for : option (list string)) : list string :=
  let disable_for :=
    match disable_for with
    | None => []
    | Some l => map (Str.lstrip "/") l
    end in
  List.filter (fun i => negb (Str.eqb i "heartbeat")) disable_for ++ ["heartbeat"].

(** [x in l] for strings *)
Definition py_in (x : string) (l : list string) : bool := existsb (Str.eqb x) l.

Section Call.
Variable anc_app : Scope -> Auth.

(** [__call__]; what the application itself does when called is not
    modelled. *)
Definition __call__ (_disable_for : list string) (scope : Scope) : list Step :=
  if negb (Str.eqb (scope_type scope) "http") then [CallApp]
  else
    let url_path := Str.lstrip "/" (url_path scope) in
    if negb (py_in url_path _disable_for) then
      match anc_app scope with
      | Authenticated => [CallAuth; CallApp]
      | HTTPException status_code detail => [CallAuth; Respond status_code detail]
      | OtherException e => [CallAuth; Propagate e]
      end
    else [CallApp].

End Call.

End AppAPIAuthMiddleware.

(** ** A second small platform

    The library functions and the account of the first; a server that keeps
    a set of resources, deletes the ones it has, answers every SEARCH with
    the one entry [fav.txt] and accepts every PROPPATCH.  Its favourites
    report names two files without their ids, [gone.txt], which it does not
    have, and [fav.txt], which it has. *)

Module Store.

Definition report_body : string :=
  "<d:multistatus xmlns:d='DAV:' xmlns:oc='http://owncloud.org/ns'><d:response><d:href>/remote.php/dav/files/admin/gone.txt</d:href><d:propstat><d:prop/><d:status>HTTP/1.1 418 I'm a teapot</d:status></d:propstat></d:response><d:response><d:href>/remote.php/dav/files/admin/fav.txt</d:href><d:propstat><d:prop/><d:status>HTTP/1.1 418 I'm a teapot</d:status></d:propstat></d:response></d:multistatus>".

Definition gone_record : PyVal :=
  PDict [ ("d:href", PStr "/remote.php/dav/files/admin/gone.txt");
          ("d:propstat", Demo.empty_propstat) ].

Definition fav_record : PyVal :=
  PDict [ ("d:href", PStr "/remote.php/dav/files/admin/fav.txt");
          ("d:propstat", Demo.empty_propstat) ].

Definition report_data : list (string * PyVal) :=
  Demo.multistatus (PList [gone_record; fav_record]).

Definition xmltodict_parse (body : string) : BRes (list (string * PyVal)) :=
  if Str.eqb body report_body then Ok report_data else Demo.xmltodict_parse body.

Definition dav (r : Request) (s : list string) : httpx.Response * list string :=
  if Str.eqb (method r) "REPORT" then (httpx.mkResponse 207 report_body, s)
  else if Str.eqb (method r) "PROPFIND" then
    if Str.eqb (url r) "/files/admin/fav.txt"
    then (httpx.mkResponse 207 Demo.fav_body, s)
    else (httpx.mkResponse 404 EmptyString, s)
  else if Str.eqb (method r) "DELETE" then
    if existsb (Str.eqb (url r)) s
    then (httpx.mkResponse 204 EmptyString,
          List.filter (fun u => negb (Str.eqb u (url r))) s)
    else (httpx.mkResponse 404 EmptyString, s)
  else if Str.eqb (method r) "SEARCH" then (httpx.mkResponse 207 Demo.fav_body, s)
  else if Str.eqb (method r) "PROPPATCH" then (httpx.mkResponse 207 EmptyString, s)
  else (httpx.mkResponse 400 EmptyString, s).

Definition platform : Platform Z (list string) :=
  Build_Platform Z (list string) 0 Demo.parsedate_to_datetime Demo.int_of_str
    Demo.unquote xmltodict_parse Demo.http_is_error Demo.http_phrase
    "admin" "/remote.php/dav" dav.

Definition world0 : @World (list string) := mkWorld [] [].

(** The node of [fav.txt] as the SEARCH answers it. *)
Definition found_node : @FsNode Z :=
  mkFsNode "admin" "fav.txt" "fav.txt"
    (mkInfo (PStr "") 7 (PStr "") 0 0 (LMDate 0) (PStr "") false).

End Store.

(** * Properties *)

(** ** The search request compiler *)

Section Search.

Implicit Types (req rest : list PyVal) (xml w : Element) (val : PyVal).

Lemma is_or_and_token (c : string) : c = "and" ∨ c = "or" → is_or_and (PStr c) = true.
Proof. intros [-> | ->]; reflexivity. Qed.

(** The work list never grows, and a call that pops its first token
    shortens it. *)
Lemma add_value_shrinks fuel : ∀ xml val req xml' req',
  _add_value fuel xml val req = Ok (xml', req') →
  (length req' ≤ length req)%nat ∧ (val = PNone → (length req' < length req)%nat).
Proof.
  induction fuel as [|fuel IH]; intros xml val req xml' req' H; [discriminate|].
  cbn [_add_value] in H.
  assert (Hpop : ∃ first_val req0,
             (match val with PNone => lib (pop0 req) | _ => Ok (val, req) end)
             = Ok (first_val, req0)).
  { destruct (match val with PNone => lib (pop0 req) | _ => Ok (val, req) end)
      as [[fv r0]|e] eqn:E; [eauto | discriminate]. }
  destruct Hpop as (first_val & req0 & Hpop). rewrite Hpop in H. cbn in H.
  assert (Hlen0 : (length req0 ≤ length req)%nat
                  ∧ (val = PNone → (length req0 < length req)%nat)).
  { destruct val; try (injection Hpop as <- <-; split; [lia | discriminate]).
    destruct req as [|x req]; [discriminate|]. injection Hpop as <- <-.
    cbn. split; [lia | intros _; lia]. }
  destruct (is_or_and first_val).
  - unfold _process_or_and in H. cbn in H.
    destruct (_add_value fuel _ PNone req0) as [[r1 req1]|] eqn:E1; [|discriminate].
    cbn in H.
    destruct (_add_value fuel r1 PNone req1) as [[r2 req2]|] eqn:E2; [|discriminate].
    cbn in H. injection H as <- <-.
    apply IH in E1 as [_ L1]. apply IH in E2 as [_ L2].
    specialize (L1 eq_refl). specialize (L2 eq_refl).
    destruct Hlen0 as [La Lb]. split; [lia | intros Hv; specialize (Lb Hv); lia].
  - destruct req0 as [|field req1]; [discriminate|]. cbn in H.
    destruct (search_property field); [|discriminate]. cbn in H.
    destruct req1 as [|value req2]; [discriminate|]. cbn in H.
    injection H as <- <-. cbn in Hlen0.
    destruct Hlen0 as [La Lb]. split; [lia | intros Hv; specialize (Lb Hv); lia].
Qed.

(** With more fuel than tokens, a call that pops its first token never runs
    out of fuel. *)
Lemma add_value_fuel fuel : ∀ xml req,
  (length req < fuel)%nat → _add_value fuel xml PNone req ≠ Raise OutOfFuel.
Proof.
  induction fuel as [|fuel IH]; intros xml req Hlen; [lia|].
  cbn [_add_value]. destruct req as [|first_val req0]; [discriminate|].
  cbn in Hlen. cbn.
  destruct (is_or_and first_val).
  - unfold _process_or_and. cbn.
    destruct (_add_value fuel _ PNone req0) as [[r1 req1]|e1] eqn:E1; cbn.
    + apply add_value_shrinks in E1 as E1'. destruct E1' as [L1 _].
      destruct (_add_value fuel r1 PNone req1) as [[r2 req2]|e2] eqn:E2; cbn;
        [discriminate|].
      intros [= ->]. revert E2. apply IH. lia.
    + intros [= ->]. revert E1. apply IH. lia.
  - destruct req0 as [|field req1]; [discriminate|]. cbn.
    destruct (search_property field); [|discriminate]. cbn.
    destruct req1 as [|value req2]; discriminate.
Qed.

(** A call that is handed a token which opens no group does not recurse. *)
Lemma add_value_clause_fuel fuel xml val req :
  is_or_and val = false → val ≠ PNone →
  _add_value (S fuel) xml val req ≠ Raise OutOfFuel.
Proof.
  intros Hoa Hval. cbn [_add_value].
  replace (match val with PNone => lib (pop0 req) | _ => Ok (val, req) end)
    with (Ok (val, req) : Res (PyVal * list PyVal)) by (by destruct val).
  cbn. rewrite Hoa.
  destruct req as [|field req1]; [discriminate|]. cbn.
  destruct (search_property field); [|discriminate]. cbn.
  destruct req1 as [|value req2]; discriminate.
Qed.

Lemma process_or_and_fuel fuel xml c req :
  (length req < fuel)%nat →
  _process_or_and (_add_value fuel) xml c req ≠ Raise OutOfFuel.
Proof.
  intros Hlen. unfold _process_or_and. cbn.
  destruct (_add_value fuel _ PNone req) as [[r1 req1]|e1] eqn:E1; cbn.
  - apply add_value_shrinks in E1 as E1'. destruct E1' as [L1 _].
    destruct (_add_value fuel r1 PNone req1) as [[r2 req2]|e2] eqn:E2; cbn;
      [discriminate|].
    intros [= ->]. revert E2. apply add_value_fuel. lia.
  - intros [= ->]. revert E1. by apply add_value_fuel.
Qed.

Lemma process_or_and_shrinks fuel xml c req xml' req' :
  _process_or_and (_add_value fuel) xml c req = Ok (xml', req') →
  (length req' < length req)%nat.
Proof.
  unfold _process_or_and. cbn.
  destruct (_add_value fuel _ PNone req) as [[r1 req1]|] eqn:E1; [|discriminate]. cbn.
  destruct (_add_value fuel r1 PNone req1) as [[r2 req2]|] eqn:E2; [|discriminate]. cbn.
  intros [= <- <-].
  apply add_value_shrinks in E1 as [_ L1]. apply add_value_shrinks in E2 as [L2 _].
  specialize (L1 eq_refl). lia.
Qed.

Lemma build_search_loop_fuel fuel : ∀ w req,
  (length req ≤ fuel)%nat → build_search_loop fuel w req ≠ Raise OutOfFuel.
Proof.
  induction fuel as [|fuel IH]; intros w req Hlen.
  - destruct req; [discriminate | cbn in Hlen; lia].
  - destruct req as [|where_part req0]; [discriminate|]. cbn in Hlen.
    cbn [build_search_loop].
    destruct (is_or_and where_part) eqn:Hoa.
    + destruct (_process_or_and _ w where_part req0) as [[w1 req1]|e] eqn:E; cbn.
      * apply process_or_and_shrinks in E. apply IH. lia.
      * intros [= ->]. revert E. apply process_or_and_fuel. lia.
    + destruct (_add_value _ w where_part req0) as [[w1 req1]|e] eqn:E; cbn.
      * apply add_value_shrinks in E as [L _]. apply IH. lia.
      * intros [= ->]. revert E.
        destruct (is_None where_part) eqn:Hnone;
          [destruct where_part; try discriminate
          |assert (Hval : where_part ≠ PNone) by (by intros ->)].
        -- apply add_value_fuel. lia.
        -- by apply add_value_clause_fuel.
Qed.

(** The model of the compiler always has fuel enough: every result is one of
    the source, a return or a Python exception. *)
Lemma build_search_terminates w req : _build_search_req w req ≠ Raise OutOfFuel.
Proof. apply build_search_loop_fuel. reflexivity. Qed.

(** *** The field table *)

Local Opaque SEARCH_PROPERTIES_MAP.

(** A comparison whose field is in the table becomes one element holding the
    remote property and the literal. *)
Lemma add_value_cmp fuel xml op field value rest p :
  is_or_and op = false →
  SEARCH_PROPERTIES_MAP !! field = Some p →
  _add_value (S fuel) xml PNone (op :: PStr field :: value :: rest)
  = Ok (append_child xml
          (mkElement ("d:" +:+ py_str op) [] None
             [ mkElement "d:prop" [] None [new_element p []];
               mkElement "d:literal" [] (Some (py_str value)) [] ]),
        rest).
Proof.
  intros Hop Hp. cbn [_add_value pop0 lib mbind Result_bind]. rewrite Hop.
  cbn [pop0 lib mbind Result_bind search_property]. rewrite Hp. reflexivity.
Qed.

(** A comparison whose field is a string outside the table raises
    [KeyError]; nothing is emitted for it. *)
Lemma add_value_unknown_field fuel xml op field rest :
  is_or_and op = false →
  SEARCH_PROPERTIES_MAP !! field = None →
  _add_value (S fuel) xml PNone (op :: PStr field :: rest) = Raise (Py KeyError).
Proof.
  intros Hop Hp. cbn [_add_value pop0 lib mbind Result_bind]. rewrite Hop.
  cbn [pop0 lib mbind Result_bind search_property]. rewrite Hp. reflexivity.
Qed.

Local Transparent SEARCH_PROPERTIES_MAP.

(** The keys the table holds: five of the documented field names, and
    [name:] where [name] is documented. *)
Lemma search_table_entries :
  SEARCH_PROPERTIES_MAP !! "name:" = Some "d:displayname"
  ∧ SEARCH_PROPERTIES_MAP !! "mime" = Some "d:getcontenttype"
  ∧ SEARCH_PROPERTIES_MAP !! "last_modified" = Some "d:getlastmodified"
  ∧ SEARCH_PROPERTIES_MAP !! "size" = Some "oc:size"
  ∧ SEARCH_PROPERTIES_MAP !! "favorite" = Some "oc:favorite"
  ∧ SEARCH_PROPERTIES_MAP !! "fileid" = Some "oc:fileid".
Proof. repeat split; vm_compute; reflexivity. Qed.

(** C1, at the failing input.  The field name [name], which the comment in
    [find] lists among the possible keys, is not a key of
    [SEARCH_PROPERTIES_MAP] (the table spells it [name:]): compiling
    [["eq", "name", value]] raises [KeyError] instead of emitting
    [d:displayname]. *)
Theorem search_by_name_raises_KeyError (w : Element) (value : PyVal) :
  SEARCH_PROPERTIES_MAP !! "name" = None
  ∧ _build_search_req w [PStr "eq"; PStr "name"; value] = Raise (Py KeyError).
Proof. split; reflexivity. Qed.

(** *** Groups *)

Local Opaque SEARCH_PROPERTIES_MAP.

Lemma add_value_expr (e : SearchExpr) : wf_expr e → ∀ fuel xml rest,
  (length (flatten e) ≤ fuel)%nat →
  _add_value fuel xml PNone (flatten e ++ rest) = Ok (append_child xml (expr_xml e), rest).
Proof.
  induction e as [op field value | c a IHa b IHb]; intros Hwf fuel xml rest Hfuel.
  - destruct Hwf as [Hop [p Hp]]. cbn in Hfuel.
    destruct fuel as [|fuel]; [lia|].
    cbn [flatten app expr_xml]. rewrite Hp. by apply add_value_cmp.
  - destruct Hwf as (Hc & Ha & Hb). cbn [flatten length] in Hfuel.
    rewrite length_app in Hfuel.
    destruct fuel as [|fuel]; [lia|].
    cbn [flatten app _add_value pop0 lib mbind Result_bind].
    rewrite (is_or_and_token c Hc). unfold _process_or_and.
    rewrite <- app_assoc.
    rewrite (IHa Ha fuel _ (flatten b ++ rest)) by lia.
    cbn [mbind Result_bind].
    rewrite (IHb Hb fuel _ rest) by lia.
    reflexivity.
Qed.

Local Transparent SEARCH_PROPERTIES_MAP.

Lemma build_search_loop_nil fuel w : build_search_loop fuel w [] = Ok (w, []).
Proof. by destruct fuel. Qed.

(** C2, as amended.  An [and] / [or] token consumes exactly the next two
    clauses of the flat token list, each a comparison triple or a group;
    whatever follows them is left in the list.  Compiled on its own, the
    group becomes one wrapper element with exactly two children. *)
Theorem and_or_consumes_two_clauses (c : string) (a b : SearchExpr)
    (w : Element) (rest : list PyVal) (fuel : nat) :
  c = "and" ∨ c = "or" → wf_expr a → wf_expr b →
  (length (flatten a ++ flatten b) < fuel)%nat →
  _add_value fuel w (PStr c) (flatten a ++ flatten b ++ rest)
  = Ok (append_child w (mkElement ("d:" +:+ c) [] None [expr_xml a; expr_xml b]), rest)
  ∧ _build_search_req w (PStr c :: flatten a ++ flatten b)
    = Ok (append_child w (mkElement ("d:" +:+ c) [] None [expr_xml a; expr_xml b]), []).
Proof.
  intros Hc Ha Hb Hfuel. rewrite length_app in Hfuel.
  assert (Hgrp : ∀ f xml tl, (length (flatten a) + length (flatten b) ≤ f)%nat →
            _process_or_and (_add_value f) xml (PStr c) (flatten a ++ flatten b ++ tl)
            = Ok (append_child xml
                    (mkElement ("d:" +:+ c) [] None [expr_xml a; expr_xml b]), tl)).
  { intros f xml tl Hf. unfold _process_or_and.
    rewrite (add_value_expr a Ha f _ (flatten b ++ tl)) by lia.
    cbn [mbind Result_bind].
    rewrite (add_value_expr b Hb f _ tl) by lia.
    reflexivity. }
  split.
  - destruct fuel as [|fuel]; [lia|].
    cbn [_add_value mbind Result_bind]. rewrite (is_or_and_token c Hc).
    apply Hgrp. lia.
  - unfold _build_search_req. cbn [length build_search_loop].
    rewrite (is_or_and_token c Hc).
    specialize (Hgrp (S (length (flatten a ++ flatten b))) w []).
    rewrite !app_nil_r in Hgrp. rewrite Hgrp by (rewrite length_app; lia).
    cbn [mbind Result_bind]. apply build_search_loop_nil.
Qed.

(** C2, as amended, on the flat list of the example. *)
Lemma and_or_consumes_two_clauses_witness :
  let a := Cmp (PStr "eq") "fileid" (PInt 42) in
  let b := Cmp (PStr "eq") "favorite" (PBool true) in
  wf_expr a ∧ wf_expr b
  ∧ _build_search_req (new_element "d:where" [])
      [ PStr "and"; PStr "eq"; PStr "fileid"; PInt 42;
        PStr "eq"; PStr "favorite"; PBool true ]
    = Ok (mkElement "d:where" [] None
            [ mkElement "d:and" [] None
                [ mkElement "d:eq" [] None
                    [ mkElement "d:prop" [] None [mkElement "oc:fileid" [] None []];
                      mkElement "d:literal" [] (Some "42") [] ];
                  mkElement "d:eq" [] None
                    [ mkElement "d:prop" [] None [mkElement "oc:favorite" [] None []];
                      mkElement "d:literal" [] (Some "True") [] ] ] ],
          []).
Proof.
  assert (Ha : wf_expr (Cmp (PStr "eq") "fileid" (PInt 42))).
  { split; [reflexivity | exists "oc:fileid"; reflexivity]. }
  assert (Hb : wf_expr (Cmp (PStr "eq") "favorite" (PBool true))).
  { split; [reflexivity | exists "oc:favorite"; reflexivity]. }
  split; [exact Ha | split; [exact Hb |]].
  exact (proj2 (and_or_consumes_two_clauses "and" _ _ (new_element "d:where" []) [] 7
                  (or_introl eq_refl) Ha Hb (le_n 7))).
Defined.

(** C2, as stated, fails: operands given as nested lists are not compiled.
    The first nested list is taken for an operator name and the second for a
    field name, and a list is no dictionary key. *)
Lemma nested_operands_raise_TypeError :
  _build_search_req (new_element "d:where" [])
    [ PStr "and";
      PList [PStr "eq"; PStr "fileid"; PInt 42];
      PList [PStr "eq"; PStr "favorite"; PBool true] ]
  = Raise (Py TypeError).
Proof. reflexivity. Qed.

End Search.

(** ** Running operations *)

Section Files_properties.
Context {datetime Server : Type} {P : Platform datetime Server}.

Local Abbreviation FsNode := (@FsNode datetime).
Local Abbreviation FsNodeInfo := (@FsNodeInfo datetime).
Local Abbreviation LastModified := (@LastModified datetime).
Local Abbreviation World := (@World Server).
Local Abbreviation M := (@M Server).

Implicit Types (w : World) (n : FsNode) (result : list FsNode) (e : Exn).

Lemma bind_run {A B : Type} (m : M A) (f : A → M B) w :
  (m ≫= f) w = match m w with
               | (Ok a, w') => f a w'
               | (Raise e, w') => (Raise e, w')
               end.
Proof. reflexivity. Qed.

Lemma pure_run {A : Type} (r : BRes A) w : pure r w = (lib r, w).
Proof. reflexivity. Qed.

Lemma ret_run {A : Type} (a : A) w : (mret a : M A) w = (Ok a, w).
Proof. reflexivity. Qed.

Lemma lib_not_remote {A : Type} (r : BRes A) e :
  lib r = Raise e → is_NextcloudException e = false.
Proof. destruct r; intros [= <-]; reflexivity. Qed.

(** Runs one [x ← pure r; ...] of the goal: the exception case is closed by
    [tac], the other is left with [r = Ok x] in the context. *)
Ltac run_pure tac :=
  rewrite bind_run, pure_run;
  match goal with
  | |- context [lib ?r] =>
      let E := fresh "E" in
      destruct r eqn:E; cbn [lib]; [| solve [tac]]
  end.

(** ** The record parser *)


Lemma parse_prop_stat_skips n (prop_stat : PyVal) :
  is_dict prop_stat = true → successful prop_stat = false →
  parse_prop_stat n prop_stat = Ok n.
Proof.
  destruct prop_stat as [| | | | |d]; try discriminate. intros _ Hs.
  unfold parse_prop_stat. cbn in *. by rewrite Hs.
Qed.

Lemma parse_prop_stats_skip n (prop_stats : list PyVal) :
  Forall (λ ps, is_dict ps = true ∧ successful ps = false) prop_stats →
  parse_prop_stats n prop_stats = Ok n.
Proof.
  induction 1 as [|ps rest [Hd Hs] _ IH]; [reflexivity|].
  cbn [parse_prop_stats]. by rewrite parse_prop_stat_skips.
Qed.

(** ** Plain decoding: no lookup, no remote error of its own, no placeholder *)


Lemma parse_records_step_plain by_path user result (record : PyVal) w :
  Forall nonzero_fileid result →
  plain_outcome (Forall nonzero_fileid) w
    (parse_records_step by_path user false result record w).
Proof.
  intros Hres. unfold parse_records_step.
  run_pure ltac:(by split).
  run_pure ltac:(by split).
  destruct (negb (Str.truthy _)); [by split|].
  run_pure ltac:(by split).
  run_pure ltac:(by split).
  cbn [andb].
  match goal with
  | |- context [fileid (info ?x) =? 0] => destruct (fileid (info x) =? 0) eqn:Hid
  end; cbn [negb]; [by split|].
  split; [reflexivity|]. cbn. apply Forall_app. split; [done|].
  apply Forall_singleton. unfold nonzero_fileid. lia.
Qed.

Lemma parse_records_loop_plain by_path user (records : list PyVal) : ∀ result w,
  Forall nonzero_fileid result →
  plain_outcome (Forall nonzero_fileid) w
    (parse_records_loop by_path user false result records w).
Proof.
  induction records as [|record rest IH]; intros result w Hres; [by split|].
  cbn [parse_records_loop]. rewrite bind_run.
  pose proof (parse_records_step_plain by_path user result record w Hres) as Hstep.
  destruct (parse_records_step by_path user false result record w) as [[result'|e] w1].
  - destruct Hstep as [Hw Hgood]. cbn in Hw, Hgood. subst w1. by apply IH.
  - exact Hstep.
Qed.

Lemma parse_records_plain by_path (fs_records : PyVal) user w :
  plain_outcome (Forall nonzero_fileid) w (_parse_records by_path fs_records user false w).
Proof.
  unfold _parse_records. run_pure ltac:(by split).
  by apply parse_records_loop_plain.
Qed.

(** ** The multistatus decoder, case by case *)

Section Decoder.
Variable by_path0 : string → M (option FsNode).
Variables (webdav_res : httpx.Response) (user info : string) (favorite : bool).
Implicit Types (exception message : PyVal).

Let status := httpx.status_code webdav_res.
Let body := httpx.text webdav_res.

Lemma decode_failure_status w :
  http_is_error status = true →
  _lf_parse_webdav_records by_path0 webdav_res user info favorite w
  = (Raise (NextcloudException (Some status) (http_phrase status) info), w).
Proof.
  intros H. unfold _lf_parse_webdav_records, check_error, lift.
  rewrite bind_run. fold status. by rewrite H.
Qed.

Lemma decode_not_multistatus w :
  http_is_error status = false → (status =? 207) = false →
  _lf_parse_webdav_records by_path0 webdav_res user info favorite w
  = (Raise (NextcloudException (Some status) "Response is not a multistatus." info), w).
Proof.
  intros H1 H2. unfold _lf_parse_webdav_records, check_error, lift.
  rewrite bind_run. fold status. by rewrite H1, H2.
Qed.

Lemma decode_empty_body w :
  http_is_error status = false → (status =? 207) = true → Str.truthy body = false →
  _lf_parse_webdav_records by_path0 webdav_res user info favorite w
  = (Raise (NextcloudException (Some status) "Response is empty." info), w).
Proof.
  intros H1 H2 H3. unfold _lf_parse_webdav_records, check_error, lift.
  rewrite bind_run. fold status body. by rewrite H1, H2, H3.
Qed.

Lemma decode_error_payload w exception message :
  http_is_error status = false → (status =? 207) = true → Str.truthy body = true →
  error_payload body = Some (exception, message) →
  _lf_parse_webdav_records by_path0 webdav_res user info favorite w
  = (Raise (NextcloudException None
              (Str.replace newline "" (py_str exception +:+ ": " +:+ py_str message))
              info), w).
Proof.
  intros H1 H2 H3 H4. unfold _lf_parse_webdav_records, check_error, lift.
  rewrite bind_run. fold status body. rewrite H1, H2, H3. cbn [negb].
  unfold error_payload in H4. rewrite bind_run, pure_run.
  destruct (xmltodict_parse body) as [response_data|]; [|discriminate]. cbn [lib].
  destruct (dict_get "d:error" response_data) as [[| | | | |err]|]; try discriminate.
  rewrite bind_run, pure_run. cbn [py_getitem].
  destruct (dict_get "s:exception" err); [|discriminate]. cbn [lib].
  rewrite bind_run, pure_run. cbn [py_getitem].
  destruct (dict_get "s:message" err); [|discriminate]. cbn [lib].
  by injection H4 as -> ->.
Qed.

End Decoder.

(** A plain decode sends nothing, returns no placeholder, and raises a remote
    error exactly in the four cases above. *)
Lemma decode_plain by_path0 (webdav_res : httpx.Response) user info w :
  let out := _lf_parse_webdav_records by_path0 webdav_res user info false w in
  out.2 = w
  ∧ (∀ result, out.1 = Ok result → Forall nonzero_fileid result)
  ∧ raises_NextcloudException out.1 = remote_error_expected webdav_res.
Proof.
  unfold remote_error_expected.
  destruct (http_is_error (httpx.status_code webdav_res)) eqn:H1.
  { cbn zeta. rewrite decode_failure_status by done. by repeat split. }
  destruct (httpx.status_code webdav_res =? 207) eqn:H2; cycle 1.
  { cbn zeta. rewrite decode_not_multistatus by done. by repeat split. }
  destruct (Str.truthy (httpx.text webdav_res)) eqn:H3; cycle 1.
  { cbn zeta. rewrite decode_empty_body by done. by repeat split. }
  destruct (error_payload (httpx.text webdav_res)) as [[exception message]|] eqn:H4.
  { cbn zeta. erewrite decode_error_payload by done. by repeat split. }
  cbn [negb orb].
  cbn zeta. unfold _lf_parse_webdav_records, check_error, lift.
  rewrite bind_run, H1, H2, H3. cbn [negb].
  unfold error_payload in H4.
  rewrite bind_run, pure_run.
  destruct (xmltodict_parse (httpx.text webdav_res)) as [response_data|];
    [|by repeat split]. cbn [lib].
  destruct (dict_get "d:error" response_data) as [err|].
  - destruct err as [| | | | |err]; try (by repeat split).
    rewrite bind_run, pure_run. cbn [py_getitem].
    destruct (dict_get "s:exception" err); [|by repeat split]. cbn [lib].
    rewrite bind_run, pure_run. cbn [py_getitem].
    destruct (dict_get "s:message" err); [discriminate | by repeat split].
  - run_pure ltac:(by repeat split).
    run_pure ltac:(by repeat split).
    match goal with
    | |- context [_parse_records ?bp ?recs ?u false ?w0] =>
        pose proof (parse_records_plain bp recs u w0) as [Hw Hout];
        destruct (_parse_records bp recs u false w0) as [[result|e] w1]
    end; cbn in Hw, Hout |- *.
    + split; [done|]. split; [by intros ? [= <-] | done].
    + split; [done|]. split; [done|]. unfold raises_NextcloudException. by rewrite Hout.
Qed.

(** ** Listings *)


(** [_listdir] is one PROPFIND, a plain decode of the answer, and the removal
    of the queried directory when asked for. *)
Lemma listdir_run user path (properties : list string) (exclude_self : bool) w :
  let r := propfind_request user path properties in
  let w1 := mkWorld (dav r (server w)).2 (sent w ++ [r]) in
  _listdir user path properties exclude_self w
  = (match (_lf_parse_webdav_records by_path_unused (dav r (server w)).1 user
              (list_info user path properties) false w1).1 with
     | Ok result => Ok (if exclude_self then remove_self user path result else result)
     | Raise e => Raise e
     end, w1).
Proof.
  cbn zeta. unfold _listdir. rewrite bind_run. unfold session_dav.
  fold (propfind_request user path properties).
  destruct (dav (propfind_request user path properties) (server w)) as [response s].
  cbn [fst snd]. rewrite bind_run. fold (list_info user path properties).
  match goal with
  | |- context [_lf_parse_webdav_records ?bp ?r ?u ?i false ?w0] =>
      pose proof (decode_plain bp r u i w0) as (Hw & _ & _);
      destruct (_lf_parse_webdav_records bp r u i false w0) as [[result|e] w2]
  end; cbn in Hw; subst w2; cbn [fst]; [|done].
  by destruct exclude_self.
Qed.

Lemma remove_self_Forall (Q : FsNode → Prop) user path result :
  Forall Q result → Forall Q (remove_self user path result).
Proof.
  intros H. unfold remove_self.
  destruct (find_self _ 0 result); [by apply Forall_delete | done].
Qed.

Lemma listdir_fileid user path (properties : list string) (exclude_self : bool)
    w result w' :
  _listdir user path properties exclude_self w = (Ok result, w') →
  Forall nonzero_fileid result.
Proof.
  rewrite listdir_run. cbn zeta.
  match goal with
  | |- context [_lf_parse_webdav_records ?bp ?r ?u ?i false ?w0] =>
      pose proof (decode_plain bp r u i w0) as (_ & Hok & _);
      destruct (_lf_parse_webdav_records bp r u i false w0) as [[result0|e] w2]
  end; cbn in Hok |- *; [|discriminate].
  intros [= <- _]. specialize (Hok _ eq_refl).
  destruct exclude_self; [by apply remove_self_Forall | done].
Qed.

(** The supplementary lookup: one PROPFIND for the path, and a node that is
    no placeholder when there is one. *)
Lemma by_path_run path0 w :
  let r := propfind_request session_user path0 PROPFIND_PROPERTIES in
  (by_path path0 w).2 = mkWorld (dav r (server w)).2 (sent w ++ [r])
  ∧ ∀ n, (by_path path0 w).1 = Ok (Some n) → nonzero_fileid n.
Proof.
  cbn zeta. unfold by_path. rewrite bind_run. unfold listdir.
  destruct (_listdir session_user path0 PROPFIND_PROPERTIES false w)
    as [[result|e] w1] eqn:E.
  - apply listdir_fileid in E as Hid. rewrite listdir_run in E. cbn zeta in E.
    injection E as _ <-. split; [done|]. cbn. intros n [= Hn].
    destruct Hid as [|n0 rest Hn0 _]; [discriminate|]. cbn in Hn. by injection Hn as <-.
  - rewrite listdir_run in E. cbn zeta in E. injection E as _ <-. by split.
Qed.

(** ** No placeholder in any result *)


Section Lookup.
Variable by_path0 : string → M (option FsNode).
Hypothesis by_path0_found : ∀ path0 w n,
  (by_path0 path0 w).1 = Ok (Some n) → nonzero_fileid n.

Lemma parse_records_step_fileid user (favorite : bool) result (record : PyVal) w :
  Forall nonzero_fileid result →
  no_placeholder (parse_records_step by_path0 user favorite result record w).
Proof using by_path0_found.
  intros Hres. unfold no_placeholder, parse_records_step.
  run_pure ltac:(done).
  run_pure ltac:(done).
  destruct (negb (Str.truthy _)); [done|].
  run_pure ltac:(done).
  run_pure ltac:(done).
  match goal with
  | |- context [fileid (info ?x) =? 0] => destruct (fileid (info x) =? 0) eqn:Hid
  end.
  - destruct favorite; cbn [andb negb]; [|done].
    rewrite bind_run.
    match goal with
    | |- context [by_path0 ?p w] =>
        pose proof (by_path0_found p w) as Hfound;
        destruct (by_path0 p w) as [[[n|]|e] w1]
    end; cbn in Hfound |- *; try done.
    apply Forall_app. split; [done|]. apply Forall_singleton.
    by apply (Hfound n).
  - rewrite andb_false_r. cbn. apply Forall_app. split; [done|].
    apply Forall_singleton. unfold nonzero_fileid. lia.
Qed.

Lemma parse_records_loop_fileid user (favorite : bool) (records : list PyVal) :
  ∀ result w, Forall nonzero_fileid result →
  no_placeholder (parse_records_loop by_path0 user favorite result records w).
Proof using by_path0_found.
  induction records as [|record rest IH]; intros result w Hres; [done|].
  cbn [parse_records_loop]. unfold no_placeholder. rewrite bind_run.
  pose proof (parse_records_step_fileid user favorite result record w Hres) as Hstep.
  destruct (parse_records_step by_path0 user favorite result record w)
    as [[result'|e] w1]; [|done].
  by apply IH.
Qed.

Lemma decode_fileid (webdav_res : httpx.Response) user info (favorite : bool) w :
  no_placeholder (_lf_parse_webdav_records by_path0 webdav_res user info favorite w).
Proof using by_path0_found.
  unfold no_placeholder, _lf_parse_webdav_records, check_error, lift.
  rewrite bind_run.
  destruct (http_is_error _); [done|].
  destruct (negb (_ =? 207)); [done|].
  destruct (negb (Str.truthy _)); [done|].
  run_pure ltac:(done).
  destruct (dict_get "d:error" _).
  - run_pure ltac:(done). run_pure ltac:(done). done.
  - run_pure ltac:(done). run_pure ltac:(done).
    unfold _parse_records. run_pure ltac:(done).
    by apply parse_records_loop_fileid.
Qed.

End Lookup.

Lemma find_fileid (req : list PyVal) path0 (depth : Z) w :
  no_placeholder (find req path0 depth w).
Proof.
  unfold no_placeholder, find. rewrite bind_run. unfold lift.
  destruct (_build_search_req _ req) as [[xml_where req']|]; [|done].
  rewrite bind_run. unfold session_dav. destruct (dav _ _) as [response s].
  match goal with
  | |- context [_lf_parse_webdav_records ?bp ?r ?u ?i false ?w0] =>
      pose proof (decode_plain bp r u i w0) as (_ & Hok & _);
      destruct (_lf_parse_webdav_records bp r u i false w0) as [[result0|e] w2]
  end; cbn in Hok |- *; [|done].
  by apply Hok.
Qed.

Lemma listfav_fileid w : no_placeholder (listfav w).
Proof.
  unfold no_placeholder, listfav. rewrite bind_run. unfold session_dav.
  destruct (dav _ _) as [response s]. rewrite bind_run. unfold lift.
  destruct (check_error _ _); [|done].
  apply decode_fileid. intros path0 w0 n. apply by_path_run.
Qed.

(** C3.  A record none of whose propstat blocks has a status containing
    [200 OK] parses to a node with [fileid] 0; and no node with [fileid] 0 is
    in a list an operation returns: not from a plain decode, not from
    [listdir], [find] or [listfav]. *)
Theorem placeholders_never_returned :
  (∀ (prop_stats : list PyVal) user path0 name0,
      Forall (λ ps, is_dict ps = true ∧ successful ps = false) prop_stats →
      ∃ n, _parse_record prop_stats user path0 name0 = Ok n ∧ fileid (info n) = 0)
  ∧ (∀ by_path0 (webdav_res : httpx.Response) user label w result w',
      _lf_parse_webdav_records by_path0 webdav_res user label false w = (Ok result, w') →
      Forall (λ n, fileid (info n) ≠ 0) result)
  ∧ (∀ path0 (exclude_self root : bool) w result w',
      listdir path0 exclude_self root w = (Ok result, w') →
      Forall (λ n, fileid (info n) ≠ 0) result)
  ∧ (∀ (req : list PyVal) path0 (depth : Z) w result w',
      find req path0 depth w = (Ok result, w') →
      Forall (λ n, fileid (info n) ≠ 0) result)
  ∧ (∀ w result w',
      listfav w = (Ok result, w') → Forall (λ n, fileid (info n) ≠ 0) result).
Proof.
  repeat split.
  - intros prop_stats user path0 name0 H. exists (FsNode_init user path0 name0).
    split; [|reflexivity]. by apply parse_prop_stats_skip.
  - intros by_path0 webdav_res user label w result w' H.
    pose proof (decode_plain by_path0 webdav_res user label w) as (_ & Hok & _).
    apply Hok. by rewrite H.
  - intros path0 exclude_self root w result w' H. by eapply listdir_fileid.
  - intros req path0 depth w result w' H.
    pose proof (find_fileid req path0 depth w) as Hf.
    unfold no_placeholder in Hf. by rewrite H in Hf.
  - intros w result w' H. pose proof (listfav_fileid w) as Hf.
    unfold no_placeholder in Hf. by rewrite H in Hf.
Qed.

(** C4, as amended.  Handed a response in one of the four cases (a status
    code [check_error] rejects, a status code other than 207, an empty body,
    a top-level error payload), the decoder raises the remote error, whether
    it decodes a plain listing or a favourites listing; a plain decode raises
    a remote error in these cases only; and for an error payload the reason
    is [exception: message] with the newlines removed. *)
Theorem decoder_remote_error by_path0 (webdav_res : httpx.Response) user info w :
  (∀ favorite : bool,
      remote_error_expected webdav_res = true →
      raises_NextcloudException
        (_lf_parse_webdav_records by_path0 webdav_res user info favorite w).1 = true)
  ∧ raises_NextcloudException
      (_lf_parse_webdav_records by_path0 webdav_res user info false w).1
    = remote_error_expected webdav_res
  ∧ (∀ (favorite : bool) (exception message : PyVal),
      http_is_error (httpx.status_code webdav_res) = false →
      httpx.status_code webdav_res = 207 →
      httpx.text webdav_res ≠ "" →
      error_payload (httpx.text webdav_res) = Some (exception, message) →
      _lf_parse_webdav_records by_path0 webdav_res user info favorite w
      = (Raise (NextcloudException None
                  (Str.replace newline "" (py_str exception +:+ ": " +:+ py_str message))
                  info), w)).
Proof.
  split; [|split].
  - intros favorite. unfold remote_error_expected.
    destruct (http_is_error (httpx.status_code webdav_res)) eqn:H1.
    { intros _. by rewrite decode_failure_status. }
    destruct (httpx.status_code webdav_res =? 207) eqn:H2; cycle 1.
    { intros _. by rewrite decode_not_multistatus. }
    destruct (Str.truthy (httpx.text webdav_res)) eqn:H3; cycle 1.
    { intros _. by rewrite decode_empty_body. }
    cbn [negb orb].
    destruct (error_payload (httpx.text webdav_res)) as [[ex msg]|] eqn:H4;
      [|discriminate].
    intros _. by erewrite decode_error_payload.
  - apply decode_plain.
  - intros favorite exception message H1 H2 H3 H4.
    apply decode_error_payload; try done.
    + rewrite H2. reflexivity.
    + by destruct (httpx.text webdav_res).
Qed.

(** ** Self-exclusion *)

Lemma find_self_first q (pre : list FsNode) : ∀ (k : nat) v post,
  Forall (λ n, is_self q n = false) pre → is_self q v = true →
  find_self q k (pre ++ v :: post) = Some (k + length pre)%nat.
Proof.
  induction pre as [|x pre IH]; intros k v post Hpre Hv; cbn.
  - rewrite Hv. f_equal. lia.
  - inversion Hpre as [|? ? Hx Hpre']; subst. rewrite Hx.
    rewrite IH by done. f_equal. lia.
Qed.

Lemma find_self_none q (result : list FsNode) : ∀ k : nat,
  Forall (λ n, is_self q n = false) result → find_self q k result = None.
Proof.
  induction result as [|x rest IH]; intros k H; cbn; [done|].
  inversion H as [|? ? Hx Hrest]; subst. rewrite Hx. by apply IH.
Qed.

Lemma is_self_false q n : Str.rstrip "/" (full_path n) ≠ q → is_self q n = false.
Proof. intros H. unfold is_self, Str.eqb. by apply String.eqb_neq. Qed.

Lemma is_self_true q n : Str.rstrip "/" (full_path n) = q → is_self q n = true.
Proof. intros H. unfold is_self, Str.eqb. by apply String.eqb_eq. Qed.

(** What the [if exclude_self] block does to a list of nodes: the first
    node whose full path, trailing slashes ignored, is the string compared
    with goes, and that node only; without such a node nothing goes. *)
Lemma remove_self_first_match user0 path0 (result : list FsNode) :
  let q := queried_full_path user0 path0 in
  (∀ pre v post,
      result = pre ++ v :: post →
      Forall (λ n, Str.rstrip "/" (full_path n) ≠ q) pre →
      Str.rstrip "/" (full_path v) = q →
      remove_self user0 path0 result = pre ++ post)
  ∧ (Forall (λ n, Str.rstrip "/" (full_path n) ≠ q) result →
     remove_self user0 path0 result = result).
Proof.
  cbn zeta. split.
  - intros pre v post -> Hpre Hv. unfold remove_self.
    fold (queried_full_path user0 path0).
    rewrite (find_self_first _ pre 0 v post).
    + cbn [Nat.add]. apply delete_middle.
    + eapply Forall_impl; [exact Hpre|]. intros n. apply is_self_false.
    + by apply is_self_true.
  - intros H. unfold remove_self. fold (queried_full_path user0 path0).
    rewrite find_self_none; [done|].
    eapply Forall_impl; [exact H|]. intros n. apply is_self_false.
Qed.

Lemma lstrip_no_leading c (s : string) :
  Str.startswith (String c EmptyString) s = false → Str.lstrip c s = s.
Proof.
  destruct s as [|a s]; [done|]. cbn [Str.startswith Str.lstrip].
  rewrite andb_true_r. unfold Str.is_char. rewrite Ascii.eqb_sym. by intros ->.
Qed.

(** The string [_listdir] compares with is the directory's full path when
    the path given has no leading slash. *)
Lemma queried_is_directory user0 (path0 : string) :
  Str.startswith "/" path0 = false →
  queried_full_path user0 path0 = directory_full_path user0 path0.
Proof.
  intros H. unfold queried_full_path, directory_full_path, full_path.
  cbn [user path FsNode_init]. rewrite (lstrip_no_leading _ _ H).
  by destruct (Str.truthy user0).
Qed.

(** C10.  For a path without a leading slash, [listdir] with [exclude_self]
    returns the nodes the answer decodes to without the first one whose full
    path, trailing slashes ignored, is the full path of the queried
    directory: the nodes before it and after it stay, in their order, also
    those after it that have the same path, and without such a node nothing
    is removed.  For the path [/docs] it does not: the string compared with
    is [admin//docs], the directory's full path is [admin/docs], and the
    first node with that path, the directory itself, stays in the result. *)
Theorem exclude_self_removes_first_match :
  (∀ path0 (root : bool) w parsed,
      let user0 := if root then "" else session_user in
      let r := propfind_request user0 path0 PROPFIND_PROPERTIES in
      let w1 := mkWorld (dav r (server w)).2 (sent w ++ [r]) in
      let d := directory_full_path user0 path0 in
      Str.startswith "/" path0 = false →
      (_lf_parse_webdav_records by_path_unused (dav r (server w)).1 user0
         (list_info user0 path0 PROPFIND_PROPERTIES) false w1).1 = Ok parsed →
      listdir path0 false root w = (Ok parsed, w1)
      ∧ (∀ pre v post,
          parsed = pre ++ v :: post →
          Forall (λ n, Str.rstrip "/" (full_path n) ≠ d) pre →
          Str.rstrip "/" (full_path v) = d →
          listdir path0 true root w = (Ok (pre ++ post), w1))
      ∧ (Forall (λ n, Str.rstrip "/" (full_path n) ≠ d) parsed →
         listdir path0 true root w = (Ok parsed, w1)))
  ∧ (@directory_full_path _ _ Demo.platform "admin" "/docs" = "admin/docs"
     ∧ queried_full_path "admin" "/docs" = "admin//docs"
     ∧ (@listdir _ _ Demo.platform "/docs" false false Demo.world0).1
       = Ok [DemoRuns.docs_node; DemoRuns.a_txt_node]
     ∧ Str.rstrip "/" (full_path DemoRuns.docs_node) = "admin/docs"
     ∧ (@listdir _ _ Demo.platform "/docs" true false Demo.world0).1
       = Ok [DemoRuns.docs_node; DemoRuns.a_txt_node]).
Proof.
  split; [|repeat split; vm_compute; reflexivity].
  intros path0 root w parsed user0 r w1 d Hslash Hdec.
  unfold listdir. fold user0. rewrite !listdir_run. cbn zeta. fold r w1.
  rewrite Hdec. split; [done|].
  pose proof (remove_self_first_match user0 path0 parsed) as [Hfirst Hnone].
  cbn zeta in Hfirst, Hnone.
  rewrite (queried_is_directory user0 path0 Hslash) in Hfirst, Hnone. fold d in Hfirst, Hnone.
  split.
  - intros pre v post Hparsed Hpre Hv. by rewrite (Hfirst pre v post Hparsed Hpre Hv).
  - intros Hall. by rewrite (Hnone Hall).
Qed.

(** ** Entries without a name *)

Lemma rstrip_not_endswith c (s : string) : Str.endswith c (Str.rstrip c s) = false.
Proof.
  induction s as [|a s IH]; [reflexivity|]. cbn [Str.rstrip].
  destruct (Str.rstrip c s) as [|b r] eqn:E.
  - destruct (Str.is_char a c) eqn:Ha; [reflexivity|]. cbn. exact Ha.
  - exact IH.
Qed.

Lemma rsplit_last_empty c (s : string) :
  Str.rsplit_last c s = "" → s = "" ∨ Str.endswith c s = true.
Proof.
  induction s as [|a s IH]; [by left|]. cbn [Str.rsplit_last]. intros H. right.
  destruct (Str.has_char c s) eqn:Hs.
  - destruct (IH H) as [-> | He]; [discriminate|].
    destruct s; [discriminate | exact He].
  - destruct (Str.is_char a c) eqn:Ha; [|discriminate]. subst s. cbn. exact Ha.
Qed.

(** The name [_parse_records] computes is empty exactly when nothing of the
    href is left once its trailing slashes are stripped. *)
Lemma obj_name_empty_iff (obj_full_path : string) :
  Str.rsplit_last "/" (Str.rstrip "/" obj_full_path) = ""
  ↔ Str.rstrip "/" obj_full_path = "".
Proof.
  split; [|by intros ->].
  intros H. apply rsplit_last_empty in H as [H | H]; [done|].
  by rewrite rstrip_not_endswith in H.
Qed.


(** ** What parsing a propstat block keeps *)


Lemma if_key_invariant (Q : FsNode → Prop) key (prop : list (string * PyVal)) f n n' :
  (∀ v m m', dict_get key prop = Some v → f v m = Ok m' → Q m → Q m') →
  if_key key prop f n = Ok n' → Q n → Q n'.
Proof.
  unfold if_key. intros Hf. destruct (dict_get key prop) as [v|].
  - intros H. by apply (Hf v n n').
  - by intros [= <-].
Qed.

Lemma if_key_int_invariant (Q : FsNode → Prop) key (prop : list (string * PyVal))
    (g : Z → FsNodeInfo → FsNodeInfo) n n' :
  (∀ z, keeps Q (g z)) →
  if_key key prop (λ v m, z ← py_int int_of_str v; mret (with_info (g z) m)) n = Ok n' →
  Q n → Q n'.
Proof.
  intros Hg. apply if_key_invariant. intros v m m' _.
  destruct (py_int int_of_str v) as [z|]; [|discriminate].
  intros [= <-]. apply Hg.
Qed.

Lemma if_key_val_invariant (Q : FsNode → Prop) key (prop : list (string * PyVal))
    (g : PyVal → FsNodeInfo → FsNodeInfo) n n' :
  (∀ v, keeps Q (g v)) →
  if_key key prop (λ v m, mret (with_info (g v) m)) n = Ok n' →
  Q n → Q n'.
Proof.
  intros Hg. apply if_key_invariant. intros v m m' _ [= <-]. apply Hg.
Qed.

(** A property of the node that no setter but the one of the date can
    break, and that the date of this block does not break, holds after the
    block when it held before. *)
Lemma parse_prop_stat_invariant (Q : FsNode → Prop) n (prop_stat : PyVal) n' :
  (∀ v, keeps Q (set_nc_id v)) → (∀ z, keeps Q (set_fileid z)) →
  (∀ z, keeps Q (set_size z)) → (∀ z, keeps Q (set_content_length z)) →
  (∀ v, keeps Q (set_etag v)) → (∀ v, keeps Q (set_permissions v)) →
  (∀ b, keeps Q (set_favorite b)) →
  (∀ d prop v m m',
      prop_stat = PDict d → dict_get "d:prop" d = Some (PDict prop) →
      dict_get "d:getlastmodified" prop = Some v →
      try_set_last_modified v m = Ok m' → Q m → Q m') →
  parse_prop_stat n prop_stat = Ok n' → Q n → Q n'.
Proof.
  intros H1 H2 H3 H4 H5 H6 H7 Hdate. unfold parse_prop_stat.
  destruct prop_stat as [| | | | |d]; try discriminate. cbn [py_get mbind Result_bind].
  destruct (negb _); [by intros [= <-]|]. cbn [py_getitem].
  destruct (dict_get "d:prop" d) as [[| | | | |prop]|] eqn:Hprop; try discriminate.
  cbn [mbind Result_bind].
  destruct (if_key "oc:id" prop _ n) as [n1|] eqn:E1; [|discriminate].
  cbn [mbind Result_bind].
  destruct (if_key "oc:fileid" prop _ n1) as [n2|] eqn:E2; [|discriminate].
  cbn [mbind Result_bind].
  destruct (if_key "oc:size" prop _ n2) as [n3|] eqn:E3; [|discriminate].
  cbn [mbind Result_bind].
  destruct (if_key "d:getcontentlength" prop _ n3) as [n4|] eqn:E4; [|discriminate].
  cbn [mbind Result_bind].
  destruct (if_key "d:getetag" prop _ n4) as [n5|] eqn:E5; [|discriminate].
  cbn [mbind Result_bind].
  destruct (if_key "d:getlastmodified" prop _ n5) as [n6|] eqn:E6; [|discriminate].
  cbn [mbind Result_bind].
  destruct (if_key "oc:permissions" prop _ n6) as [n7|] eqn:E7; [|discriminate].
  cbn [mbind Result_bind].
  intros E8 Hn.
  apply (if_key_val_invariant Q) in E1; [|done..].
  apply (if_key_int_invariant Q) in E2; [|done..].
  apply (if_key_int_invariant Q) in E3; [|done..].
  apply (if_key_int_invariant Q) in E4; [|done..].
  apply (if_key_val_invariant Q) in E5; [|done..].
  apply (if_key_invariant Q) in E6; [|by eauto|done].
  apply (if_key_val_invariant Q) in E7; [|done..].
  apply (if_key_int_invariant Q _ _ (λ z, set_favorite (negb (z =? 0)))) in E8;
    [done | by intros z | done].
Qed.

(** The node of a record has the user, the path and the name it was made
    with. *)
Lemma parse_record_identity (prop_stats : list PyVal) user0 path0 name0 n :
  _parse_record prop_stats user0 path0 name0 = Ok n →
  user n = user0 ∧ path n = path0 ∧ name n = name0.
Proof.
  unfold _parse_record.
  assert (H : ∀ m, parse_prop_stats m prop_stats = Ok n →
              user n = user m ∧ path n = path m ∧ name n = name m).
  { induction prop_stats as [|ps rest IH]; intros m; cbn [parse_prop_stats].
    - by intros [= <-].
    - cbn [mbind Result_bind].
      destruct (parse_prop_stat m ps) as [m'|] eqn:E; [|discriminate].
      intros Hrest. apply IH in Hrest as (-> & -> & ->).
      by apply (parse_prop_stat_invariant
                  (λ x, user x = user m ∧ path x = path m
                        ∧ name x = name m)) in E;
        try done; try (by intros ? ? ?);
        intros d prop v x x' _ _ _; unfold try_set_last_modified, set_last_modified;
        destruct v; try (by intros [= <-]);
        cbn [mbind Result_bind];
        (destruct (parsedate_to_datetime _) as [?|[]]; try discriminate;
         by intros [= <-]). }
  intros Hn. by apply H in Hn as (-> & -> & ->).
Qed.

(** ** Favourites *)

(** The loop over the entries, entry by entry: what the entries before one
    have come to is where the loop goes on from. *)
Lemma parse_records_loop_app by_path0 user0 (favorite : bool) (pre rest : list PyVal) :
  ∀ result w,
    parse_records_loop by_path0 user0 favorite result (pre ++ rest) w
    = match parse_records_loop by_path0 user0 favorite result pre w with
      | (Ok result', w') => parse_records_loop by_path0 user0 favorite result' rest w'
      | (Raise e, w') => (Raise e, w')
      end.
Proof.
  induction pre as [|record pre IH]; intros result w; [done|].
  cbn [app parse_records_loop]. rewrite !bind_run.
  destruct (parse_records_step by_path0 user0 favorite result record w) as [[r1|e] w1];
    [apply IH | done].
Qed.

(** A response the decoder takes is decoded by the loop over its entries. *)
Lemma decode_entries by_path0 (webdav_res : httpx.Response) user0 label
    (favorite : bool) (entries : list PyVal) w :
  http_is_error (httpx.status_code webdav_res) = false →
  httpx.status_code webdav_res = 207 →
  httpx.text webdav_res ≠ "" →
  response_entries (httpx.text webdav_res) = Some entries →
  _lf_parse_webdav_records by_path0 webdav_res user0 label favorite w
  = parse_records_loop by_path0 user0 favorite [] entries w.
Proof.
  intros H1 H2 H3 H4. unfold response_entries in H4.
  assert (Ht : Str.truthy (httpx.text webdav_res) = true)
    by (by destruct (httpx.text webdav_res)).
  unfold _lf_parse_webdav_records, check_error, lift. rewrite bind_run, H1, H2, Ht.
  cbn [Z.eqb Pos.eqb negb]. rewrite bind_run, pure_run.
  destruct (xmltodict_parse (httpx.text webdav_res)) as [response_data|]; [|discriminate].
  cbn [lib]. destruct (dict_get "d:error" response_data); [discriminate|].
  rewrite bind_run, pure_run. cbn [py_getitem].
  destruct (dict_get "d:multistatus" response_data) as [[| | | | |multistatus]|];
    try discriminate.
  cbn [lib]. rewrite bind_run, pure_run. cbn [py_get lib].
  unfold _parse_records.
  destruct (dict_get "d:response" multistatus) as [[| | | | |entry]|];
    try discriminate; injection H4 as <-; by rewrite bind_run, pure_run.
Qed.

(** [listfav] with a report the decoder takes: the REPORT goes out, and the
    loop runs over the entries of the answer. *)
Lemma listfav_run (entries : list PyVal) w :
  let report := (dav report_request (server w)).1 in
  let w0 := mkWorld (dav report_request (server w)).2 (sent w ++ [report_request]) in
  http_is_error (httpx.status_code report) = false →
  httpx.status_code report = 207 →
  httpx.text report ≠ "" →
  response_entries (httpx.text report) = Some entries →
  listfav w = parse_records_loop by_path session_user true [] entries w0.
Proof.
  cbn zeta. intros H1 H2 H3 H4.
  unfold listfav. rewrite bind_run. unfold session_dav.
  change (mkRequest "REPORT" _ _ _) with report_request.
  destruct (dav report_request (server w)) as [response s]. cbn [fst snd] in *.
  rewrite bind_run. unfold lift at 1, check_error at 1. rewrite H1.
  by apply decode_entries.
Qed.

(** One round of the favourites loop for an entry with a name whose record
    parses to a node without file id. *)
Lemma favourite_step user0 result (record href propstat : PyVal)
    (obj_full_path : string) fs_node w :
  let obj_name := Str.rsplit_last "/" (Str.rstrip "/" obj_full_path) in
  let obg_rel_path :=
    Str.lstrip "/"
      (Str.replace (dav_url_suffix +:+ _dav_get_obj_path user0 "") "" obj_full_path) in
  py_get record "d:href" (PStr "") = Ok href →
  unquote href = Ok obj_full_path →
  obj_name ≠ "" →
  py_getitem record "d:propstat" = Ok propstat →
  _parse_record (match propstat with PList l => l | _ => [propstat] end)
    user0 obg_rel_path obj_name = Ok fs_node →
  fileid (info fs_node) = 0 →
  parse_records_step by_path user0 true result record w
  = match by_path obg_rel_path w with
    | (Ok (Some n), w') => (Ok (result ++ [with_info (set_favorite true) n]), w')
    | (Ok None, w') => (Ok result, w')
    | (Raise e, w') => (Raise e, w')
    end.
Proof.
  intros obj_name obg_rel_path Hhref Hunq Hname Hprop Hrec Hid.
  unfold parse_records_step.
  rewrite bind_run, pure_run, Hhref. cbn [lib].
  rewrite bind_run, pure_run, Hunq. cbn [lib].
  fold obj_name. destruct (Str.truthy obj_name) eqn:Ht;
    [|by destruct obj_name]. cbn [negb].
  rewrite bind_run, pure_run, Hprop. cbn [lib].
  fold obg_rel_path. rewrite bind_run, pure_run, Hrec. cbn [lib].
  rewrite Hid. cbn [andb Z.eqb]. rewrite bind_run.
  apply parse_record_identity in Hrec as (_ & -> & _).
  by destruct (by_path obg_rel_path w) as [[[n|]|e] w1].
Qed.

(** C6, as amended.  [listfav] sends its REPORT and goes through the entries
    of the answer in order.  An entry with a name whose record parses to a
    node with [fileid] 0 makes it look the node's path up, by one PROPFIND
    through [by_path], from where the entries before have left the result
    and the server.  A node the lookup returns is appended with [favorite]
    set and its [fileid] as looked up, and the listing goes on; when the
    lookup returns no node the entry adds nothing, and the listing goes on;
    when the lookup raises, the listing raises the same with nothing sent
    after the lookup, which is what happens whenever the server answers the
    lookup with a status code [check_error] rejects. *)
Theorem favourite_enrichment w (pre rest : list PyVal) (record href propstat : PyVal)
    (obj_full_path : string) fs_node result w1 :
  let report := (dav report_request (server w)).1 in
  let w0 := mkWorld (dav report_request (server w)).2 (sent w ++ [report_request]) in
  let obj_name := Str.rsplit_last "/" (Str.rstrip "/" obj_full_path) in
  let obg_rel_path :=
    Str.lstrip "/"
      (Str.replace (dav_url_suffix +:+ _dav_get_obj_path session_user "") ""
         obj_full_path) in
  let r := propfind_request session_user obg_rel_path PROPFIND_PROPERTIES in
  let answer := (dav r (server w1)).1 in
  let lookup := by_path obg_rel_path w1 in
  http_is_error (httpx.status_code report) = false →
  httpx.status_code report = 207 →
  httpx.text report ≠ "" →
  response_entries (httpx.text report) = Some (pre ++ record :: rest) →
  parse_records_loop by_path session_user true [] pre w0 = (Ok result, w1) →
  py_get record "d:href" (PStr "") = Ok href →
  unquote href = Ok obj_full_path →
  obj_name ≠ "" →
  py_getitem record "d:propstat" = Ok propstat →
  _parse_record (match propstat with PList l => l | _ => [propstat] end)
    session_user obg_rel_path obj_name = Ok fs_node →
  fileid (info fs_node) = 0 →
  lookup.2 = mkWorld (dav r (server w1)).2 (sent w1 ++ [r])
  ∧ listfav w
    = match lookup.1 with
      | Ok (Some n) =>
          parse_records_loop by_path session_user true
            (result ++ [with_info (set_favorite true) n]) rest lookup.2
      | Ok None => parse_records_loop by_path session_user true result rest lookup.2
      | Raise e => (Raise e, lookup.2)
      end
  ∧ (∀ n, favorite (info (with_info (set_favorite true) n)) = true
          ∧ fileid (info (with_info (set_favorite true) n)) = fileid (info n))
  ∧ (http_is_error (httpx.status_code answer) = true →
     listfav w
     = (Raise (NextcloudException (Some (httpx.status_code answer))
                 (http_phrase (httpx.status_code answer))
                 (list_info session_user obg_rel_path PROPFIND_PROPERTIES)),
        lookup.2)).
Proof.
  intros report w0 obj_name obg_rel_path r answer lookup
    H1 H2 H3 H4 Hpre Hhref Hunq Hname Hprop Hrec Hid.
  assert (Hw : lookup.2 = mkWorld (dav r (server w1)).2 (sent w1 ++ [r]))
    by apply by_path_run.
  assert (Hrun : listfav w
                 = match lookup.1 with
                   | Ok (Some n) =>
                       parse_records_loop by_path session_user true
                         (result ++ [with_info (set_favorite true) n]) rest lookup.2
                   | Ok None =>
                       parse_records_loop by_path session_user true result rest lookup.2
                   | Raise e => (Raise e, lookup.2)
                   end).
  { rewrite (listfav_run (pre ++ record :: rest) w H1 H2 H3 H4). fold w0.
    rewrite parse_records_loop_app, Hpre. cbn [parse_records_loop]. rewrite bind_run.
    rewrite (favourite_step session_user result record href propstat obj_full_path
               fs_node w1 Hhref Hunq Hname Hprop Hrec Hid).
    fold obg_rel_path lookup. by destruct lookup as [[[n|]|e] w2]. }
  split; [exact Hw|]. split; [exact Hrun|]. split; [done|].
  intros Herr. rewrite Hrun.
  assert (Hl : lookup.1
               = Raise (NextcloudException (Some (httpx.status_code answer))
                          (http_phrase (httpx.status_code answer))
                          (list_info session_user obg_rel_path PROPFIND_PROPERTIES))).
  { unfold lookup, by_path. rewrite bind_run. unfold listdir. rewrite listdir_run.
    cbn zeta. fold r answer.
    rewrite (decode_failure_status by_path_unused answer session_user
               (list_info session_user obg_rel_path PROPFIND_PROPERTIES) false _ Herr).
    reflexivity. }
  by rewrite Hl.
Qed.

(** ** The date *)

(** C7, as amended.  The setter given a string the library parses stores the
    instant it denotes, and the getter returns it.  In a propstat block, a
    last-modified string the library rejects with [ValueError] raises
    nothing and leaves the date as it was; a record that has nothing else
    parses to the node with the date of 1970.  A string the library rejects
    with any other exception is not caught: the block with [200 OK] that
    holds it never parses, and a record that has nothing else raises that
    exception. *)
Theorem last_modified_round_trip :
  (∀ n (s : string) (d : datetime),
      parsedate_to_datetime s = Ok d →
      ∃ n', set_last_modified n (PStr s) = Ok n' ∧ last_modified n' = LMDate d)
  ∧ (∀ n (block prop : list (string * PyVal)) (s : string),
      dict_get "d:prop" block = Some (PDict prop) →
      dict_get "d:getlastmodified" prop = Some (PStr s) →
      parsedate_to_datetime s = Raise ValueError →
      if_key "d:getlastmodified" prop try_set_last_modified n = Ok n
      ∧ ∀ n', parse_prop_stat n (PDict block) = Ok n' →
              last_modified n' = last_modified n)
  ∧ (∀ user0 path0 name0 (status s : string),
      Str.contains "200 OK" status = true →
      parsedate_to_datetime s = Raise ValueError →
      _parse_record
        [ PDict [ ("d:status", PStr status);
                  ("d:prop", PDict [("d:getlastmodified", PStr s)]) ] ]
        user0 path0 name0
      = Ok (FsNode_init user0 path0 name0)
      ∧ last_modified (FsNode_init user0 path0 name0) = LMDate epoch)
  ∧ (∀ n (block prop : list (string * PyVal)) (s : string) (exn : Builtin),
      successful (PDict block) = true →
      dict_get "d:prop" block = Some (PDict prop) →
      dict_get "d:getlastmodified" prop = Some (PStr s) →
      parsedate_to_datetime s = Raise exn →
      exn ≠ ValueError →
      if_key "d:getlastmodified" prop try_set_last_modified n = Raise exn
      ∧ ∀ n', parse_prop_stat n (PDict block) ≠ Ok n')
  ∧ (∀ user0 path0 name0 (status s : string) (exn : Builtin),
      Str.contains "200 OK" status = true →
      parsedate_to_datetime s = Raise exn →
      exn ≠ ValueError →
      _parse_record
        [ PDict [ ("d:status", PStr status);
                  ("d:prop", PDict [("d:getlastmodified", PStr s)]) ] ]
        user0 path0 name0
      = Raise exn).
Proof.
  split; [|split; [|split; [|split]]].
  - intros n s d Hd. eexists. cbn [set_last_modified mbind Result_bind].
    rewrite Hd. split; reflexivity.
  - intros n block prop s Hprop Hdate Hs.
    assert (Hstep : ∀ m, try_set_last_modified (PStr s) m = Ok m).
    { intros m. unfold try_set_last_modified. cbn [set_last_modified mbind Result_bind].
      by rewrite Hs. }
    split; [unfold if_key; by rewrite Hdate|].
    intros n' Hn'.
    apply (parse_prop_stat_invariant (λ x, last_modified x = last_modified n))
      in Hn'; try done; try (by intros ? ? ?).
    intros d prop' v m m' [= <-]. rewrite Hprop. intros [= <-]. rewrite Hdate.
    intros [= <-]. rewrite Hstep. by intros [= <-].
  - intros user0 path0 name0 status s Hstatus Hs. split; [|reflexivity].
    unfold _parse_record. cbn [parse_prop_stats mbind Result_bind].
    unfold parse_prop_stat.
    change (py_get _ "d:status" (PStr "")) with (Ok (PStr status) : BRes PyVal).
    cbn [mbind Result_bind py_str]. rewrite Hstatus. cbn [negb].
    change (py_getitem _ "d:prop")
      with (Ok (PDict [("d:getlastmodified", PStr s)]) : BRes PyVal).
    cbn [mbind Result_bind].
    change (if_key "oc:id" _ _ ?m) with (Ok m : BRes FsNode).
    unfold if_key at 1 2 3 4 5.
    change (dict_get "oc:id" _) with (@None PyVal).
    change (dict_get "oc:fileid" _) with (@None PyVal).
    change (dict_get "oc:size" _) with (@None PyVal).
    change (dict_get "d:getcontentlength" _) with (@None PyVal).
    change (dict_get "d:getetag" _) with (@None PyVal).
    cbn [mbind Result_bind].
    unfold if_key at 1.
    change (dict_get "d:getlastmodified" _) with (Some (PStr s)).
    unfold try_set_last_modified. cbn [set_last_modified mbind Result_bind].
    rewrite Hs. cbn [mbind Result_bind]. reflexivity.
  - intros n block prop s exn Hok Hprop Hdate Hs Hexn.
    assert (Hstep : ∀ m, if_key "d:getlastmodified" prop try_set_last_modified m
                         = Raise exn).
    { intros m. unfold if_key. rewrite Hdate. unfold try_set_last_modified.
      cbn [set_last_modified mbind Result_bind]. rewrite Hs.
      cbn [mbind Result_bind]. by destruct exn. }
    split; [apply Hstep|]. intros n'.
    unfold parse_prop_stat. cbn [py_get py_getitem mbind Result_bind].
    cbn [successful] in Hok. rewrite Hok, Hprop. cbn [negb mbind Result_bind].
    repeat match goal with
           | |- context [mbind _ (if_key ?k prop ?f ?m)] =>
               lazymatch k with
               | "d:getlastmodified" => fail
               | _ => destruct (if_key k prop f m); cbn [mbind Result_bind]; [|done]
               end
           end.
    by rewrite Hstep.
  - intros user0 path0 name0 status s exn Hstatus Hs Hexn.
    unfold _parse_record. cbn [parse_prop_stats mbind Result_bind].
    unfold parse_prop_stat.
    change (py_get _ "d:status" (PStr "")) with (Ok (PStr status) : BRes PyVal).
    cbn [mbind Result_bind py_str]. rewrite Hstatus. cbn [negb].
    change (py_getitem _ "d:prop")
      with (Ok (PDict [("d:getlastmodified", PStr s)]) : BRes PyVal).
    cbn [mbind Result_bind].
    change (if_key "oc:id" _ _ ?m) with (Ok m : BRes FsNode).
    unfold if_key at 1 2 3 4 5.
    change (dict_get "oc:id" _) with (@None PyVal).
    change (dict_get "oc:fileid" _) with (@None PyVal).
    change (dict_get "oc:size" _) with (@None PyVal).
    change (dict_get "d:getcontentlength" _) with (@None PyVal).
    change (dict_get "d:getetag" _) with (@None PyVal).
    cbn [mbind Result_bind].
    unfold if_key at 1.
    change (dict_get "d:getlastmodified" _) with (Some (PStr s)).
    unfold try_set_last_modified. cbn [set_last_modified mbind Result_bind].
    rewrite Hs. cbn [mbind Result_bind]. by destruct exn.
Qed.

(** ** Creating directories *)

Lemma mkdir_run path0 w :
  mkdir path0 w
  = (check_error (httpx.status_code (dav (mkcol_request path0) (server w)).1)
       (mkdir_info path0),
     mkWorld (dav (mkcol_request path0) (server w)).2 (sent w ++ [mkcol_request path0])).
Proof.
  unfold mkdir. rewrite bind_run. unfold session_dav.
  fold (mkcol_request path0). fold (mkdir_info path0).
  by destruct (dav (mkcol_request path0) (server w)).
Qed.

(** One round of the loop of [makedirs]: the create goes out, and its status
    code passes or is raised. *)
Lemma makedirs_round (exist_ok : bool) path0 w :
  let c := httpx.status_code (dav (mkcol_request path0) (server w)).1 in
  (if negb exist_ok then mkdir path0 else try_except (mkdir path0) makedirs_handler) w
  = (if tolerated exist_ok c then Ok ()
     else Raise (NextcloudException (Some c) (http_phrase c) (mkdir_info path0)),
     mkWorld (dav (mkcol_request path0) (server w)).2 (sent w ++ [mkcol_request path0])).
Proof.
  cbn zeta. unfold tolerated, try_except.
  destruct exist_ok; cbn [negb andb]; rewrite mkdir_run; unfold check_error;
    destruct (http_is_error _); cbn [negb orb]; try done.
  unfold makedirs_handler, status_differs. by destruct (_ =? 405).
Qed.




End Files_properties.

(** ** Runs on the small platform *)

Section Demo_runs.
Local Existing Instance Demo.platform.

Local Abbreviation FsNode := (@FsNode Z).
Local Abbreviation World := (@World (list string)).

(** C3 on the small platform: a record whose one block has status 418, the
    listing of [docs], and the favourites. *)
Lemma placeholders_never_returned_witness :
  (∃ n, _parse_record [Demo.empty_propstat] "admin" "fav.txt" "fav.txt"
        = Ok n ∧ fileid (info n) = 0)
  ∧ Forall (λ n, fileid (info n) ≠ 0) [DemoRuns.a_txt_node]
  ∧ Forall (λ n, fileid (info n) ≠ 0) [DemoRuns.fav_node].
Proof.
  pose proof (@placeholders_never_returned _ _ Demo.platform) as (H1 & _ & H3 & _ & H5).
  split; [|split].
  - apply H1. by repeat constructor.
  - apply (H3 "docs" true false Demo.world0 [DemoRuns.a_txt_node]
             (Demo.world [] [propfind_request "admin" "docs" PROPFIND_PROPERTIES])).
    vm_compute. reflexivity.
  - apply (H5 Demo.world0 [DemoRuns.fav_node]
             (Demo.world []
                [ mkRequest "REPORT" "/files/admin"
                    (Some (mkElement "oc:filter-files" dav_namespaces None
                             [ mkElement "oc:filter-rules" [] None
                                 [mkElement "oc:favorite" [] (Some "1") []] ]))
                    [];
                  propfind_request "admin" "fav.txt" PROPFIND_PROPERTIES ])).
    vm_compute. reflexivity.
Defined.

(** C4 on the small platform: a 207 whose body is an error payload. *)
Lemma decoder_remote_error_witness :
  let webdav_res := httpx.mkResponse 207 Demo.error_body in
  error_payload Demo.error_body
  = Some (PStr "Sabre\DAV\Exception\BadRequest", PStr "Bad request")
  ∧ _lf_parse_webdav_records by_path webdav_res "admin" "listfav: admin"
      true Demo.world0
    = (Raise (NextcloudException None "Sabre\DAV\Exception\BadRequest: Bad request"
                "listfav: admin"), Demo.world0).
Proof.
  split; [reflexivity|].
  exact (proj2 (proj2 (@decoder_remote_error _ _ Demo.platform by_path
                         (httpx.mkResponse 207 Demo.error_body) "admin" "listfav: admin"
                         Demo.world0))
           true (PStr "Sabre\DAV\Exception\BadRequest") (PStr "Bad request")
           eq_refl eq_refl ltac:(discriminate) eq_refl).
Defined.

(** C4, as stated, fails for a favourites decode: the response handed to the
    decoder is a 207 with a body and no error payload, yet the decoder raises
    a remote error, the one of the supplementary lookup that the server
    answers with 404. *)
Lemma favourites_decode_raises_lookup_error :
  let webdav_res := httpx.mkResponse 207 Demo.gone_report_body in
  remote_error_expected webdav_res = false
  ∧ _lf_parse_webdav_records by_path webdav_res "admin" "listfav: admin"
      true Demo.world0
    = (Raise (NextcloudException (Some 404) "Not Found"
                (list_info "admin" "gone.txt" PROPFIND_PROPERTIES)),
       Demo.world [] [propfind_request "admin" "gone.txt" PROPFIND_PROPERTIES]).
Proof. split; vm_compute; reflexivity. Qed.

(** C5, at the failing input.  [listdir("/docs")] asks the server for
    [/files/admin/docs], as [listdir("docs")] does, and gets the directory's
    own entry and its one child.  The queried full path is computed as
    [admin//docs], which the directory's [admin/docs] does not equal: the
    directory itself stays in the result, two nodes for one child.  Without
    the leading slash it is removed. *)
Theorem listdir_leading_slash_keeps_directory :
  (listdir "/docs" true false Demo.world0).1
  = Ok [DemoRuns.docs_node; DemoRuns.a_txt_node]
  ∧ queried_full_path "admin" "/docs" = "admin//docs"
  ∧ Str.rstrip "/" (full_path DemoRuns.docs_node) = "admin/docs"
  ∧ (listdir "docs" true false Demo.world0).1 = Ok [DemoRuns.a_txt_node].
Proof. repeat split; vm_compute; reflexivity. Qed.

(** C10 on the small platform, for the path [docs]: the directory's own
    node is the first of the two decoded, and it goes. *)
Lemma exclude_self_removes_first_match_witness :
  listdir "docs" true false Demo.world0
  = (Ok [DemoRuns.a_txt_node],
     Demo.world [] [propfind_request "admin" "docs" PROPFIND_PROPERTIES]).
Proof.
  apply (proj1 (proj2 (proj1 (@exclude_self_removes_first_match _ _ Demo.platform)
                         "docs" false Demo.world0
                         [DemoRuns.docs_node; DemoRuns.a_txt_node] eq_refl eq_refl))
           [] DemoRuns.docs_node [DemoRuns.a_txt_node] eq_refl).
  - constructor.
  - reflexivity.
Defined.



(** C6 on the small platform: the favourites report names [fav.txt]
    without a file id, the lookup finds it with file id 7. *)
Lemma favourite_enrichment_witness :
  listfav Demo.world0
  = (Ok [DemoRuns.fav_node],
     Demo.world [] [report_request; propfind_request "admin" "fav.txt" PROPFIND_PROPERTIES]).
Proof.
  rewrite (proj1 (proj2 (@favourite_enrichment _ _ Demo.platform Demo.world0 [] []
             (PDict [ ("d:href", PStr "/remote.php/dav/files/admin/fav.txt");
                      ("d:propstat", Demo.empty_propstat) ])
             (PStr "/remote.php/dav/files/admin/fav.txt") Demo.empty_propstat
             "/remote.php/dav/files/admin/fav.txt"
             (FsNode_init "admin" "fav.txt" "fav.txt") []
             (Demo.world [] [report_request])
             eq_refl eq_refl ltac:(discriminate) eq_refl eq_refl
             eq_refl eq_refl ltac:(discriminate) eq_refl eq_refl eq_refl))).
  vm_compute. reflexivity.
Defined.

(** C6, as stated, fails on the second platform.  Its favourites report
    names [gone.txt] and [fav.txt] without file ids.  The entry of [gone.txt]
    parses to a node with file id 0 and the path [gone.txt]; the lookup of
    that path finds nothing, the server answering 404.  The entry is not
    dropped from a result: the listing raises the error of the lookup, and
    [fav.txt], which the server has, is never looked up. *)
Lemma missing_favourite_fails_listing :
  @response_entries _ _ Store.platform Store.report_body
  = Some [Store.gone_record; Store.fav_record]
  ∧ @_parse_record _ _ Store.platform [Demo.empty_propstat] "admin" "gone.txt" "gone.txt"
    = Ok (@FsNode_init _ _ Store.platform "admin" "gone.txt" "gone.txt")
  ∧ fileid (info (@FsNode_init _ _ Store.platform "admin" "gone.txt" "gone.txt")) = 0
  ∧ Store.dav (@propfind_request "admin" "gone.txt" PROPFIND_PROPERTIES) []
    = (httpx.mkResponse 404 EmptyString, [])
  ∧ @listfav _ _ Store.platform Store.world0
    = (Raise (NextcloudException (Some 404) "Not Found"
                (list_info "admin" "gone.txt" PROPFIND_PROPERTIES)),
       mkWorld []
         [ @report_request _ _ Store.platform;
           @propfind_request "admin" "gone.txt" PROPFIND_PROPERTIES ]).
Proof. repeat split; vm_compute; reflexivity. Qed.

(** C7 on the small platform: a date the library parses, and one it
    rejects with [ValueError]. *)
Lemma last_modified_round_trip_witness :
  (∃ n', set_last_modified DemoRuns.a_txt_node (PStr "Thu, 01 Jan 1970 00:01:00 GMT")
         = Ok n' ∧ last_modified n' = LMDate (60 : Z))
  ∧ _parse_record
      [ PDict [ ("d:status", PStr "HTTP/1.1 200 OK");
                ("d:prop", PDict [("d:getlastmodified", PStr "yesterday")]) ] ]
      "admin" "a.txt" "a.txt"
    = Ok (FsNode_init "admin" "a.txt" "a.txt").
Proof.
  pose proof (@last_modified_round_trip _ _ Demo.platform) as (H1 & _ & H3 & _).
  split.
  - apply (H1 DemoRuns.a_txt_node "Thu, 01 Jan 1970 00:01:00 GMT" (60 : Z)).
    reflexivity.
  - apply (H3 "admin" "a.txt" "a.txt" "HTTP/1.1 200 OK" "yesterday"); reflexivity.
Defined.

(** C7, as stated, fails for a string that is no valid date and that the
    library rejects otherwise than with [ValueError]: a year too large for
    [datetime] is rejected with [OverflowError], which the parser of
    records does not catch.  The record raises, and so does the decoding
    of a listing that holds it. *)
Lemma overflowing_date_aborts_record :
  parsedate_to_datetime "1 Jan 999999999999999999999 00:00:00 GMT" = Raise OverflowError
  ∧ _parse_record
      [ PDict [ ("d:status", PStr "HTTP/1.1 200 OK");
                ("d:prop",
                 PDict [ ("oc:fileid", PStr "11");
                         ("d:getlastmodified",
                          PStr "1 Jan 999999999999999999999 00:00:00 GMT") ]) ] ]
      "admin" "docs/a.txt" "a.txt"
    = Raise OverflowError
  ∧ _parse_records by_path_unused
      (PList
         [ PDict
             [ ("d:href", PStr "/remote.php/dav/files/admin/docs/a.txt");
               ("d:propstat",
                PDict [ ("d:status", PStr "HTTP/1.1 200 OK");
                        ("d:prop",
                         PDict [ ("oc:fileid", PStr "11");
                                 ("d:getlastmodified",
                                  PStr "1 Jan 999999999999999999999 00:00:00 GMT") ]) ]) ] ])
      "admin" false Demo.world0
    = (Raise (Py OverflowError), Demo.world0).
Proof. repeat split; vm_compute; reflexivity. Qed.


End Demo_runs.

(** * Further properties *)

(** ** The search compiler: what it leaves, what it appends, where it stops *)

Section Search_more.

Implicit Types (req rest : list PyVal) (xml w : Element) (val : PyVal).

(** Every successful call appends exactly one element to the element it was
    given, and takes at least two tokens, three when it pops its first. *)
Lemma add_value_appends fuel : ∀ xml val req xml' req',
  _add_value fuel xml val req = Ok (xml', req') →
  (∃ clause, xml' = append_child xml clause)
  ∧ (length req' + (if is_None val then 3 else 2) ≤ length req)%nat.
Proof.
  induction fuel as [|fuel IH]; intros xml val req xml' req' H; [discriminate|].
  cbn [_add_value] in H.
  assert (Hpop : ∃ first_val req0,
             (match val with PNone => lib (pop0 req) | _ => Ok (val, req) end)
             = Ok (first_val, req0)).
  { destruct (match val with PNone => lib (pop0 req) | _ => Ok (val, req) end)
      as [[fv r0]|e] eqn:E; [eauto | discriminate]. }
  destruct Hpop as (first_val & req0 & Hpop). rewrite Hpop in H.
  cbn [mbind Result_bind] in H.
  assert (Hlen0 : (length req0 + (if is_None val then 1 else 0) = length req)%nat).
  { destruct val; try (injection Hpop as <- <-; cbn; lia).
    destruct req as [|x req]; [discriminate|]. injection Hpop as <- <-. cbn. lia. }
  destruct (is_or_and first_val).
  - unfold _process_or_and in H. cbn [mbind Result_bind] in H.
    destruct (_add_value fuel _ PNone req0) as [[r1 req1]|] eqn:E1; [|discriminate].
    cbn [mbind Result_bind] in H.
    destruct (_add_value fuel r1 PNone req1) as [[r2 req2]|] eqn:E2; [|discriminate].
    cbn [mbind Result_bind mret Result_ret] in H. injection H as <- <-.
    apply IH in E1 as [_ L1]. apply IH in E2 as [_ L2]. cbn [is_None] in L1, L2.
    split; [eauto|]. destruct (is_None val); lia.
  - destruct req0 as [|field req1]; [discriminate|]. cbn [pop0 lib mbind Result_bind] in H.
    destruct (search_property field); [|discriminate]. cbn [lib mbind Result_bind] in H.
    destruct req1 as [|value req2]; [discriminate|].
    cbn [pop0 lib mbind Result_bind mret Result_ret] in H.
    injection H as <- <-. cbn [length] in Hlen0.
    split; [eauto|]. destruct (is_None val); lia.
Qed.

Lemma process_or_and_appends fuel xml (c : PyVal) req xml' req' :
  _process_or_and (_add_value fuel) xml c req = Ok (xml', req') →
  (∃ clause, xml' = append_child xml clause) ∧ (length req' + 6 ≤ length req)%nat.
Proof.
  unfold _process_or_and. cbn [mbind Result_bind].
  destruct (_add_value fuel _ PNone req) as [[r1 req1]|] eqn:E1; [|discriminate].
  cbn [mbind Result_bind].
  destruct (_add_value fuel r1 PNone req1) as [[r2 req2]|] eqn:E2; [|discriminate].
  cbn [mbind Result_bind mret Result_ret]. intros [= <- <-].
  apply add_value_appends in E1 as [_ L1]. apply add_value_appends in E2 as [_ L2].
  cbn [is_None] in L1, L2. split; [eauto | lia].
Qed.

Lemma build_search_loop_appends fuel : ∀ w req w' req',
  build_search_loop fuel w req = Ok (w', req') →
  req' = []
  ∧ ∃ clauses,
      w' = mkElement (tag w) (attrib w) (text w) (children w ++ clauses)
      ∧ (3 * length clauses ≤ length req)%nat.
Proof.
  induction fuel as [|fuel IH]; intros w req w' req' H.
  - destruct req; [|discriminate]. injection H as <- <-.
    split; [done|]. exists []. rewrite app_nil_r. by destruct w.
  - destruct req as [|where_part req0].
    { injection H as <- <-. split; [done|]. exists [].
      rewrite app_nil_r. by destruct w. }
    cbn [build_search_loop] in H.
    assert (Hstep : ∃ w1 req1,
               (if is_or_and where_part
                then _process_or_and (_add_value (S (length req0))) w where_part req0
                else _add_value (S (length req0)) w where_part req0) = Ok (w1, req1)).
    { destruct (if is_or_and where_part then _ else _) as [[w1 req1]|];
        [eauto | discriminate]. }
    destruct Hstep as (w1 & req1 & Hstep). rewrite Hstep in H.
    cbn [mbind Result_bind] in H.
    apply IH in H as (-> & clauses & -> & Hlen).
    assert (Hone : (∃ clause, w1 = append_child w clause)
                   ∧ (length req1 + 2 ≤ length req0)%nat).
    { destruct (is_or_and where_part).
      - apply process_or_and_appends in Hstep as [? ?]. split; [done | lia].
      - apply add_value_appends in Hstep as [? ?]. split; [done|].
        destruct (is_None where_part); lia. }
    destruct Hone as [[clause ->] Hlen1].
    split; [done|]. exists (clause :: clauses). cbn [append_child tag attrib text children].
    rewrite <- app_assoc. split; [done|]. cbn [length]. lia.
Qed.

(** X1.  A compile that succeeds has consumed the whole request list, and
    has only appended to the element it was given: tag, attributes, text and
    the children already there are as before, and the clauses appended are
    at most a third as many as the tokens. *)
Theorem build_search_consumes_and_appends w req w' req' :
  _build_search_req w req = Ok (w', req') →
  req' = []
  ∧ ∃ clauses,
      w' = mkElement (tag w) (attrib w) (text w) (children w ++ clauses)
      ∧ (3 * length clauses ≤ length req)%nat.
Proof. apply build_search_loop_appends. Qed.

Lemma build_search_consumes_and_appends_witness :
  let w := new_element "d:where" [] in
  let req := [PStr "gt"; PStr "size"; PInt 1024; PStr "like"; PStr "mime"; PStr "image/%"] in
  let w' := mkElement "d:where" [] None
              [ expr_xml (Cmp (PStr "gt") "size" (PInt 1024));
                expr_xml (Cmp (PStr "like") "mime" (PStr "image/%")) ] in
  _build_search_req w req = Ok (w', [])
  ∧ ∃ clauses,
      w' = mkElement (tag w) (attrib w) (text w) (children w ++ clauses)
      ∧ (3 * length clauses ≤ length req)%nat.
Proof.
  split; [reflexivity|].
  exact (proj2 (build_search_consumes_and_appends (new_element "d:where" [])
                  [PStr "gt"; PStr "size"; PInt 1024;
                   PStr "like"; PStr "mime"; PStr "image/%"] _ [] eq_refl)).
Defined.

(** *** Whole clauses, one after the other *)

Lemma flatten_length (e : SearchExpr) : (3 ≤ length (flatten e))%nat.
Proof.
  induction e as [op field value | c a IHa b IHb]; cbn [flatten length]; [lia|].
  rewrite length_app. lia.
Qed.

Lemma add_value_cmp_given fuel xml (op : PyVal) (field : string) (value : PyVal) rest :
  is_or_and op = false → is_None op = false →
  is_Some (SEARCH_PROPERTIES_MAP !! field) →
  _add_value (S fuel) xml op (PStr field :: value :: rest)
  = Ok (append_child xml (expr_xml (Cmp op field value)), rest).
Proof.
  intros Hop Hnone [p Hp]. cbn [_add_value].
  replace (match op with PNone => lib (pop0 (PStr field :: value :: rest))
                    | _ => Ok (op, PStr field :: value :: rest) end)
    with (Ok (op, PStr field :: value :: rest) : Res (PyVal * list PyVal))
    by (by destruct op).
  cbn [mbind Result_bind]. rewrite Hop.
  cbn [pop0 lib mbind Result_bind search_property expr_xml]. rewrite Hp. reflexivity.
Qed.

Lemma process_or_and_expr fuel xml (c : string) (a b : SearchExpr) rest :
  wf_expr a → wf_expr b →
  (length (flatten a) + length (flatten b) ≤ fuel)%nat →
  _process_or_and (_add_value fuel) xml (PStr c) (flatten a ++ flatten b ++ rest)
  = Ok (append_child xml (expr_xml (Grp c a b)), rest).
Proof.
  intros Ha Hb Hfuel. unfold _process_or_and.
  rewrite (add_value_expr a Ha fuel _ (flatten b ++ rest)) by lia.
  cbn [mbind Result_bind].
  rewrite (add_value_expr b Hb fuel _ rest) by lia.
  reflexivity.
Qed.

(** One round of the loop on a whole clause. *)
Lemma build_search_loop_clause (e : SearchExpr) fuel w rest :
  top_level e →
  build_search_loop (S fuel) w (flatten e ++ rest)
  = build_search_loop fuel (append_child w (expr_xml e)) rest.
Proof.
  destruct e as [op field value | c a b]; intros [Hwf Htop].
  - destruct Hwf as [Hop Hfield].
    cbn [flatten app build_search_loop]. rewrite Hop.
    by rewrite add_value_cmp_given.
  - destruct Hwf as (Hc & Ha & Hb).
    cbn [flatten app build_search_loop]. rewrite (is_or_and_token c Hc).
    rewrite <- app_assoc, process_or_and_expr; [done..|].
    rewrite !length_app. lia.
Qed.

Lemma build_search_loop_clauses (es : list SearchExpr) : ∀ fuel w rest,
  Forall top_level es → (length es ≤ fuel)%nat →
  build_search_loop fuel w (concat (map flatten es) ++ rest)
  = build_search_loop (fuel - length es) (foldl append_child w (map expr_xml es)) rest.
Proof.
  induction es as [|e es IH]; intros fuel w rest Hes Hfuel.
  - cbn. by rewrite Nat.sub_0_r.
  - inversion Hes as [|? ? He Hes']; subst. cbn [length] in Hfuel.
    destruct fuel as [|fuel]; [lia|].
    cbn [map concat foldl length]. rewrite <- app_assoc.
    rewrite build_search_loop_clause by done.
    rewrite IH by (done || lia). f_equal.
Qed.

Lemma concat_flatten_length (es : list SearchExpr) :
  (length es ≤ length (concat (map flatten es)))%nat.
Proof.
  induction es as [|e es IH]; [done|]. cbn [map concat length].
  rewrite length_app. pose proof (flatten_length e). lia.
Qed.

(** X2.  Whole clauses written one after the other in the request list are
    compiled in their order into sibling elements of the element given,
    each clause into its one element. *)
Theorem clauses_become_siblings w (es : list SearchExpr) :
  Forall top_level es →
  _build_search_req w (concat (map flatten es))
  = Ok (foldl append_child w (map expr_xml es), []).
Proof.
  intros Hes. unfold _build_search_req.
  rewrite <- (app_nil_r (concat (map flatten es))) at 2.
  rewrite build_search_loop_clauses by (done || apply concat_flatten_length).
  apply build_search_loop_nil.
Qed.

Lemma clauses_become_siblings_witness :
  let a := Cmp (PStr "gt") "size" (PInt 1024) in
  let b := Grp "or" (Cmp (PStr "like") "mime" (PStr "image/%"))
                    (Cmp (PStr "eq") "favorite" (PInt 1)) in
  Forall top_level [a; b]
  ∧ _build_search_req (new_element "d:where" [])
      [ PStr "gt"; PStr "size"; PInt 1024;
        PStr "or"; PStr "like"; PStr "mime"; PStr "image/%";
                   PStr "eq"; PStr "favorite"; PInt 1 ]
    = Ok (mkElement "d:where" [] None [expr_xml a; expr_xml b], []).
Proof.
  assert (H : Forall top_level
                [ Cmp (PStr "gt") "size" (PInt 1024);
                  Grp "or" (Cmp (PStr "like") "mime" (PStr "image/%"))
                           (Cmp (PStr "eq") "favorite" (PInt 1)) ]).
  { repeat constructor; try (by right); by eexists. }
  split; [exact H|].
  exact (clauses_become_siblings (new_element "d:where" []) _ H).
Defined.

(** *** Clauses cut short *)

Lemma add_value_cut_short (e : SearchExpr) : wf_expr e → ∀ p fuel xml,
  cut_short p (flatten e) → (length (flatten e) ≤ fuel)%nat →
  _add_value fuel xml PNone p = Raise (Py IndexError).
Proof.
  induction e as [op field value | c a IHa b IHb]; intros Hwf p fuel xml (q & Hq & Hp) Hfuel.
  - destruct Hwf as [Hop [prop Hprop]]. cbn [flatten length] in Hp, Hfuel.
    destruct fuel as [|fuel]; [lia|]. cbn [_add_value].
    destruct p as [|x [|y [|z p]]]; cbn [app] in Hp.
    + reflexivity.
    + injection Hp as <- _. cbn [pop0 lib mbind Result_bind]. by rewrite Hop.
    + injection Hp as <- <- _. cbn [pop0 lib mbind Result_bind]. rewrite Hop.
      cbn [pop0 lib mbind Result_bind search_property]. by rewrite Hprop.
    + injection Hp as _ _ _ Hp. by destruct p, q.
  - destruct Hwf as (Hc & Ha & Hb). cbn [flatten length] in Hp, Hfuel.
    rewrite length_app in Hfuel.
    destruct fuel as [|fuel]; [lia|]. cbn [_add_value].
    destruct p as [|x p]; [reflexivity|]. cbn [app] in Hp. injection Hp as <- Hp.
    cbn [pop0 lib mbind Result_bind]. rewrite (is_or_and_token c Hc).
    unfold _process_or_and.
    apply app_eq_app in Hp as [l [[Ha' Hq'] | [Hp' Hb']]].
    + destruct l as [|t l].
      * rewrite app_nil_r in Ha'. subst p. cbn [app] in Hq'. subst q.
        rewrite <- (app_nil_r (flatten a)).
        rewrite (add_value_expr a Ha fuel _ []) by lia. cbn [mbind Result_bind].
        rewrite (IHb Hb [] fuel); [done | | lia].
        exists (flatten b). split; [|done].
        pose proof (flatten_length b). by destruct (flatten b).
      * rewrite (IHa Ha p fuel); [done | | lia]. exists (t :: l). by split.
    + subst p. rewrite (add_value_expr a Ha fuel _ l) by lia. cbn [mbind Result_bind].
      rewrite (IHb Hb l fuel); [done | | lia]. exists q. by split.
Qed.

(** More fuel changes nothing once there is enough. *)
Lemma add_value_fuel_mono fuel : ∀ fuel' xml val req,
  (fuel ≤ fuel')%nat → _add_value fuel xml val req ≠ Raise OutOfFuel →
  _add_value fuel' xml val req = _add_value fuel xml val req.
Proof.
  induction fuel as [|fuel IH]; intros fuel' xml val req Hle Hne; [done|].
  destruct fuel' as [|fuel']; [lia|]. cbn [_add_value] in Hne |- *.
  destruct (match val with PNone => lib (pop0 req) | _ => Ok (val, req) end)
    as [[first_val req0]|e]; cbn [mbind Result_bind] in Hne |- *; [|done].
  destruct (is_or_and first_val); [|done].
  unfold _process_or_and in Hne |- *. cbn [mbind Result_bind] in Hne |- *.
  rewrite (IH fuel' _ PNone req0);
    [|lia | intros HE; rewrite HE in Hne; by apply Hne].
  destruct (_add_value fuel _ PNone req0) as [[r1 req1]|e1];
    cbn [mbind Result_bind] in Hne |- *; [|done].
  rewrite (IH fuel' r1 PNone req1);
    [done | lia | intros HE; rewrite HE in Hne; by apply Hne].
Qed.

Lemma process_or_and_cut_short fuel xml (c : string) (a b : SearchExpr) p :
  (c = "and" ∨ c = "or") → wf_expr a → wf_expr b →
  cut_short p (flatten a ++ flatten b) → (length p < fuel)%nat →
  _process_or_and (_add_value fuel) xml (PStr c) p = Raise (Py IndexError).
Proof.
  intros Hc Ha Hb (q & Hq & Hp) Hfuel.
  set (big := (fuel + length (flatten (Grp c a b)))%nat).
  assert (Hcut : _add_value (S big) xml PNone (PStr c :: p) = Raise (Py IndexError)).
  { apply (add_value_cut_short (Grp c a b)); [by repeat split | | unfold big; lia].
    exists q. split; [done|]. cbn [flatten app]. by rewrite Hp. }
  cbn [_add_value pop0 lib mbind Result_bind] in Hcut.
  rewrite (is_or_and_token c Hc) in Hcut.
  pose proof (process_or_and_fuel fuel xml (PStr c) p Hfuel) as Hne.
  unfold _process_or_and in Hcut, Hne |- *. cbn [mbind Result_bind] in Hcut, Hne |- *.
  rewrite (add_value_fuel_mono fuel big _ PNone p) in Hcut;
    [|unfold big; lia | intros HE; rewrite HE in Hne; by apply Hne].
  destruct (_add_value fuel _ PNone p) as [[r1 req1]|e1];
    cbn [mbind Result_bind] in Hcut, Hne |- *; [|done].
  rewrite (add_value_fuel_mono fuel big r1 PNone req1) in Hcut;
    [done | unfold big; lia | intros HE; rewrite HE in Hne; by apply Hne].
Qed.

(** X3.  A request list whose last clause is cut short (a comparison without
    its value or its field, a group without its second operand, ...) raises
    [IndexError], however many whole clauses come before: the compiler never
    returns an element for part of a clause. *)
Theorem clause_cut_short_raises_IndexError w (es : list SearchExpr)
    (e : SearchExpr) (p : list PyVal) :
  Forall top_level es → top_level e →
  cut_short p (flatten e) → p ≠ [] →
  _build_search_req w (concat (map flatten es) ++ p) = Raise (Py IndexError).
Proof.
  intros Hes [Hwf Htop] (q & Hq & Hp) Hne. unfold _build_search_req.
  rewrite build_search_loop_clauses
    by (done || rewrite length_app; pose proof (concat_flatten_length es); lia).
  destruct p as [|x p]; [done|].
  replace (length (concat (map flatten es) ++ x :: p) - length es)%nat
    with (S (length (concat (map flatten es)) - length es + length p))%nat
    by (rewrite length_app; cbn [length]; pose proof (concat_flatten_length es); lia).
  cbn [build_search_loop].
  destruct e as [op field value | c a b].
  - destruct Hwf as [Hop [prop Hprop]]. cbn [flatten app] in Hp. injection Hp as <- Hp.
    rewrite Hop. cbn [_add_value].
    replace (match op with PNone => lib (pop0 p) | _ => Ok (op, p) end)
      with (Ok (op, p) : Res (PyVal * list PyVal)) by (by destruct op).
    cbn [mbind Result_bind]. rewrite Hop.
    destruct p as [|y [|z p]]; cbn [app] in Hp.
    + reflexivity.
    + injection Hp as <- _. cbn [pop0 lib mbind Result_bind search_property].
      by rewrite Hprop.
    + injection Hp as _ _ Hp. by destruct p, q.
  - destruct Hwf as (Hc & Ha & Hb). cbn [flatten app] in Hp. injection Hp as <- Hp.
    rewrite (is_or_and_token c Hc).
    rewrite (process_or_and_cut_short _ _ c a b); [done..| by exists q | lia].
Qed.

Lemma clause_cut_short_raises_IndexError_witness :
  _build_search_req (new_element "d:where" [])
    [PStr "gt"; PStr "size"; PInt 1024; PStr "and"; PStr "eq"; PStr "fileid"; PInt 7]
  = Raise (Py IndexError).
Proof.
  apply (clause_cut_short_raises_IndexError (new_element "d:where" [])
           [Cmp (PStr "gt") "size" (PInt 1024)]
           (Grp "and" (Cmp (PStr "eq") "fileid" (PInt 7))
                      (Cmp (PStr "eq") "favorite" (PInt 1)))
           [PStr "and"; PStr "eq"; PStr "fileid"; PInt 7]).
  - repeat constructor. by eexists.
  - repeat constructor; try (by left); by eexists.
  - exists [PStr "eq"; PStr "favorite"; PInt 1]. by split.
  - discriminate.
Defined.

End Search_more.

(** ** The facade: which requests go out *)

Section Facade_more.
Context {datetime Server : Type} {P : Platform datetime Server}.

Local Abbreviation FsNode := (@FsNode datetime).
Local Abbreviation FsNodeInfo := (@FsNodeInfo datetime).
Local Abbreviation World := (@World Server).
Local Abbreviation M := (@M Server).

Implicit Types (w : World) (n : FsNode) (result : list FsNode) (e : Exn).

(** Runs one [x ← pure r; ...] of the goal, as in the section above. *)
Ltac run_lib tac :=
  rewrite bind_run, pure_run;
  match goal with
  | |- context [lib ?r] =>
      let E := fresh "E" in
      destruct r eqn:E; cbn [lib]; [| solve [tac]]
  end.

(** [find] with a request list that compiles: one SEARCH, a plain decode of
    the answer under a label that shows the list as it is by then, empty. *)
Lemma find_run (req : list PyVal) path0 (depth : Z) w xml_where req' :
  _build_search_req (new_element "d:where" []) req = Ok (xml_where, req') →
  let r := search_request path0 depth xml_where in
  let w1 := mkWorld (dav r (server w)).2 (sent w ++ [r]) in
  find req path0 depth w
  = ((_lf_parse_webdav_records by_path_unused (dav r (server w)).1 session_user
        (find_info path0 depth) false w1).1, w1).
Proof.
  intros Hreq. cbn zeta. unfold find. rewrite bind_run. unfold lift. rewrite Hreq.
  apply build_search_loop_appends in Hreq as [-> _].
  rewrite bind_run. unfold session_dav.
  change (mkRequest "SEARCH" "" _ _) with (search_request path0 depth xml_where).
  destruct (dav (search_request path0 depth xml_where) (server w)) as [response s].
  cbn [fst snd]. change (_ +:+ _ +:+ _ +:+ _) with (find_info path0 depth).
  match goal with
  | |- context [_lf_parse_webdav_records ?bp ?r ?u ?i false ?w0] =>
      pose proof (decode_plain bp r u i w0) as (Hw & _ & _);
      destruct (_lf_parse_webdav_records bp r u i false w0) as [res w2]
  end. cbn in Hw. by subst w2.
Qed.

Lemma find_sends_one_search_aux (req : list PyVal) path0 (depth : Z) w :
  (∀ e, _build_search_req (new_element "d:where" []) req = Raise e →
        find req path0 depth w = (Raise e, w))
  ∧ (∀ xml_where req',
        _build_search_req (new_element "d:where" []) req = Ok (xml_where, req') →
        (find req path0 depth w).2
        = mkWorld (dav (search_request path0 depth xml_where) (server w)).2
            (sent w ++ [search_request path0 depth xml_where])).
Proof.
  split.
  - intros e He. unfold find. rewrite bind_run. unfold lift. by rewrite He.
  - intros xml_where req' Hreq. by rewrite (find_run _ _ _ _ _ _ Hreq).
Qed.

(** X4.  [find] sends nothing when the request list does not compile: the
    compiler's exception is raised before any round trip.  When the list
    compiles it sends exactly one SEARCH, whatever the answer. *)
Theorem find_sends_one_search (req : list PyVal) path0 (depth : Z) w :
  (∀ e, _build_search_req (new_element "d:where" []) req = Raise e →
        find req path0 depth w = (Raise e, w))
  ∧ (∀ xml_where req',
        _build_search_req (new_element "d:where" []) req = Ok (xml_where, req') →
        (find req path0 depth w).2
        = mkWorld (dav (search_request path0 depth xml_where) (server w)).2
            (sent w ++ [search_request path0 depth xml_where])).
Proof. apply find_sends_one_search_aux. Qed.

(** X5.  The label of the errors of [find] never shows the query: the
    request list is printed after the compiler has emptied it.  So a status
    code [check_error] rejects is raised under [find: user, [], path,
    depth]. *)
Theorem find_label_hides_query (req : list PyVal) path0 (depth : Z) w xml_where req' :
  _build_search_req (new_element "d:where" []) req = Ok (xml_where, req') →
  let response := (dav (search_request path0 depth xml_where) (server w)).1 in
  http_is_error (httpx.status_code response) = true →
  (find req path0 depth w).1
  = Raise (NextcloudException (Some (httpx.status_code response))
             (http_phrase (httpx.status_code response))
             ("find: " +:+ session_user +:+ ", [], " +:+ path0 +:+ ", "
                +:+ Str.of_Z depth)).
Proof.
  intros Hreq response Herr. rewrite (find_run _ _ _ _ _ _ Hreq). cbn zeta. cbn [fst].
  by rewrite decode_failure_status.
Qed.

(** X6.  [by_id] always gets to the server: its request list compiles for
    every id, into the one clause [eq fileid id], and exactly one SEARCH
    over the whole account goes out.  The node it returns, when it returns
    one, is the first of the answer and no placeholder. *)
Theorem by_id_sends_one_search (fileid0 : Z) w :
  let r := search_request "" (-1)
             (mkElement "d:where" [] None
                [expr_xml (Cmp (PStr "eq") "fileid" (PInt fileid0))]) in
  (by_id fileid0 w).2 = mkWorld (dav r (server w)).2 (sent w ++ [r])
  ∧ ∀ n, (by_id fileid0 w).1 = Ok (Some n) → fileid (info n) ≠ 0.
Proof.
  cbn zeta. unfold by_id. rewrite bind_run.
  assert (Hreq : _build_search_req (new_element "d:where" [])
                   [PStr "eq"; PStr "fileid"; PInt fileid0]
                 = Ok (mkElement "d:where" [] None
                         [expr_xml (Cmp (PStr "eq") "fileid" (PInt fileid0))], []))
    by reflexivity.
  pose proof (find_fileid [PStr "eq"; PStr "fileid"; PInt fileid0] "" (-1) w) as Hid.
  unfold no_placeholder in Hid.
  rewrite (find_run _ "" (-1) w _ _ Hreq) in Hid |- *. cbn zeta in Hid |- *.
  cbn [fst] in Hid.
  destruct (_lf_parse_webdav_records _ _ _ _ _ _).1 as [result|e]; cbn.
  - split; [done|]. intros n [= Hn].
    destruct Hid as [|n0 rest Hn0 _]; [discriminate|]. cbn in Hn. by injection Hn as <-.
  - by split.
Qed.

(** X7.  [listdir] is one round trip: exactly one PROPFIND for the path
    goes out, whatever the answer and whatever [exclude_self]. *)
Theorem listdir_sends_one_propfind path0 (exclude_self root : bool) w :
  let r := propfind_request (if root then "" else session_user) path0
             PROPFIND_PROPERTIES in
  (listdir path0 exclude_self root w).2 = mkWorld (dav r (server w)).2 (sent w ++ [r]).
Proof. cbn zeta. unfold listdir. by rewrite listdir_run. Qed.

(** ** The loop over the entries *)

(** One round either leaves the world alone or is one lookup; with
    [favorite=False] it leaves it alone.  It returns the result it was
    given, or that result and one node more. *)
Lemma parse_records_step_effect user (favorite : bool) result (record : PyVal) w :
  let out := parse_records_step by_path user favorite result record w in
  (out.2 = w ∨ (favorite = true ∧ ∃ path0, out.2 = (by_path path0 w).2))
  ∧ ∀ result', out.1 = Ok result' → result' = result ∨ ∃ n, result' = result ++ [n].
Proof.
  cbn zeta. unfold parse_records_step.
  run_lib ltac:(by split; [left|]).
  run_lib ltac:(by split; [left|]).
  destruct (negb (Str.truthy _)); [split; [by left | intros ? [= <-]; by left]|].
  run_lib ltac:(by split; [left|]).
  run_lib ltac:(by split; [left|]).
  destruct favorite; cbn [andb].
  - match goal with
    | |- context [fileid (info ?x) =? 0] => destruct (fileid (info x) =? 0)
    end; cbn [negb].
    + rewrite bind_run.
      match goal with
      | |- context [by_path ?p w] =>
          split; [right; split; [done|]; exists p|];
          destruct (by_path p w) as [[[n|]|e] w1]
      end; cbn; try done; intros ? [= <-]; eauto.
    + split; [by left|]. intros ? [= <-]. eauto.
  - destruct (negb _); (split; [by left|]); intros ? [= <-]; eauto.
Qed.

Lemma parse_records_loop_effect user (favorite : bool) (records : list PyVal) :
  ∀ result w,
  let out := parse_records_loop by_path user favorite result records w in
  (∃ lookups,
      sent out.2 = sent w ++ lookups
      ∧ Forall is_lookup lookups
      ∧ (length lookups ≤ length records)%nat
      ∧ (favorite = false → lookups = []))
  ∧ ∀ result',
      out.1 = Ok result' →
      ∃ added, result' = result ++ added ∧ (length added ≤ length records)%nat.
Proof.
  induction records as [|record rest IH]; intros result w; cbn zeta.
  - cbn. split.
    + exists []. rewrite app_nil_r. split; [done|]. split; [done|]. by split.
    + intros ? [= <-]. exists []. by rewrite app_nil_r.
  - cbn [parse_records_loop]. rewrite bind_run.
    pose proof (parse_records_step_effect user favorite result record w) as [Hw Hres].
    cbn zeta in Hw, Hres.
    destruct (parse_records_step by_path user favorite result record w)
      as [[result1|e] w1]; cbn [fst snd] in Hw, Hres |- *.
    + destruct (IH result1 w1) as [(lookups & Hsent & Hlook & Hlen & Hplain) Hadd].
      cbn zeta in Hsent, Hadd. split.
      * destruct Hw as [-> | [Hfav [path0 ->]]].
        -- exists lookups. split; [done|]. split; [done|]. split; [cbn; lia | done].
        -- pose proof (by_path_run path0 w) as [Hbp _]. cbn zeta in Hbp.
           rewrite Hbp in Hsent |- *. cbn [sent] in Hsent.
           exists (propfind_request session_user path0 PROPFIND_PROPERTIES :: lookups).
           rewrite Hsent, <- app_assoc. split; [done|].
           split; [constructor; [by exists path0 | done]|].
           split; [cbn; lia | by rewrite Hfav].
      * intros result' Hr. destruct (Hadd result' Hr) as (added & -> & Hlen').
        destruct (Hres result1 eq_refl) as [-> | [n ->]].
        -- exists added. split; [done | cbn; lia].
        -- exists (n :: added). rewrite <- app_assoc. split; [done | cbn; lia].
    + split; [|done].
      destruct Hw as [-> | [Hfav [path0 ->]]].
      * exists []. rewrite app_nil_r. split; [done|]. split; [done|].
        split; [cbn; lia | done].
      * pose proof (by_path_run path0 w) as [Hbp _]. cbn zeta in Hbp. rewrite Hbp.
        exists [propfind_request session_user path0 PROPFIND_PROPERTIES].
        split; [done|]. split; [constructor; [by exists path0 | done]|].
        split; [cbn; lia | by rewrite Hfav].
Qed.

Lemma decode_effect (webdav_res : httpx.Response) user label (favorite : bool) w :
  ∃ lookups,
    sent (_lf_parse_webdav_records by_path webdav_res user label favorite w).2
    = sent w ++ lookups
    ∧ Forall is_lookup lookups.
Proof.
  assert (Hnone : ∀ (r : Res (list FsNode)),
            ∃ lookups, sent (r, w).2 = sent w ++ lookups ∧ Forall is_lookup lookups).
  { intros r. exists []. by rewrite app_nil_r. }
  unfold _lf_parse_webdav_records, check_error, lift. rewrite bind_run.
  destruct (http_is_error _); [apply Hnone|].
  destruct (negb (_ =? 207)); [apply Hnone|].
  destruct (negb (Str.truthy _)); [apply Hnone|].
  run_lib ltac:(apply Hnone).
  destruct (dict_get "d:error" _).
  - run_lib ltac:(apply Hnone). run_lib ltac:(apply Hnone). apply Hnone.
  - run_lib ltac:(apply Hnone). run_lib ltac:(apply Hnone).
    unfold _parse_records. run_lib ltac:(apply Hnone).
    match goal with
    | |- context [parse_records_loop by_path ?u ?f [] ?recs w] =>
        destruct (parse_records_loop_effect u f recs [] w)
          as [(lookups & Hsent & Hlook & _) _]
    end.
    by exists lookups.
Qed.

(** X8.  Decoding the entries of a favourites listing sends supplementary
    lookups only, each the PROPFIND of [by_path] for some path, at most one
    per entry; decoding a plain listing sends nothing.  So what [listfav]
    sends is its REPORT and then lookups. *)
Theorem decode_sends_lookups_only user (favorite : bool) (records : list PyVal) w :
  (∃ lookups,
      sent (parse_records_loop by_path user favorite [] records w).2 = sent w ++ lookups
      ∧ Forall is_lookup lookups
      ∧ (length lookups ≤ length records)%nat
      ∧ (favorite = false → lookups = []))
  ∧ ∃ lookups,
      sent (listfav w).2 = sent w ++ report_request :: lookups
      ∧ Forall is_lookup lookups.
Proof.
  split; [apply (parse_records_loop_effect user favorite records [] w)|].
  unfold listfav. rewrite bind_run. unfold session_dav.
  change (mkRequest "REPORT" _ _ _) with report_request.
  destruct (dav report_request (server w)) as [response s].
  rewrite bind_run. unfold lift.
  destruct (check_error _ _); [|by exists []].
  match goal with
  | |- context [_lf_parse_webdav_records by_path ?r ?u ?i true ?w0] =>
      destruct (decode_effect r u i true w0) as (lookups & Hsent & Hlook)
  end.
  exists lookups. cbn [sent] in Hsent. by rewrite Hsent, <- app_assoc.
Qed.

(** X9.  The loop over the entries only appends: the nodes already in the
    result stay where they are, and every entry adds one node or none, so
    the result has at most one node per entry. *)
Theorem parse_records_only_appends user (favorite : bool) (records : list PyVal)
    result w result' w' :
  parse_records_loop by_path user favorite result records w = (Ok result', w') →
  ∃ added, result' = result ++ added ∧ (length added ≤ length records)%nat.
Proof.
  intros H. apply (parse_records_loop_effect user favorite records result w).
  by rewrite H.
Qed.

(** ** The nodes a listing makes *)

Lemma lstrip_not_startswith c (s : string) :
  Str.startswith (String c EmptyString) (Str.lstrip c s) = false.
Proof.
  induction s as [|a s IH]; [reflexivity|]. cbn [Str.lstrip].
  destruct (Str.is_char a c) eqn:Ha; [exact IH|].
  cbn. unfold Str.is_char in *. rewrite Ascii.eqb_sym, Ha. reflexivity.
Qed.

Lemma rsplit_last_no_sep c (s : string) :
  Str.has_char c (Str.rsplit_last c s) = false.
Proof.
  induction s as [|a s IH]; [reflexivity|]. cbn [Str.rsplit_last].
  destruct (Str.has_char c s) eqn:Hs; [exact IH|].
  destruct (Str.is_char a c) eqn:Ha; [exact Hs|]. cbn. by rewrite Ha, Hs.
Qed.

Section Listed.
Variables (by_path0 : string → M (option FsNode)) (user0 : string).
Hypothesis by_path0_listed : ∀ path0 w n,
  (by_path0 path0 w).1 = Ok (Some n) → listed_node user0 n.

Lemma parse_records_step_listed (favorite : bool) result (record : PyVal) w :
  Forall (listed_node user0) result →
  returns_only (listed_node user0)
    (parse_records_step by_path0 user0 favorite result record w).
Proof using by_path0_listed.
  intros Hres. unfold returns_only, parse_records_step.
  run_lib ltac:(done).
  run_lib ltac:(done).
  destruct (Str.truthy _) eqn:Hname; cbn [negb]; [|done].
  run_lib ltac:(done).
  run_lib ltac:(done).
  match goal with
  | E : _parse_record _ _ _ _ = Ok ?x |- _ =>
      apply parse_record_identity in E as (Hu & Hp & Hn);
      assert (Hnode : listed_node user0 x)
  end.
  { repeat split; [done | | |].
    - rewrite Hn. intros Hempty. by rewrite Hempty in Hname.
    - rewrite Hn. apply rsplit_last_no_sep.
    - rewrite Hp. apply lstrip_not_startswith. }
  destruct (favorite && _).
  - rewrite bind_run.
    match goal with
    | |- context [by_path0 ?p w] =>
        pose proof (by_path0_listed p w) as Hfound;
        destruct (by_path0 p w) as [[[n|]|e] w1]
    end; cbn in Hfound |- *; try done.
    apply Forall_app. split; [done|]. apply Forall_singleton.
    by apply (Hfound n).
  - destruct (negb _); cbn; [|done].
    apply Forall_app. split; [done|]. by apply Forall_singleton.
Qed.

Lemma parse_records_loop_listed (favorite : bool) (records : list PyVal) :
  ∀ result w, Forall (listed_node user0) result →
  returns_only (listed_node user0)
    (parse_records_loop by_path0 user0 favorite result records w).
Proof using by_path0_listed.
  induction records as [|record rest IH]; intros result w Hres; [done|].
  cbn [parse_records_loop]. unfold returns_only. rewrite bind_run.
  pose proof (parse_records_step_listed favorite result record w Hres) as Hstep.
  destruct (parse_records_step by_path0 user0 favorite result record w)
    as [[result'|e] w1]; [|done].
  by apply IH.
Qed.

Lemma decode_listed (webdav_res : httpx.Response) label (favorite : bool) w :
  returns_only (listed_node user0)
    (_lf_parse_webdav_records by_path0 webdav_res user0 label favorite w).
Proof using by_path0_listed.
  unfold returns_only, _lf_parse_webdav_records, check_error, lift.
  rewrite bind_run.
  destruct (http_is_error _); [done|].
  destruct (negb (_ =? 207)); [done|].
  destruct (negb (Str.truthy _)); [done|].
  run_lib ltac:(done).
  destruct (dict_get "d:error" _).
  - run_lib ltac:(done). run_lib ltac:(done). done.
  - run_lib ltac:(done). run_lib ltac:(done).
    unfold _parse_records. run_lib ltac:(done).
    by apply parse_records_loop_listed.
Qed.

End Listed.

Lemma listdir_listed user0 path0 (properties : list string) (exclude_self : bool) w :
  returns_only (listed_node user0) (_listdir user0 path0 properties exclude_self w).
Proof.
  rewrite listdir_run. cbn zeta. unfold returns_only. cbn [fst].
  match goal with
  | |- context [_lf_parse_webdav_records ?bp ?r ?u ?i false ?w0] =>
      pose proof (decode_listed bp u (λ _ _ _ H, ltac:(discriminate H)) r i false w0)
        as Hdec;
      unfold returns_only in Hdec;
      destruct (_lf_parse_webdav_records bp r u i false w0).1 as [result|e]
  end; [|done].
  destruct exclude_self; [by apply remove_self_Forall | done].
Qed.

Lemma by_path_listed path0 w n :
  (by_path path0 w).1 = Ok (Some n) → listed_node session_user n.
Proof.
  unfold by_path, listdir. rewrite bind_run.
  pose proof (listdir_listed session_user path0 PROPFIND_PROPERTIES false w) as Hl.
  unfold returns_only in Hl.
  destruct (_listdir session_user path0 PROPFIND_PROPERTIES false w)
    as [[result|e] w1]; cbn in Hl |- *; [|done].
  intros [= Hn]. destruct Hl as [|n0 rest Hn0 _]; [discriminate|].
  cbn in Hn. by injection Hn as <-.
Qed.

Lemma with_info_listed user0 (g : FsNodeInfo → FsNodeInfo) n :
  listed_node user0 n → listed_node user0 (with_info g n).
Proof. done. Qed.

(** X10.  Every node [listdir], [find] or [listfav] returns is a node of the
    account asked for (of no account for [listdir] with [root]); its name
    is not empty and has no slash in it, and its path does not start with a
    slash. *)
Theorem listings_return_listed_nodes :
  (∀ path0 (exclude_self root : bool) w result w',
      listdir path0 exclude_self root w = (Ok result, w') →
      Forall (listed_node (if root then "" else session_user)) result)
  ∧ (∀ (req : list PyVal) path0 (depth : Z) w result w',
      find req path0 depth w = (Ok result, w') →
      Forall (listed_node session_user) result)
  ∧ (∀ w result w',
      listfav w = (Ok result, w') → Forall (listed_node session_user) result).
Proof.
  split; [|split].
  - intros path0 exclude_self root w result w' H.
    pose proof (listdir_listed (if root then "" else session_user) path0
                  PROPFIND_PROPERTIES exclude_self w) as Hl.
    unfold returns_only in Hl. unfold listdir in H. by rewrite H in Hl.
  - intros req path0 depth w result w' H.
    destruct (_build_search_req (new_element "d:where" []) req)
      as [[xml_where req']|e] eqn:Hreq.
    + rewrite (find_run _ _ _ _ _ _ Hreq) in H. cbn zeta in H.
      match type of H with
      | context [_lf_parse_webdav_records ?bp ?r ?u ?i false ?w0] =>
          pose proof (decode_listed bp u (λ _ _ _ H, ltac:(discriminate H)) r i false w0)
            as Hdec
      end.
      unfold returns_only in Hdec. injection H as H _. by rewrite H in Hdec.
    + pose proof (proj1 (find_sends_one_search_aux req path0 depth w) e Hreq) as Hf.
      rewrite Hf in H. discriminate.
  - intros w result w' H. unfold listfav in H. rewrite bind_run in H.
    unfold session_dav in H. destruct (dav _ _) as [response s].
    rewrite bind_run in H. unfold lift in H.
    destruct (check_error _ _); [|discriminate].
    match type of H with
    | context [_lf_parse_webdav_records by_path ?r ?u ?i true ?w0] =>
        pose proof (decode_listed by_path u by_path_listed r i true w0) as Hdec
    end.
    unfold returns_only in Hdec. by rewrite H in Hdec.
Qed.

(** ** The envelope *)

(** X11.  Under a sound envelope (status 207, a body, no [d:error], a
    [d:multistatus] that is a dict) the decoder takes the entries as they
    come: none when there is no [d:response], giving the empty list and no
    error; the one entry when [d:response] is a single dict, exactly as if
    it were a list of that one entry; the entries of the list otherwise. *)
Theorem decode_unwraps_responses by_path0 (webdav_res : httpx.Response) user0 label
    (favorite : bool) w (response_data multistatus : list (string * PyVal)) :
  http_is_error (httpx.status_code webdav_res) = false →
  httpx.status_code webdav_res = 207 →
  httpx.text webdav_res ≠ "" →
  xmltodict_parse (httpx.text webdav_res) = Ok response_data →
  dict_get "d:error" response_data = None →
  dict_get "d:multistatus" response_data = Some (PDict multistatus) →
  let decoded := _lf_parse_webdav_records by_path0 webdav_res user0 label favorite w in
  (dict_get "d:response" multistatus = None → decoded = (Ok [], w))
  ∧ (∀ entry : list (string * PyVal),
      dict_get "d:response" multistatus = Some (PDict entry) →
      decoded = parse_records_loop by_path0 user0 favorite [] [PDict entry] w)
  ∧ (∀ entries : list PyVal,
      dict_get "d:response" multistatus = Some (PList entries) →
      decoded = parse_records_loop by_path0 user0 favorite [] entries w).
Proof.
  intros H1 H2 H3 H4 H5 H6. cbn zeta.
  assert (Hdec : _lf_parse_webdav_records by_path0 webdav_res user0 label favorite w
                 = _parse_records by_path0
                     (match (match dict_get "d:response" multistatus with
                             | Some x => x
                             | None => PList []
                             end) with
                      | PDict d => PList [PDict d]
                      | v => v
                      end) user0 favorite w).
  { unfold _lf_parse_webdav_records, check_error, lift. rewrite bind_run, H1, H2.
    cbn [Z.eqb Pos.eqb negb].
    destruct (httpx.text webdav_res) as [|a t]; [done|]. cbn [Str.truthy negb].
    rewrite bind_run, pure_run, H4. cbn [lib]. rewrite H5.
    rewrite bind_run, pure_run. cbn [py_getitem]. rewrite H6. cbn [lib].
    rewrite bind_run, pure_run. cbn [py_get lib].
    by destruct (match dict_get "d:response" multistatus with
                 | Some x => x | None => PList [] end). }
  rewrite Hdec. split; [|split].
  - by intros ->.
  - by intros entry ->.
  - by intros entries ->.
Qed.

(** ** The parser on its edges *)

(** X12.  A propstat block is read through its status and eight property
    keys only: two blocks with the same status whose property dicts agree
    on those keys parse alike, whatever else the dicts hold and in whatever
    order. *)
Theorem parse_reads_known_keys_only n (block block' prop prop' : list (string * PyVal)) :
  dict_get "d:status" block = dict_get "d:status" block' →
  dict_get "d:prop" block = Some (PDict prop) →
  dict_get "d:prop" block' = Some (PDict prop') →
  Forall (λ key, dict_get key prop = dict_get key prop') PARSED_PROPERTIES →
  parse_prop_stat n (PDict block) = parse_prop_stat n (PDict block').
Proof.
  intros Hs Hp Hp' Hkeys. unfold PARSED_PROPERTIES in Hkeys.
  repeat match goal with
         | H : Forall _ (_ :: _) |- _ => apply Forall_cons in H as [? H]
         end.
  unfold parse_prop_stat. cbn [py_get py_getitem mbind Result_bind].
  rewrite Hs, Hp, Hp'. destruct (negb _); [done|].
  cbn [mbind Result_bind]. unfold if_key.
  repeat match goal with
         | H : dict_get ?k prop = dict_get ?k prop' |- _ => rewrite H; clear H
         end.
  reflexivity.
Qed.

Lemma parse_prop_stats_app n (pre post : list PyVal) :
  parse_prop_stats n (pre ++ post)
  = (parse_prop_stats n pre ≫= λ m, parse_prop_stats m post).
Proof.
  revert n. induction pre as [|ps pre IH]; intros n; [done|].
  cbn [app parse_prop_stats mbind Result_bind].
  destruct (parse_prop_stat n ps); [apply IH | done].
Qed.

Lemma if_key_found key (prop : list (string * PyVal)) f n v :
  dict_get key prop = Some v → if_key key prop f n = f v n.
Proof. intros H. unfold if_key. by rewrite H. Qed.

Lemma if_key_val_returns key (prop : list (string * PyVal))
    (g : PyVal → FsNodeInfo → FsNodeInfo) n :
  ∃ m, if_key key prop (λ v n, mret (with_info (g v) n)) n = Ok m.
Proof. unfold if_key. destruct (dict_get key prop); eauto. Qed.

(** X13.  An [oc:fileid] that [int] rejects is not swallowed as a date is:
    in a block with [200 OK] it aborts the record with the exception of
    [int] ([ValueError] for a string that is no number, [TypeError] for an
    empty element), whatever the blocks after it hold. *)
Theorem bad_fileid_aborts_record (pre post : list PyVal)
    (block prop : list (string * PyVal)) (v : PyVal) (exn : Builtin) user0 path0 name0 :
  Forall (λ ps, is_dict ps = true ∧ successful ps = false) pre →
  successful (PDict block) = true →
  dict_get "d:prop" block = Some (PDict prop) →
  dict_get "oc:fileid" prop = Some v →
  py_int int_of_str v = Raise exn →
  _parse_record (pre ++ PDict block :: post) user0 path0 name0 = Raise exn.
Proof.
  intros Hpre Hs Hp Hv Hint. unfold _parse_record.
  rewrite parse_prop_stats_app, parse_prop_stats_skip by done.
  cbn [mbind Result_bind parse_prop_stats].
  unfold parse_prop_stat. cbn [py_get py_getitem mbind Result_bind].
  cbn [successful] in Hs. rewrite Hs, Hp. cbn [negb mbind Result_bind].
  destruct (if_key_val_returns "oc:id" prop set_nc_id (FsNode_init user0 path0 name0))
    as [m ->].
  cbn [mbind Result_bind]. rewrite (if_key_found "oc:fileid" prop _ _ v Hv).
  cbn [mbind Result_bind]. by rewrite Hint.
Qed.

(** X14.  A block with [200 OK] must bring a property dict: without a
    [d:prop] the record fails with [KeyError], with a [d:prop] that is no
    dict (an empty element comes as [None]) with [AttributeError]. *)
Theorem successful_block_needs_properties n (block : list (string * PyVal)) :
  successful (PDict block) = true →
  (dict_get "d:prop" block = None →
   parse_prop_stat n (PDict block) = Raise KeyError)
  ∧ (∀ v, dict_get "d:prop" block = Some v → is_dict v = false →
          parse_prop_stat n (PDict block) = Raise AttributeError).
Proof.
  intros Hs. cbn [successful] in Hs. unfold parse_prop_stat.
  cbn [py_get py_getitem mbind Result_bind]. rewrite Hs. cbn [negb]. split.
  - by intros ->.
  - intros v -> Hv. by destruct v.
Qed.

(** ** Deleting, marking, addressing *)

(** X15.  [delete] is one DELETE.  With [not_fail] an answer 404 returns
    normally, whatever [check_error] thinks of 404; without it, and for
    every other status code, the outcome is the one of [check_error]. *)
Theorem delete_tolerates_missing path0 (not_fail : bool) w :
  let r := delete_request path0 in
  let status := httpx.status_code (dav r (server w)).1 in
  (delete path0 not_fail w).2 = mkWorld (dav r (server w)).2 (sent w ++ [r])
  ∧ (status = 404 → (delete path0 true w).1 = Ok ())
  ∧ (status = 404 → (delete path0 false w).1 = check_error 404 (delete_info path0))
  ∧ (status ≠ 404 →
     (delete path0 not_fail w).1 = check_error status (delete_info path0)).
Proof.
  cbn zeta. unfold delete. rewrite !bind_run. unfold session_dav.
  fold (delete_request path0).
  destruct (dav (delete_request path0) (server w)) as [response s]. cbn [fst snd].
  split; [by destruct (_ && _)|].
  split; [by intros ->|]. split; [by intros ->|].
  intros Hne. apply Z.eqb_neq in Hne. by rewrite Hne.
Qed.

(** X16.  [setfav] is one PROPPATCH, and what it writes depends on the
    value through its truth only: 1 for every value that is true (every
    integer but 0), 0 otherwise.  It returns when [check_error] accepts the
    status code, and only then. *)
Theorem setfav_writes_truth path0 (value : PyVal) w :
  let r := proppatch_request path0 (py_truthy value) in
  let status := httpx.status_code (dav r (server w)).1 in
  (setfav path0 value w).2 = mkWorld (dav r (server w)).2 (sent w ++ [r])
  ∧ ((setfav path0 value w).1 = Ok () ↔ http_is_error status = false).
Proof.
  cbn zeta. unfold setfav. rewrite !bind_run. unfold session_dav.
  change (mkRequest "PROPPATCH" _ _ _) with (proppatch_request path0 (py_truthy value)).
  destruct (dav (proppatch_request path0 (py_truthy value)) (server w)) as [response s].
  cbn [fst snd]. unfold lift, check_error.
  destruct (http_is_error _); by repeat split.
Qed.

Lemma lstrip_idempotent c (s : string) : Str.lstrip c (Str.lstrip c s) = Str.lstrip c s.
Proof.
  induction s as [|a s IH]; [reflexivity|]. cbn [Str.lstrip].
  destruct (Str.is_char a c) eqn:Ha; [exact IH|]. cbn [Str.lstrip]. by rewrite Ha.
Qed.

Lemma obj_path_lstrip user0 (path0 : string) :
  Str.lstrip "/" path0 ≠ "" →
  _dav_get_obj_path user0 path0 = _dav_get_obj_path user0 (Str.lstrip "/" path0).
Proof.
  intros Hne. unfold _dav_get_obj_path. rewrite lstrip_idempotent.
  destruct path0 as [|a t]; [done|]. by destruct (Str.lstrip "/" (String a t)).
Qed.

(** X17.  Leading slashes of a path that names something change nothing on
    the wire: [listdir], [mkdir], [delete], [setfav], [move] and [copy] send
    the request of the path without them and leave the server as that path
    does, and the five that return nothing return or raise as it does.  Only
    the label of an error shows the path as it was given. *)
Theorem leading_slashes_address_the_same (path0 path1 : string) w :
  Str.lstrip "/" path0 ≠ "" → Str.lstrip "/" path1 ≠ "" →
  let p0 := Str.lstrip "/" path0 in
  let p1 := Str.lstrip "/" path1 in
  (∀ exclude_self root : bool,
      (listdir path0 exclude_self root w).2 = (listdir p0 exclude_self root w).2)
  ∧ alike (mkdir path0 w) (mkdir p0 w)
  ∧ (∀ not_fail : bool, alike (delete path0 not_fail w) (delete p0 not_fail w))
  ∧ (∀ value : PyVal, alike (setfav path0 value w) (setfav p0 value w))
  ∧ (∀ endpoint (overwrite : bool),
      alike (move endpoint path0 path1 overwrite w) (move endpoint p0 p1 overwrite w)
      ∧ sent (move endpoint path0 path1 overwrite w).2
        = sent w ++ [relocate_request endpoint "MOVE" p0 p1 overwrite])
  ∧ (∀ endpoint (overwrite : bool),
      alike (copy endpoint path0 path1 overwrite w) (copy endpoint p0 p1 overwrite w)
      ∧ sent (copy endpoint path0 path1 overwrite w).2
        = sent w ++ [relocate_request endpoint "COPY" p0 p1 overwrite]).
Proof.
  intros H0 H1. cbn zeta.
  pose proof (obj_path_lstrip session_user path0 H0) as E0.
  pose proof (obj_path_lstrip session_user path1 H1) as E1.
  split; [|split; [|split; [|split; [|split]]]].
  - intros exclude_self root. unfold listdir. rewrite !listdir_run. cbn zeta. cbn [snd].
    unfold propfind_request. by rewrite <- (obj_path_lstrip _ path0 H0).
  - rewrite !mkdir_run. unfold alike, mkcol_request. cbn [fst snd]. rewrite <- E0.
    split; [done|]. unfold check_error. by destruct (http_is_error _).
  - intros not_fail. unfold alike, delete. rewrite !bind_run. unfold session_dav.
    rewrite <- E0.
    destruct (dav _ (server w)) as [response s]. cbn [fst snd].
    destruct (_ && _); [done|]. unfold lift, check_error. cbn [fst snd].
    by destruct (http_is_error _).
  - intros value. unfold alike, setfav. rewrite !bind_run. unfold session_dav.
    rewrite <- E0.
    destruct (dav _ (server w)) as [response s]. cbn [fst snd].
    unfold lift, check_error. cbn [fst snd]. by destruct (http_is_error _).
  - intros endpoint overwrite. unfold alike, move, relocate_request. cbn zeta.
    rewrite !bind_run. unfold session_dav. rewrite <- E0, <- E1.
    destruct (dav _ (server w)) as [response s]. cbn [fst snd].
    unfold lift, check_error. cbn [fst snd]. by destruct (http_is_error _).
  - intros endpoint overwrite. unfold alike, copy, relocate_request. cbn zeta.
    rewrite !bind_run. unfold session_dav. rewrite <- E0, <- E1.
    destruct (dav _ (server w)) as [response s]. cbn [fst snd].
    unfold lift, check_error. cbn [fst snd]. by destruct (http_is_error _).
Qed.

(** ** Creating directories, whatever comes of it *)

Lemma makedirs_loop_sent (exist_ok : bool) (parts : list string) : ∀ _path w,
  let reqs := map mkcol_request (segment_paths _path parts) in
  ∃ k : nat,
    (k ≤ length parts)%nat
    ∧ (parts ≠ [] → (1 ≤ k)%nat)
    ∧ sent (makedirs_loop exist_ok _path parts w).2 = sent w ++ take k reqs.
Proof.
  induction parts as [|i rest IH]; intros _path w; cbn zeta.
  - exists 0%nat. cbn. by rewrite app_nil_r.
  - cbn [segment_paths map makedirs_loop]. rewrite bind_run, makedirs_round.
    cbn zeta. destruct (tolerated _ _).
    + destruct (IH (path_join _path i)
                  (mkWorld (dav (mkcol_request (path_join _path i)) (server w)).2
                     (sent w ++ [mkcol_request (path_join _path i)])))
        as (k & Hk & _ & Hsent).
      cbn zeta in Hsent. exists (S k). cbn [length take sent] in Hsent |- *.
      rewrite Hsent, <- app_assoc. split; [lia|]. split; [lia | done].
    + exists 1%nat. cbn [length take snd sent]. rewrite take_0.
      split; [lia|]. by split.
Qed.

(** X18.  Whatever the server answers, what [makedirs] has sent is the
    creates of the path's segments from the first up to some segment, and at
    least the first when the path has a segment; for the empty path it
    sends nothing and returns.  A path that starts with a slash has the
    root as its first segment: its first create is the one of the account
    root. *)
Theorem makedirs_sends_a_prefix path0 (exist_ok : bool) w :
  let reqs := map mkcol_request (segment_paths "" (path_parts path0)) in
  (∃ k : nat,
      (k ≤ length reqs)%nat
      ∧ (path_parts path0 ≠ [] → (1 ≤ k)%nat)
      ∧ sent (makedirs path0 exist_ok w).2 = sent w ++ take k reqs)
  ∧ makedirs "" exist_ok w = (Ok (), w)
  ∧ (Str.startswith "/" path0 = true →
     ∃ root later,
       (root = "/" ∨ root = "//")
       ∧ reqs = mkcol_request root :: later
       ∧ url (mkcol_request root) = _dav_get_obj_path session_user "/").
Proof.
  cbn zeta. split; [|split].
  - destruct (makedirs_loop_sent exist_ok (path_parts path0) "" w)
      as (k & Hk & Hone & Hsent).
    exists k. split; [|by split].
    assert (Hlen : ∀ parts _path, length (segment_paths _path parts) = length parts).
    { induction parts as [|i rest IH]; intros _path; [done|]. cbn. by rewrite IH. }
    by rewrite length_map, Hlen.
  - reflexivity.
  - intros Hroot. unfold path_parts. rewrite Hroot.
    destruct (Str.startswith "//" path0 && negb (Str.startswith "///" path0)).
    + exists "//". eexists. split; [by right|]. split; reflexivity.
    + exists "/". eexists. split; [by left|]. split; reflexivity.
Qed.

End Facade_more.

(** ** The authentication middleware *)

Module AppAPIAuthMiddleware_properties.
Import AppAPIAuthMiddleware.

Lemma py_in_In (x : string) (l : list string) : py_in x l = true ↔ In x l.
Proof.
  unfold py_in. rewrite existsb_exists. split.
  - intros (y & Hy & Heq). apply String.eqb_eq in Heq. by subst.
  - intros H. exists x. split; [done|]. apply String.eqb_refl.
Qed.

Lemma init_members (disable_for : option (list string)) (x : string) :
  In x (__init__ disable_for)
  ↔ x = "heartbeat"
    ∨ ∃ i, In i (default [] disable_for) ∧ Str.lstrip "/" i = x.
Proof.
  unfold __init__. rewrite in_app_iff, filter_In. cbn [In]. split.
  - intros [[Hx _] | [<- | []]]; [|by left].
    right. destruct disable_for as [l|]; [|done].
    apply in_map_iff in Hx as (i & <- & Hi). eauto.
  - intros [-> | (i & Hi & <-)]; [by right; left|].
    destruct (Str.eqb (Str.lstrip "/" i) "heartbeat") eqn:Heq.
    + apply String.eqb_eq in Heq. right. by left.
    + left. split; [|done].
      destruct disable_for as [l|]; [|done]. apply in_map_iff. eauto.
Qed.

(** X19.  However the middleware is set up, [heartbeat] is in its list of
    paths without authentication, exactly once and last; besides it the
    list holds the paths given, without their leading slashes, and nothing
    else. *)
Theorem heartbeat_always_disabled (disable_for : option (list string)) :
  (∃ others,
      __init__ disable_for = others ++ ["heartbeat"] ∧ ¬ In "heartbeat" others)
  ∧ ∀ x, In x (__init__ disable_for)
         ↔ x = "heartbeat"
           ∨ ∃ i, In i (default [] disable_for) ∧ Str.lstrip "/" i = x.
Proof.
  split; [|apply init_members].
  eexists. split; [reflexivity|]. rewrite filter_In. intros [_ H]. discriminate.
Qed.

Section Call_properties.
Variable anc_app : Scope → Auth.

(** X20.  What reaches the application.  An event that is no HTTP request
    is passed on unauthenticated, and so is a request for [heartbeat] (with
    any number of leading slashes) however the middleware was set up.  Any
    other request is authenticated first unless its path was given as
    disabled, and one whose authentication raises [HTTPException] is
    answered with the status code and the detail of the exception and never
    reaches the application. *)
Theorem middleware_guards_the_app (disable_for : option (list string)) (scope : Scope) :
  let steps := __call__ anc_app (__init__ disable_for) scope in
  (scope_type scope ≠ "http" → steps = [CallApp])
  ∧ (Str.lstrip "/" (url_path scope) = "heartbeat" → steps = [CallApp])
  ∧ (scope_type scope = "http" →
     ¬ In (Str.lstrip "/" (url_path scope)) (__init__ disable_for) →
     steps = match anc_app scope with
             | Authenticated => [CallAuth; CallApp]
             | HTTPException status_code detail => [CallAuth; Respond status_code detail]
             | OtherException e => [CallAuth; Propagate e]
             end)
  ∧ (∀ status_code detail,
      In (Respond status_code detail) steps →
      anc_app scope = HTTPException status_code detail ∧ ¬ In CallApp steps).
Proof.
  cbn zeta. unfold __call__. split; [|split; [|split]].
  - intros Hne. apply String.eqb_neq in Hne. unfold Str.eqb. by rewrite Hne.
  - intros Hhb. destruct (negb _); [done|].
    assert (Hin : py_in (Str.lstrip "/" (url_path scope)) (__init__ disable_for) = true).
    { apply py_in_In, init_members. by left. }
    by rewrite Hin.
  - intros Hhttp Hnot. unfold Str.eqb. rewrite Hhttp. cbn [String.eqb negb].
    destruct (py_in _ _) eqn:Hin; [|done]. by apply py_in_In in Hin.
  - intros status_code detail.
    destruct (negb (Str.eqb _ _)); [intros [|[]]; discriminate|].
    destruct (negb (py_in _ _)); [|intros [|[]]; discriminate].
    destruct (anc_app scope); intros [H|[H|[]]]; try discriminate.
    injection H as <- <-. split; [done|]. intros [?|[?|[]]]; discriminate.
Qed.

End Call_properties.

End AppAPIAuthMiddleware_properties.

(** ** Further runs on the small platforms *)

Section More_runs.

Local Abbreviation FsNode := (@FsNode Z).
Local Abbreviation World := (@World (list string)).

(** X4 on the first platform: a list with the field [name] does not compile,
    and nothing is sent. *)
Lemma find_sends_one_search_witness :
  @find _ _ Demo.platform [PStr "eq"; PStr "name"; PStr "a.txt"] "" (-1) Demo.world0
  = (Raise (Py KeyError), Demo.world0).
Proof.
  apply (proj1 (@find_sends_one_search _ _ Demo.platform
                  [PStr "eq"; PStr "name"; PStr "a.txt"] "" (-1) Demo.world0)
           (Py KeyError)).
  reflexivity.
Defined.

(** X5 on the first platform, whose server answers a SEARCH with 400. *)
Lemma find_label_hides_query_witness :
  (@find _ _ Demo.platform [PStr "eq"; PStr "fileid"; PInt 7] "docs" 1 Demo.world0).1
  = Raise (NextcloudException (Some 400) "" "find: admin, [], docs, 1").
Proof.
  exact (@find_label_hides_query _ _ Demo.platform
           [PStr "eq"; PStr "fileid"; PInt 7] "docs" 1 Demo.world0
           (mkElement "d:where" [] None
              [expr_xml (Cmp (PStr "eq") "fileid" (PInt 7))]) [] eq_refl eq_refl).
Defined.

(** X6 on the second platform: the node of the answer, whose id is 7. *)
Lemma by_id_sends_one_search_witness :
  (@by_id _ _ Store.platform 7 Store.world0).1 = Ok (Some Store.found_node)
  ∧ fileid (info Store.found_node) ≠ 0.
Proof.
  assert (H : (@by_id _ _ Store.platform 7 Store.world0).1 = Ok (Some Store.found_node))
    by (vm_compute; reflexivity).
  split; [exact H|].
  exact (proj2 (@by_id_sends_one_search _ _ Store.platform 7 Store.world0)
           Store.found_node H).
Defined.

(** X8 on the first platform: a plain decode of an entry without file id
    sends nothing. *)
Lemma decode_sends_lookups_only_witness :
  sent (@parse_records_loop _ _ Demo.platform (@by_path _ _ Demo.platform) "admin" false []
          [ PDict [ ("d:href", PStr "/remote.php/dav/files/admin/fav.txt");
                    ("d:propstat", Demo.empty_propstat) ] ] Demo.world0).2
  = sent Demo.world0.
Proof.
  destruct (proj1 (@decode_sends_lookups_only _ _ Demo.platform "admin" false
                     [ PDict [ ("d:href", PStr "/remote.php/dav/files/admin/fav.txt");
                               ("d:propstat", Demo.empty_propstat) ] ] Demo.world0))
    as (lookups & Hsent & _ & _ & Hplain).
  rewrite Hsent, (Hplain eq_refl). apply app_nil_r.
Defined.

(** X9 on the first platform: one node in the result, one entry, one node
    added. *)
Lemma parse_records_only_appends_witness :
  ∃ added,
    [DemoRuns.a_txt_node; DemoRuns.fav_node] = [DemoRuns.a_txt_node] ++ added
    ∧ (length added ≤ 1)%nat.
Proof.
  apply (@parse_records_only_appends _ _ Demo.platform "admin" true
           [ PDict [ ("d:href", PStr "/remote.php/dav/files/admin/fav.txt");
                     ("d:propstat", Demo.empty_propstat) ] ]
           [DemoRuns.a_txt_node] Demo.world0 [DemoRuns.a_txt_node; DemoRuns.fav_node]
           (Demo.world [] [propfind_request "admin" "fav.txt" PROPFIND_PROPERTIES])).
  vm_compute. reflexivity.
Defined.

(** X10 on the first platform: the listing of [docs]. *)
Lemma listings_return_listed_nodes_witness :
  Forall (@listed_node Z "admin") [DemoRuns.docs_node; DemoRuns.a_txt_node].
Proof.
  apply (proj1 (@listings_return_listed_nodes _ _ Demo.platform)
           "docs" false false Demo.world0 [DemoRuns.docs_node; DemoRuns.a_txt_node]
           (Demo.world [] [propfind_request "admin" "docs" PROPFIND_PROPERTIES])).
  vm_compute. reflexivity.
Defined.

(** X11 on the first platform: the body with the single entry [fav.txt]. *)
Lemma decode_unwraps_responses_witness :
  @_lf_parse_webdav_records _ _ Demo.platform (@by_path_unused _ _)
    (httpx.mkResponse 207 Demo.fav_body) "admin" "list" false Demo.world0
  = @parse_records_loop _ _ Demo.platform (@by_path_unused _ _) "admin" false []
      [ PDict [ ("d:href", PStr "/remote.php/dav/files/admin/fav.txt");
                ("d:propstat", Demo.ok_propstat "7") ] ] Demo.world0.
Proof.
  apply (proj1 (proj2 (@decode_unwraps_responses _ _ Demo.platform (@by_path_unused _ _)
                         (httpx.mkResponse 207 Demo.fav_body) "admin" "list" false
                         Demo.world0 Demo.fav_data
                         [ ("@xmlns:d", PStr "DAV:");
                           ("@xmlns:oc", PStr "http://owncloud.org/ns");
                           ("d:response",
                            PDict [ ("d:href", PStr "/remote.php/dav/files/admin/fav.txt");
                                    ("d:propstat", Demo.ok_propstat "7") ]) ]
                         eq_refl eq_refl ltac:(discriminate) eq_refl eq_refl eq_refl)));
    reflexivity.
Defined.

(** X12: a property the parser does not know, and the keys in another
    order. *)
Lemma parse_reads_known_keys_only_witness :
  @parse_prop_stat _ _ Demo.platform DemoRuns.a_txt_node
    (PDict [ ("d:status", PStr "HTTP/1.1 200 OK");
             ("d:prop", PDict [("oc:fileid", PStr "5"); ("oc:size", PStr "9")]) ])
  = @parse_prop_stat _ _ Demo.platform DemoRuns.a_txt_node
      (PDict [ ("d:prop", PDict [ ("oc:size", PStr "9"); ("nc:lock", PNone);
                                  ("oc:fileid", PStr "5") ]);
               ("d:status", PStr "HTTP/1.1 200 OK") ]).
Proof.
  apply (@parse_reads_known_keys_only _ _ Demo.platform DemoRuns.a_txt_node
           _ _ [("oc:fileid", PStr "5"); ("oc:size", PStr "9")]
           [("oc:size", PStr "9"); ("nc:lock", PNone); ("oc:fileid", PStr "5")]);
    try reflexivity.
  repeat constructor.
Defined.

(** X13: a file id that is no number, after a block that failed. *)
Lemma bad_fileid_aborts_record_witness :
  @_parse_record _ _ Demo.platform
    [ Demo.empty_propstat;
      PDict [ ("d:prop", PDict [("oc:fileid", PStr "seven")]);
              ("d:status", PStr "HTTP/1.1 200 OK") ];
      Demo.ok_propstat "7" ]
    "admin" "a.txt" "a.txt"
  = Raise ValueError.
Proof.
  apply (@bad_fileid_aborts_record _ _ Demo.platform [Demo.empty_propstat]
           [Demo.ok_propstat "7"]
           [ ("d:prop", PDict [("oc:fileid", PStr "seven")]);
             ("d:status", PStr "HTTP/1.1 200 OK") ]
           [("oc:fileid", PStr "seven")] (PStr "seven") ValueError
           "admin" "a.txt" "a.txt"); try reflexivity.
  by repeat constructor.
Defined.

(** X14: a block with [200 OK] whose [d:prop] is an empty element. *)
Lemma successful_block_needs_properties_witness :
  @parse_prop_stat _ _ Demo.platform DemoRuns.a_txt_node
    (PDict [("d:prop", PNone); ("d:status", PStr "HTTP/1.1 200 OK")])
  = Raise AttributeError.
Proof.
  apply (proj2 (@successful_block_needs_properties _ _ Demo.platform DemoRuns.a_txt_node
                  [("d:prop", PNone); ("d:status", PStr "HTTP/1.1 200 OK")] eq_refl)
           PNone); reflexivity.
Defined.

(** X15 on the second platform, which has no [gone.txt]: tolerated with
    [not_fail], raised without. *)
Lemma delete_tolerates_missing_witness :
  (@delete _ _ Store.platform "gone.txt" true Store.world0).1 = Ok ()
  ∧ (@delete _ _ Store.platform "gone.txt" false Store.world0).1
    = Raise (NextcloudException (Some 404) "Not Found"
               "delete: user=admin, path=gone.txt").
Proof.
  pose proof (@delete_tolerates_missing _ _ Store.platform "gone.txt" true Store.world0)
    as (_ & H1 & H2 & _).
  split; [exact (H1 eq_refl) | exact (H2 eq_refl)].
Defined.

(** X16 on the second platform: the value 5 sets the flag. *)
Lemma setfav_writes_truth_witness :
  (@setfav _ _ Store.platform "fav.txt" (PInt 5) Store.world0).1 = Ok ()
  ∧ sent (@setfav _ _ Store.platform "fav.txt" (PInt 5) Store.world0).2
    = [@proppatch_request _ _ Store.platform "fav.txt" true].
Proof.
  pose proof (@setfav_writes_truth _ _ Store.platform "fav.txt" (PInt 5) Store.world0)
    as [Hsent Hok].
  split; [exact (proj2 Hok eq_refl) | by rewrite Hsent].
Defined.

(** X17 on the second platform: deleting [//docs] is deleting [docs]. *)
Lemma leading_slashes_address_the_same_witness :
  alike (@delete _ _ Store.platform "//docs" true Store.world0)
        (@delete _ _ Store.platform "docs" true Store.world0).
Proof.
  pose proof (@leading_slashes_address_the_same _ _ Store.platform "//docs" "/new"
                Store.world0 ltac:(discriminate) ltac:(discriminate))
    as (_ & _ & H & _).
  exact (H true).
Defined.

(** X18 on the first platform: [/a] creates the root, then [/a]. *)
Lemma makedirs_sends_a_prefix_witness :
  ∃ root later,
    (root = "/" ∨ root = "//")
    ∧ map (@mkcol_request _ _ Demo.platform)
        (segment_paths "" (path_parts "/a"))
      = @mkcol_request _ _ Demo.platform root :: later
    ∧ url (@mkcol_request _ _ Demo.platform root) = "/files/admin/".
Proof.
  exact (proj2 (proj2 (@makedirs_sends_a_prefix _ _ Demo.platform "/a" true Demo.world0))
           eq_refl).
Defined.

End More_runs.

Module AppAPIAuthMiddleware_runs.
Import AppAPIAuthMiddleware.

(** X19 for two paths given, one of them [heartbeat]. *)
Lemma heartbeat_always_disabled_witness :
  In "init" (__init__ (Some ["/init"; "/heartbeat"]))
  ∧ __init__ (Some ["/init"; "/heartbeat"]) = ["init"; "heartbeat"].
Proof.
  split; [|reflexivity].
  apply (proj2 (AppAPIAuthMiddleware_properties.heartbeat_always_disabled
                  (Some ["/init"; "/heartbeat"])) "init").
  right. exists "/init". split; [by left | reflexivity].
Defined.

(** X20 for a request whose signature check fails with 401. *)
Lemma middleware_guards_the_app_witness :
  __call__ (fun _ => HTTPException 401 "Unauthorized") (__init__ None)
    (mkScope "http" "/enabled")
  = [CallAuth; Respond 401 "Unauthorized"]
  ∧ __call__ (fun _ => HTTPException 401 "Unauthorized") (__init__ None)
      (mkScope "http" "//heartbeat")
    = [CallApp].
Proof.
  pose proof (AppAPIAuthMiddleware_properties.middleware_guards_the_app
                (fun _ => HTTPException 401 "Unauthorized") None
                (mkScope "http" "/enabled")) as (_ & _ & H3 & _).
  pose proof (AppAPIAuthMiddleware_properties.middleware_guards_the_app
                (fun _ => HTTPException 401 "Unauthorized") None
                (mkScope "http" "//heartbeat")) as (_ & H2 & _).
  split; [apply H3 | apply H2]; try reflexivity.
  intros [H|[]]. discriminate.
Defined.

End AppAPIAuthMiddleware_runs.
